(** * cdclient: route guard and HTTP gateway bootstrap

    A shallow embedding of the two source files of the application,

    - [src/components/ProtectedRoute.jsx], the React route guard, and
    - [backend/app.js], the Express bootstrap (startup check, CORS policy,
      rate-limit mount, body parsing, route table, fallbacks, central error
      handler, process-level shutdown handlers),

    with the properties of the specification stated and proved over it.

    Conventions.  JavaScript values that the code only tests for truthiness
    are modelled with their [ToBoolean] written out ([undefined], [null],
    [""], [0], [NaN] and [false] are falsy).  The Express application is an
    ordered stack of layers; a layer either passes control ([next()]), raises
    ([next(err)] or a thrown exception), or ends the exchange.  Packages that
    are not part of the repository (routers, sanitizers, the rate-limit
    store, the filesystem, [JSON.parse], the clock) are fields of an
    environment record: every theorem holds for all their behaviours unless a
    hypothesis says otherwise. *)

From Stdlib Require Import ZArith QArith String Ascii List Bool Lia.
From stdpp Require Import gmap strings list pretty.
Local Close Scope Q_scope.
Local Open Scope string_scope.
Local Open Scope list_scope.
Import ListNotations.

(* ===================================================================== *)
(** * Part I.  The route guard ([ProtectedRoute.jsx]) *)
(* ===================================================================== *)

Module Guard.

(** The values the auth context can hold.  Objects are opaque references:
    the guard never looks inside the user object. *)
Inductive JsValue : Type :=
| JUndefined
| JNull
| JBool (b : bool)
| JNumber (z : Z)
| JNaN
| JString (s : string)
| JObject (ref : nat).

(** ECMAScript [ToBoolean]. *)
Definition ToBoolean (v : JsValue) : bool :=
  match v with
  | JUndefined | JNull | JNaN => false
  | JBool b => b
  | JNumber z => negb (z =? 0)%Z
  | JString s => negb (String.eqb s "")
  | JObject _ => true
  end.

(** What [useAuth()] returns, as far as the guard reads it. *)
Record AuthContext : Type := { user : JsValue; loading : JsValue }.

Section Render.

(** [Node] is whatever the parent passed as [children]; [Location] is what
    [useLocation()] returns.  Both are opaque to the component. *)
Variables Node Location : Type.

(** The React elements the component can return. *)
#[warnings="-register-all"]
Inductive Element : Type :=
| Div (className : string) (kids : list Element)
| Navigate (to : string) (state : list (string * Location)) (replace : bool)
| Child (c : Node).

Definition spinner : Element :=
  Div "min-h-screen flex items-center justify-center"
    [Div "animate-spin rounded-full h-12 w-12 border-b-2 border-blue-600" []].

(** [const ProtectedRoute = ({ children }) => { ... }] with the two hooks
    made arguments. *)
Definition ProtectedRoute (children : Node) (auth : AuthContext)
    (location : Location) : Element :=
  if ToBoolean (loading auth) then spinner
  else if ToBoolean (user auth) then Child children
  else Navigate "/login" [("from", location)] true.

(** Does the element tree contain the guarded content / a redirect? *)
Fixpoint shows_children (e : Element) : bool :=
  match e with
  | Div _ kids => existsb shows_children kids
  | Navigate _ _ _ => false
  | Child _ => true
  end.

Fixpoint shows_redirect (e : Element) : bool :=
  match e with
  | Div _ kids => existsb shows_redirect kids
  | Navigate _ _ _ => true
  | Child _ => false
  end.

(** The three states of the guard's state machine. *)
Inductive GuardState : Type := Loading | Authorized | Unauthorized.

Definition guard_state (auth : AuthContext) : GuardState :=
  if ToBoolean (loading auth) then Loading
  else if ToBoolean (user auth) then Authorized else Unauthorized.

End Render.

Arguments Div {Node Location} className kids.
Arguments Navigate {Node Location} to state replace.
Arguments Child {Node Location} c.
Arguments spinner {Node Location}.
Arguments ProtectedRoute {Node Location} children auth location.
Arguments shows_children {Node Location} e.
Arguments shows_redirect {Node Location} e.


End Guard.

(* ===================================================================== *)
(** * Part II.  The HTTP gateway ([backend/app.js]) *)
(* ===================================================================== *)

Module Gateway.

(** ** JavaScript strings *)

(** [!!v] for a value that is a string or [undefined] (an environment
    variable, a request header). *)
Definition truthy (v : option string) : bool :=
  match v with
  | Some s => negb (String.eqb s "")
  | None => false
  end.

(** [s.startsWith(p)] *)
Fixpoint startsWith (s p : string) {struct p} : bool :=
  match p with
  | EmptyString => true
  | String c p' =>
      match s with
      | EmptyString => false
      | String d s' => Ascii.eqb d c && startsWith s' p'
      end
  end.

(** [list.includes(s)] on an array of strings *)
Definition includes (l : list string) (s : string) : bool :=
  existsb (String.eqb s) l.

Definition toLowerChar (c : ascii) : ascii :=
  let n := nat_of_ascii c in
  if (65 <=? n)%nat && (n <=? 90)%nat then ascii_of_nat (n + 32) else c.

Fixpoint toLowerCase (s : string) : string :=
  match s with
  | EmptyString => EmptyString
  | String c r => String (toLowerChar c) (toLowerCase r)
  end.

(** [req.path]: the URL up to the query string. *)
Fixpoint pathname (url : string) : string :=
  match url with
  | EmptyString => EmptyString
  | String c r => if Ascii.eqb c "?" then EmptyString else String c (pathname r)
  end.

(** [path.join(a, b)] for the already normalised segments the file uses. *)
Definition path_join (a b : string) : string := a +:+ "/" +:+ b.

(** ** Requests, responses, errors *)

Inductive Method : Type := GET | HEAD | POST | PUT | PATCH | DELETE | OPTIONS.

Definition method_eqb (a b : Method) : bool :=
  match a, b with
  | GET, GET | HEAD, HEAD | POST, POST | PUT, PUT
  | PATCH, PATCH | DELETE, DELETE | OPTIONS, OPTIONS => true
  | _, _ => false
  end.

Definition method_name (m : Method) : string :=
  match m with
  | GET => "GET" | HEAD => "HEAD" | POST => "POST" | PUT => "PUT"
  | PATCH => "PATCH" | DELETE => "DELETE" | OPTIONS => "OPTIONS"
  end.

(** The parts of a request the bootstrap file looks at.  [origin] is
    [req.headers.origin]; [raw_body] is the body as received, when there is
    one; [json_typed] says whether the content type is [application/json],
    the only bodies [express.json] reads. *)
Record Request : Type := {
  method : Method;
  originalUrl : string;
  origin : option string;
  ip : string;
  json_typed : bool;
  raw_body : option string
}.

#[warnings="-register-all"]
Inductive Json : Type :=
| JStr (s : string)
| JNum (q : Q)
| JObj (fields : list (string * Json)).

Inductive ErrorClass : Type := PlainError | SyntaxErrorClass.

(** The text [finalhandler] shows in its HTML error document (it escapes the
    text and wraps it in a fixed page). *)
Inductive PageText : Type :=
| CannotText (m resource : string)   (* ['Cannot ' + req.method + ' ' + path] *)
| StackText (stack : string)         (* [err.stack] *)
| ToStringText (c : ErrorClass) (msg : string)
                                     (* [err.toString()] *)
| StatusText (code : nat).           (* [statuses.message[code]] *)

Inductive Body : Type :=
| BJson (j : Json)
| BText (s : string)
| BFile (path : string)
| BPage (t : PageText)
| BEmpty.

Record Response : Type := { status : nat; body : Body }.

(** [err.status] is a number on errors made by [http-errors] and a string
    on application errors. *)
Inductive StatusField : Type := SNum (n : nat) | SStr (s : string).

Record JsError : Type := {
  err_class : ErrorClass;
  message : string;
  err_status : option StatusField;
  err_statusCode : option nat;
  err_has_body : bool;
  err_stack : string
}.

(** [new Error(msg)] *)
Definition new_Error (msg : string) : JsError :=
  {| err_class := PlainError; message := msg; err_status := None;
     err_statusCode := None; err_has_body := false;
     err_stack := "Error: " +:+ msg |}.

(** [createError(code, err, { body })] of [http-errors], as [body-parser]
    calls it: the error keeps its class and message and gains numeric
    [status] and [statusCode] and a [body] property. *)
Definition http_error (code : nat) (e : JsError) : JsError :=
  {| err_class := err_class e; message := message e;
     err_status := Some (SNum code); err_statusCode := Some code;
     err_has_body := true; err_stack := err_stack e |}.

(** ** The response object and the handler monad

    A handler runs against the mutable response object (and the console);
    it returns normally or throws. *)

Record Ctx : Type := {
  statusCode : nat;
  sent : option Response;
  headers : list (string * string);
  console : list string
}.

Definition ctx0 : Ctx :=
  {| statusCode := 200; sent := None; headers := []; console := [] |}.

Inductive Result (A : Type) : Type :=
| Ok (a : A)
| Throw (e : JsError).
Arguments Ok {A} a.
Arguments Throw {A} e.

Definition Js (A : Type) : Type := Ctx -> Ctx * Result A.

Definition ret {A} (a : A) : Js A := fun c => (c, Ok a).

Definition bind {A B} (m : Js A) (k : A -> Js B) : Js B :=
  fun c => match m c with
           | (c', Ok a) => k a c'
           | (c', Throw e) => (c', Throw e)
           end.

Definition throw {A} (e : JsError) : Js A := fun c => (c, Throw e).

(** [try { m } catch (e) { h }] where the handler always rethrows or throws:
    the result type of [m] does not matter. *)
Definition try_catch {A} (m : Js A) (h : JsError -> Js A) : Js A :=
  fun c => match m c with
           | (c', Ok a) => (c', Ok a)
           | (c', Throw e) => h e c'
           end.

Declare Scope js_scope.
Delimit Scope js_scope with js.
Notation "x <- m ;; k" := (bind m (fun x => k))
  (at level 100, m at next level, right associativity) : js_scope.
Notation "m ;; k" := (bind m (fun _ => k))
  (at level 100, right associativity) : js_scope.
Local Open Scope js_scope.

(** [res.status(code)] *)
Definition res_status (code : nat) : Js unit :=
  fun c => ({| statusCode := code; sent := sent c; headers := headers c;
               console := console c |}, Ok tt).

Definition ERR_HTTP_HEADERS_SENT : JsError :=
  new_Error "Cannot set headers after they are sent to the client".

(** Writing the response: the first write wins, a second one throws. *)
Definition res_write (b : Body) : Js unit :=
  fun c => match sent c with
           | Some _ => (c, Throw ERR_HTTP_HEADERS_SENT)
           | None =>
               ({| statusCode := statusCode c;
                   sent := Some {| status := statusCode c; body := b |};
                   headers := headers c; console := console c |}, Ok tt)
           end.

(** [res.json(obj)], [res.send(text)], [res.end()] *)
Definition res_json (j : Json) : Js unit := res_write (BJson j).
Definition res_send (s : string) : Js unit := res_write (BText s).
Definition res_end : Js unit := res_write BEmpty.

(** [res.set(name, value)] *)
Definition res_set (k v : string) : Js unit :=
  fun c => match sent c with
           | Some _ => (c, Throw ERR_HTTP_HEADERS_SENT)
           | None =>
               ({| statusCode := statusCode c; sent := None;
                   headers := (k, v) :: headers c; console := console c |},
                Ok tt)
           end.

(** [console.log], [console.warn], [console.error]: one line each. *)
Definition console_write (line : string) : Js unit :=
  fun c => ({| statusCode := statusCode c; sent := sent c;
               headers := headers c; console := console c ++ [line] |}, Ok tt).

(** ** The environment of the process

    Everything the file reads but does not define. *)

Inductive Verdict : Type :=
| Pass                      (* the package calls [next()] *)
| Answer (r : Response)     (* it sends a response *)
| Raises (e : JsError).     (* it calls [next(err)] *)

Record RateLimitOptions : Type := {
  windowMs : N;
  max : nat;
  limit_message : string
}.

Record Env : Type := {
  process_env : gmap string string;            (* [process.env] *)
  dirname : string;                            (* [__dirname] *)
  existsSync : string -> bool;                 (* [fs.existsSync] *)
  isFile : string -> bool;                     (* can [send] stream this path *)
  serve_static : string -> string -> option string;
                                               (* [express.static(root)] on a
                                                  path: the file it serves *)
  JSON_parse_ok : string -> bool;              (* [JSON.parse] does not throw *)
  over_quota : RateLimitOptions -> Request -> bool;
                                               (* the rate-limit store's
                                                  verdict on this hit *)
  plugin : string -> Request -> Verdict;       (* routers and third-party
                                                  middleware, by name *)
  inspect_body : Request -> string;            (* how the console prints what
                                                  the parsers left in
                                                  [req.body] *)
  readyState : Z;                              (* [mongoose.connection.readyState] *)
  now_iso : string;                            (* [new Date().toISOString()] *)
  uptime : Q                                   (* [process.uptime()] *)
}.

Definition development (E : Env) : bool :=
  bool_decide (process_env E !! "NODE_ENV" = Some "development").

(** ** Layers of the Express stack *)

Inductive Flow : Type :=
| Next                 (* [next()] *)
| NextErr (e : JsError) (* [next(err)], or the handler threw *)
| End.                 (* the response was ended; nobody calls [next] *)

Inductive Kind : Type := Middleware | RouterMount | RouteHandler | ErrorMiddleware.

Inductive Handler : Type :=
| Normal (h : Request -> Js Flow)
| OnError (h : JsError -> Request -> Js Flow).

Record Layer : Type := {
  name : string;
  kind : Kind;
  applies : Request -> bool;
  handler : Handler
}.

(** Express matches on the path without the query string, ignoring case. *)
Definition req_path (req : Request) : string :=
  toLowerCase (pathname (originalUrl req)).

(** [app.use(mount, ...)]: the path is the mount point or continues it at a
    segment boundary. *)
Definition mount_match (mount : string) (req : Request) : bool :=
  String.eqb (req_path req) mount || startsWith (req_path req) (mount +:+ "/").

(** [app.get(pattern)] also answers HEAD. *)
Definition get_or_head (req : Request) : bool :=
  match method req with GET | HEAD => true | _ => false end.

(** A literal route pattern, with the optional trailing slash of non-strict
    routing. *)
Definition exact_match (pat : string) (req : Request) : bool :=
  String.eqb (req_path req) pat || String.eqb (req_path req) (pat +:+ "/").

(** The pattern ['/api/*']. *)
Definition api_star_match (req : Request) : bool :=
  startsWith (req_path req) "/api/".

Definition use_all (n : string) (h : Request -> Js Flow) : Layer :=
  {| name := n; kind := Middleware; applies := fun _ => true;
     handler := Normal h |}.

Definition use_at (mount n : string) (k : Kind) (h : Request -> Js Flow) : Layer :=
  {| name := n; kind := k; applies := mount_match mount; handler := Normal h |}.

Definition route (n : string) (a : Request -> bool) (h : Request -> Js Flow) : Layer :=
  {| name := n; kind := RouteHandler; applies := a; handler := Normal h |}.

(** A package that is not in the repository, run as a layer. *)
Definition third_party (E : Env) (n : string) (req : Request) : Js Flow :=
  match plugin E n req with
  | Pass => ret Next
  | Answer r => res_status (status r) ;; res_write (body r) ;; ret End
  | Raises e => ret (NextErr e)
  end.

(** ** Startup check (lines 21-28) *)

Definition requiredEnvVars : list string := ["JWT_SECRET"; "MONGODB_URI"].

(** ** CORS (lines 30-64) *)

Definition allowedOrigins : list string :=
  [ "https://cdclient-6.onrender.com";
    "https://cdclient.vercel.app";
    "https://jemila2.github.io";
    "http://localhost:5173";
    "http://localhost:3001" ].

(** What the origin function passes to its callback. *)
Inductive Callback : Type :=
| CbOk (allow : bool)    (* [callback(null, allow)] *)
| CbErr (e : JsError).   (* [callback(err)] *)

(** [corsOptions.origin] *)
Definition corsOptions_origin (origin : option string) : Js Callback :=
  if negb (truthy origin)
     || match origin with Some o => includes allowedOrigins o | None => false end
  then ret (CbOk true)
  else
    console_write ("CORS blocked request from origin: " +:+ default "" origin) ;;
    ret (CbErr (new_Error "Not allowed by CORS")).

Definition optionsSuccessStatus : nat := 200.
Definition preflightContinue : bool := false.

(** [cors(corsOptions)]: an error from the origin function goes to [next];
    an allowed preflight is answered on the spot. *)
Definition cors_mw (req : Request) : Js Flow :=
  cb <- corsOptions_origin (origin req) ;;
  match cb with
  | CbErr e => ret (NextErr e)
  | CbOk false => ret Next
  | CbOk true =>
      match method req with
      | OPTIONS =>
          if preflightContinue then ret Next
          else res_status optionsSuccessStatus ;; res_end ;; ret End
      | _ => ret Next
      end
  end.

(** ** Rate limiting (lines 70-76) *)

Definition limiter_options : RateLimitOptions :=
  {| windowMs := 15 * 60 * 1000;
     max := 100;
     limit_message := "Too many requests from this IP, please try again later" |}.

(** [rateLimit(options)]: the package keeps the counters; the file fixes the
    window, the quota and the text of the rejection. *)
Definition limiter (E : Env) (req : Request) : Js Flow :=
  if over_quota E limiter_options req
  then res_status 429 ;; res_send (limit_message limiter_options) ;; ret End
  else ret Next.

(** ** Body parsing (lines 78-91) *)

(** ['10mb'] *)
Definition json_limit : N := 10 * 1024 * 1024.

(** The [verify] hook. *)
Definition verify (E : Env) (buf : string) : Js unit :=
  try_catch
    (if JSON_parse_ok E buf then ret tt
     else throw {| err_class := SyntaxErrorClass;
                   message := "Unexpected token in JSON";
                   err_status := None; err_statusCode := None;
                   err_has_body := false;
                   err_stack := "SyntaxError: Unexpected token in JSON" |})
    (fun _ =>
       res_status 400 ;;
       res_json (JObj [("error", JStr "Invalid JSON")]) ;;
       throw (new_Error "Invalid JSON")).

Definition is_json_space (c : ascii) : bool :=
  match nat_of_ascii c with
  | 32 | 9 | 10 | 13 => true
  | _ => false
  end.

Fixpoint first_char (s : string) : option ascii :=
  match s with
  | EmptyString => None
  | String c r => if is_json_space c then first_char r else Some c
  end.

Definition entity_parse_failed (msg : string) : JsError :=
  http_error 400
    {| err_class := SyntaxErrorClass; message := msg; err_status := None;
       err_statusCode := None; err_has_body := false;
       err_stack := "SyntaxError: " +:+ msg |}.

(** The strict parse of [body-parser] after [verify] has returned. *)
Definition parse_body (E : Env) (buf : string) : Flow :=
  if (String.length buf =? 0)%nat then Next
  else
    match first_char buf with
    | Some "{"%char | Some "["%char =>
        if JSON_parse_ok E buf then Next
        else NextErr (entity_parse_failed "Unexpected token in JSON")
    | _ => NextErr (entity_parse_failed "Unexpected token in JSON")
    end.

(** [express.json({ limit, verify })]: requests without a body or with
    another content type pass; an oversized body is refused before it is
    read; an exception of [verify] becomes a 403 error for [next]. *)
Definition express_json (E : Env) (req : Request) : Js Flow :=
  match raw_body req with
  | None => ret Next
  | Some buf =>
      if negb (json_typed req) then ret Next
      else if (json_limit <? N.of_nat (String.length buf))%N
      then ret (NextErr (http_error 413 (new_Error "request entity too large")))
      else
        try_catch (verify E buf ;; ret (parse_body E buf))
                  (fun e => ret (NextErr (http_error 403 e)))
  end.

(** ** Static files and [sendFile] *)

(** [express.static(root)]: only GET and HEAD are looked up; a miss falls
    through. *)
Definition express_static (E : Env) (root : string) (req : Request) : Js Flow :=
  if get_or_head req then
    match serve_static E root (pathname (originalUrl req)) with
    | Some f => res_write (BFile f) ;; ret End
    | None => ret Next
    end
  else ret Next.

Definition ENOENT (p : string) : JsError :=
  {| err_class := PlainError;
     message := "ENOENT: no such file or directory, stat '" +:+ p +:+ "'";
     err_status := Some (SNum 404); err_statusCode := Some 404;
     err_has_body := false;
     err_stack := "Error: ENOENT: no such file or directory, stat '" +:+ p +:+ "'" |}.

(** [res.sendFile(p)] without a callback: a missing file goes to [next]. *)
Definition res_sendFile (E : Env) (p : string) : Js Flow :=
  if isFile E p then res_write (BFile p) ;; ret End
  else ret (NextErr (ENOENT p)).

(** ** Route handlers (lines 140-210) *)

Definition statusMap : gmap Z string :=
  <[0%Z := "Disconnected"]>
    (<[1%Z := "Connected"]>
       (<[2%Z := "Connecting"]>
          (<[3%Z := "Disconnecting"]> ∅))).

(** [a || b] where [a] is a string or [undefined]. *)
Definition or_else (a : option string) (b : string) : string :=
  if truthy a then default b a else b.

(** [app.get('/api/health', ...)] *)
Definition health (E : Env) (_ : Request) : Js Flow :=
  let dbStatus := readyState E in
  res_status 200 ;;
  res_json (JObj [ ("status", JStr "OK");
                   ("database", JStr (or_else (statusMap !! dbStatus) "Unknown"));
                   ("timestamp", JStr (now_iso E));
                   ("uptime", JNum (uptime E)) ]) ;;
  ret End.

(** [app.get('/api/data', ...)] *)
Definition api_data (_ : Request) : Js Flow :=
  res_json (JObj [("message", JStr "API response")]) ;; ret End.

Definition fail_envelope (msg : string) : Json :=
  JObj [("status", JStr "fail"); ("message", JStr msg)].

(** The first [app.get('*', ...)] (line 164). *)
Definition catch_all (E : Env) (req : Request) : Js Flow :=
  if startsWith (originalUrl req) "/api/" then
    res_status 404 ;;
    res_json (fail_envelope
                ("API endpoint " +:+ originalUrl req +:+ " not found")) ;;
    ret End
  else
    res_sendFile E
      (path_join (path_join (dirname E) "cdclient/build") "index.html").

Definition buildPath (E : Env) : string := path_join (dirname E) "cdclient/build".

(** The second [app.get('*', ...)] (line 183), registered only when the
    build directory exists. *)
Definition bundle_index (E : Env) (_ : Request) : Js Flow :=
  res_sendFile E (path_join (buildPath E) "index.html").

(** Development caching (line 192). *)
Definition no_store (_ : Request) : Js Flow :=
  res_set "Cache-Control" "no-store" ;; ret Next.

(** [app.all('/api/*', ...)] (line 205). *)
Definition api_not_found (req : Request) : Js Flow :=
  res_status 404 ;;
  res_json (fail_envelope
              ("API endpoint " +:+ originalUrl req +:+ " not found!")) ;;
  ret End.

(** The request logger of development mode (line 96); at the application
    level [req.url] is [req.originalUrl]. *)
Definition request_logger (E : Env) (req : Request) : Js Flow :=
  console_write ("[" +:+ now_iso E +:+ "] " +:+ method_name (method req)
                 +:+ " " +:+ originalUrl req) ;;
  (match method req with
   | POST | PUT => console_write ("Request Body: " +:+ inspect_body E req)
   | _ => ret tt
   end) ;;
  ret Next.

(** ** The central error handler (lines 212-231) *)

Definition status_truthy (s : option StatusField) : bool :=
  match s with
  | Some (SNum n) => negb (n =? 0)%nat
  | Some (SStr t) => negb (String.eqb t "")
  | None => false
  end.

Definition status_json (s : StatusField) : Json :=
  match s with
  | SNum n => JNum (inject_Z (Z.of_nat n))
  | SStr t => JStr t
  end.

Definition error_handler (E : Env) (err : JsError) (_ : Request) : Js Flow :=
  if match err_class err, err_status err with
     | SyntaxErrorClass, Some (SNum 400) => err_has_body err
     | _, _ => false
     end
  then res_status 400 ;; res_json (JObj [("error", JStr "Invalid JSON body")]) ;;
       ret End
  else
    let code := match err_statusCode err with
                | Some n => if (n =? 0)%nat then 500 else n
                | None => 500
                end in
    let st := if status_truthy (err_status err)
              then default (SStr "error") (err_status err) else SStr "error" in
    console_write (" Error " +:+ pretty code +:+ ": " +:+ message err) ;;
    (if development E then console_write (err_stack err) else ret tt) ;;
    res_status code ;;
    res_json (JObj ([("status", status_json st); ("message", JStr (message err))]
                    ++ (if development E then [("stack", JStr (err_stack err))]
                        else []))) ;;
    ret End.

(** ** The stack, in registration order *)

Definition routers : list (string * string) :=
  [ ("/api/auth", "authRoutes");
    ("/api/employee-requests", "employeeRequestsRoutes");
    ("/api/users", "userRoutes");
    ("/api/tasks", "taskRoutes");
    ("/api/employees", "employeeRoutes");
    ("/api/payments", "paymentRoutes");
    ("/api/orders", "orderRoutes");
    ("/api/admin", "adminRoutes");
    ("/api/employee-orders", "employeeOrdersRouter");
    ("/api/suppliers", "supplierRoutes");
    ("/api/purchase-orders", "purchaseOrderRoutes");
    ("/api/payroll", "payrollRoutes");
    ("/api/customers", "customerRoutes");
    ("/api/invoices", "invoiceRoutes") ].

(** Lines 63-76: what runs before the body is read. *)
Definition pre_parser (E : Env) : list Layer :=
  [ use_all "cors" cors_mw;
    (* [app.options('*', cors(corsOptions))]: registered as a route, but
       what runs is the CORS package again, not an application handler *)
    {| name := "cors-preflight"; kind := Middleware;
       applies := fun req => method_eqb (method req) OPTIONS;
       handler := Normal cors_mw |};
    use_all "helmet" (third_party E "helmet");
    use_all "mongoSanitize" (third_party E "mongoSanitize");
    use_all "xss" (third_party E "xss");
    use_all "hpp" (third_party E "hpp");
    use_at "/api" "limiter" Middleware (limiter E) ].

(** Lines 78-91. *)
Definition parsers (E : Env) : list Layer :=
  [ use_all "express.json" (express_json E);
    use_all "express.urlencoded" (third_party E "express.urlencoded");
    use_all "cookieParser" (third_party E "cookieParser") ].

Definition admission (E : Env) : list Layer := pre_parser E ++ parsers E.

(** Lines 93-103. *)
Definition dev_logging (E : Env) : list Layer :=
  if development E
  then [ use_all "morgan" (third_party E "morgan");
         use_all "request-logger" (request_logger E) ]
  else [].

(** Lines 105-138: the first static mount and the routers. *)
Definition mounts (E : Env) : list Layer :=
  use_all "static:client/build"
    (express_static E (path_join (dirname E) "client/build"))
  :: map (fun r => use_at (fst r) (snd r) RouterMount (third_party E (snd r)))
         routers.

Definition is_health (req : Request) : bool :=
  get_or_head req && exact_match "/api/health" req.

(** Lines 140-161: the two fixed API routes. *)
Definition fixed_routes (E : Env) : list Layer :=
  [ route "GET /api/health" is_health (health E);
    route "GET /api/data"
      (fun req => get_or_head req && exact_match "/api/data" req) api_data ].

Definition routes (E : Env) : list Layer := mounts E ++ fixed_routes E.

(** Lines 163-210: the fallbacks. *)
Definition fallback_routes (E : Env) : list Layer :=
  [ route "GET *" get_or_head (catch_all E) ]
  ++ (if existsSync E (buildPath E)
      then [ use_all "static:cdclient/build" (express_static E (buildPath E));
             route "GET * (bundle)" get_or_head (bundle_index E) ]
      else [])
  ++ (if development E then [ use_all "no-store" no_store ] else [])
  ++ [ route "ALL /api/*" api_star_match api_not_found ].

(** Lines 212-231. *)
Definition error_layer (E : Env) : Layer :=
  {| name := "error-handler"; kind := ErrorMiddleware;
     applies := fun _ => true; handler := OnError (error_handler E) |}.

Definition fallbacks (E : Env) : list Layer :=
  fallback_routes E ++ [error_layer E].

Definition app (E : Env) : list Layer :=
  admission E ++ dev_logging E ++ routes E ++ fallbacks E.

(** ** Dispatch

    Express walks the stack in order.  Without a pending error it runs the
    matching ordinary layers and skips error handlers; with one it runs only
    error handlers.  A handler that throws is a handler that called
    [next(err)].  The trace lists the layers that ran. *)

Record Exchange : Type := {
  ctx : Ctx;
  trace : list (string * Kind);
  flow : Flow
}.

Definition settle (r : Result Flow) : Flow :=
  match r with
  | Ok f => f
  | Throw e => NextErr e
  end.

Fixpoint run (stack : list Layer) (f : Flow) (req : Request) (c : Ctx) : Exchange :=
  match stack with
  | [] => {| ctx := c; trace := []; flow := f |}
  | l :: rest =>
      match f with
      | End => {| ctx := c; trace := []; flow := End |}
      | Next =>
          if applies l req then
            match handler l with
            | Normal h =>
                let '(c', r) := h req c in
                let x := run rest (settle r) req c' in
                {| ctx := ctx x; trace := (name l, kind l) :: trace x;
                   flow := flow x |}
            | OnError _ => run rest f req c
            end
          else run rest f req c
      | NextErr e =>
          if applies l req then
            match handler l with
            | Normal _ => run rest f req c
            | OnError h =>
                let '(c', r) := h e req c in
                let x := run rest (settle r) req c' in
                {| ctx := ctx x; trace := (name l, kind l) :: trace x;
                   flow := flow x |}
            end
          else run rest f req c
      end
  end.

Definition in_range (n : nat) : bool := (400 <=? n)%nat && (n <? 600)%nat.

(** The status [finalhandler] picks for an error nobody answered. *)
Definition final_status (e : JsError) (c : Ctx) : nat :=
  match err_status e with
  | Some (SNum n) => if in_range n then n else
      match err_statusCode e with
      | Some m => if in_range m then m
                  else if in_range (statusCode c) then statusCode c else 500
      | None => if in_range (statusCode c) then statusCode c else 500
      end
  | _ =>
      match err_statusCode e with
      | Some m => if in_range m then m
                  else if in_range (statusCode c) then statusCode c else 500
      | None => if in_range (statusCode c) then statusCode c else 500
      end
  end.

(** The text of the error page: the status message in production,
    otherwise [err.stack || err.toString()]. *)
Definition error_text (E : Env) (e : JsError) (code : nat) : PageText :=
  if bool_decide (process_env E !! "NODE_ENV" = Some "production")
  then StatusText code
  else if String.eqb (err_stack e) "" then ToStringText (err_class e) (message e)
  else StackText (err_stack e).

(** What Express does when the stack is exhausted: nothing if a response is
    already out, its own 404 page if nobody answered, its own error page if
    an error is still pending. *)
Definition finalhandler (E : Env) (req : Request) (x : Exchange) : Ctx :=
  let c := ctx x in
  match sent c with
  | Some _ => c
  | None =>
      match flow x with
      | End => c
      | Next =>
          fst ((res_status 404 ;;
                res_write (BPage (CannotText (method_name (method req))
                                    (pathname (originalUrl req))))) c)
      | NextErr e =>
          fst ((res_status (final_status e c) ;;
                res_write (BPage (error_text E e (final_status e c)))) c)
      end
  end.

(** One request against the application. *)
Definition handle (E : Env) (req : Request) : Exchange :=
  let x := run (app E) Next req ctx0 in
  {| ctx := finalhandler E req x; trace := trace x; flow := flow x |}.

(** What the client receives. *)
Definition response (E : Env) (req : Request) : option Response :=
  sent (ctx (handle E req)).

(** Did a route handler or a router run? *)
Definition is_route_kind (k : Kind) : bool :=
  match k with
  | RouterMount | RouteHandler => true
  | Middleware | ErrorMiddleware => false
  end.

Definition route_ran (x : Exchange) : bool :=
  existsb (fun e => is_route_kind (snd e)) (trace x).

(** ** Module start-up (lines 19-28 and the wiring that follows)

    The module body runs top to bottom; [process.exit] stops it. *)

Record World : Type := {
  stdio : list string;
  exit_code : option Z;
  wired : list Layer;
  made_dirs : list string
}.

Definition world0 : World :=
  {| stdio := []; exit_code := None; wired := []; made_dirs := [] |}.

(** A statement runs only while the process is alive. *)
Definition alive (stmt : World -> World) (w : World) : World :=
  match exit_code w with
  | Some _ => w
  | None => stmt w
  end.

(** The body of the [forEach] callback. *)
Definition check_env (E : Env) (env : string) : World -> World :=
  alive (fun w =>
    if negb (truthy (process_env E !! env)) then
      {| stdio := stdio w
                  ++ [" FATAL: Missing required environment variable: " +:+ env];
         exit_code := Some 1%Z;
         wired := wired w; made_dirs := made_dirs w |}
    else w).

(** [requiredEnvVars.forEach(...)] *)
Definition startup_check (E : Env) (w : World) : World :=
  fold_left (fun w env => check_env E env w) requiredEnvVars w.

Definition uploadsDir (E : Env) : string := path_join (dirname E) "uploads/invoices".

(** Everything between the check and [startServer()]. *)
Definition wire (E : Env) : World -> World :=
  alive (fun w =>
    {| stdio := stdio w
                ++ (if existsSync E (buildPath E) then []
                    else ["Client build directory not found. API-only mode."]);
       exit_code := None;
       wired := app E;
       made_dirs := made_dirs w
                    ++ (if existsSync E (uploadsDir E) then [] else [uploadsDir E]) |}).

Definition boot (E : Env) : World := wire E (startup_check E world0).

(** ** Process-level handlers of [startServer] (lines 250-272) *)

Inductive Signal : Type :=
| unhandledRejection (err_name err_message : string)
| uncaughtException (err_name err_message : string)
| SIGTERM.

(** The callbacks the file hands to [server.close]. *)
Inductive CloseCallback : Type :=
| ExitWith (code : Z)       (* [() => { process.exit(code) }] *)
| LogLine (line : string).  (* [() => { console.log(line) }] *)

Record Proc : Type := {
  listening : bool;                (* the server accepts connections *)
  connections : nat;               (* connections in flight *)
  on_closed : list CloseCallback;  (* waiting for the ['close'] event *)
  exited : option Z;
  output : list string
}.

Definition run_callback (cb : CloseCallback) (p : Proc) : Proc :=
  match exited p with
  | Some _ => p
  | None =>
      match cb with
      | ExitWith code =>
          {| listening := listening p; connections := connections p;
             on_closed := on_closed p; exited := Some code; output := output p |}
      | LogLine line =>
          {| listening := listening p; connections := connections p;
             on_closed := on_closed p; exited := None;
             output := output p ++ [line] |}
      end
  end.

(** The ['close'] event fires once the server has stopped listening and the
    last connection has ended. *)
Definition emit_close_if_drained (p : Proc) : Proc :=
  if negb (listening p) && (connections p =? 0)%nat then
    fold_left (fun q cb => run_callback cb q) (on_closed p)
      {| listening := false; connections := 0; on_closed := [];
         exited := exited p; output := output p |}
  else p.

(** [server.close(cb)] *)
Definition server_close (cb : CloseCallback) (p : Proc) : Proc :=
  emit_close_if_drained
    {| listening := false; connections := connections p;
       on_closed := on_closed p ++ [cb]; exited := exited p; output := output p |}.

Definition log (line : string) (p : Proc) : Proc :=
  {| listening := listening p; connections := connections p;
     on_closed := on_closed p; exited := exited p; output := output p ++ [line] |}.

(** The three [process.on(...)] handlers. *)
Definition on_signal (s : Signal) (p : Proc) : Proc :=
  match s with
  | unhandledRejection n m =>
      server_close (ExitWith 1)
        (log (n +:+ " " +:+ m) (log "UNHANDLED REJECTION!  Shutting down..." p))
  | uncaughtException n m =>
      server_close (ExitWith 1)
        (log (n +:+ " " +:+ m) (log "UNCAUGHT EXCEPTION!  Shutting down..." p))
  | SIGTERM =>
      server_close (LogLine " Process terminated!")
        (log " SIGTERM RECEIVED. Shutting down gracefully" p)
  end.

Inductive Event : Type :=
| Sig (s : Signal)
| ConnectionOpened
| ConnectionEnded.

Definition step (p : Proc) (ev : Event) : Proc :=
  match exited p with
  | Some _ => p
  | None =>
      match ev with
      | Sig s => on_signal s p
      | ConnectionOpened =>
          if listening p then
            {| listening := true; connections := S (connections p);
               on_closed := on_closed p; exited := None; output := output p |}
          else p
      | ConnectionEnded =>
          emit_close_if_drained
            {| listening := listening p; connections := pred (connections p);
               on_closed := on_closed p; exited := None; output := output p |}
      end
  end.

Definition steps (p : Proc) (evs : list Event) : Proc := fold_left step evs p.

(** The process once [app.listen] has returned, with [n] clients connected. *)
Definition serving (n : nat) : Proc :=
  {| listening := true; connections := n; on_closed := []; exited := None;
     output := [] |}.

(** ** Reading a response *)

Fixpoint assoc (k : string) (fields : list (string * Json)) : option Json :=
  match fields with
  | [] => None
  | (k', v) :: rest => if String.eqb k k' then Some v else assoc k rest
  end.

(** The value of a field of a JSON response body. *)
Definition body_field (k : string) (r : Response) : option Json :=
  match body r with
  | BJson (JObj fields) => assoc k fields
  | _ => None
  end.

(** ** A reference deployment, for the examples *)

Module Sample.

Definition env_vars : gmap string string :=
  <["JWT_SECRET" := "s3cret"]> (<["MONGODB_URI" := "mongodb://db/app"]> ∅).

(** A production-like host without a client bundle; [JSON.parse] accepts
    only the empty object. *)
Definition api_only : Env :=
  {| process_env := env_vars;
     dirname := "/srv/backend";
     existsSync := fun _ => false;
     isFile := fun _ => false;
     serve_static := fun _ _ => None;
     JSON_parse_ok := fun s => String.eqb s "{}";
     over_quota := fun _ _ => false;
     plugin := fun _ _ => Pass;
     inspect_body := fun _ => "{}";
     readyState := 1;
     now_iso := "2024-01-01T00:00:00.000Z";
     uptime := (5 # 2)%Q |}.

(** The same host with the bundle built. *)
Definition with_bundle : Env :=
  {| process_env := env_vars;
     dirname := "/srv/backend";
     existsSync := fun p => String.eqb p "/srv/backend/cdclient/build";
     isFile := fun p => String.eqb p "/srv/backend/cdclient/build/index.html";
     serve_static := fun _ _ => None;
     JSON_parse_ok := fun s => String.eqb s "{}";
     over_quota := fun _ _ => false;
     plugin := fun _ _ => Pass;
     inspect_body := fun _ => "{}";
     readyState := 1;
     now_iso := "2024-01-01T00:00:00.000Z";
     uptime := (5 # 2)%Q |}.

(** The build directory is there but holds no [index.html]. *)
Definition empty_bundle : Env :=
  {| process_env := env_vars;
     dirname := "/srv/backend";
     existsSync := fun p => String.eqb p "/srv/backend/cdclient/build";
     isFile := fun _ => false;
     serve_static := fun _ _ => None;
     JSON_parse_ok := fun s => String.eqb s "{}";
     over_quota := fun _ _ => false;
     plugin := fun _ _ => Pass;
     inspect_body := fun _ => "{}";
     readyState := 1;
     now_iso := "2024-01-01T00:00:00.000Z";
     uptime := (5 # 2)%Q |}.

(** A host whose database connection reports a state outside 0..3. *)
Definition uninitialized_db : Env :=
  {| process_env := env_vars;
     dirname := "/srv/backend";
     existsSync := fun _ => false;
     isFile := fun _ => false;
     serve_static := fun _ _ => None;
     JSON_parse_ok := fun s => String.eqb s "{}";
     over_quota := fun _ _ => false;
     plugin := fun _ _ => Pass;
     inspect_body := fun _ => "{}";
     readyState := 99;
     now_iso := "2024-01-01T00:00:00.000Z";
     uptime := (5 # 2)%Q |}.

(** A host started with [JWT_SECRET=] (set, but empty). *)
Definition empty_secret : Env :=
  {| process_env := <["JWT_SECRET" := ""]> (<["MONGODB_URI" := "mongodb://db/app"]> ∅);
     dirname := "/srv/backend";
     existsSync := fun _ => false;
     isFile := fun _ => false;
     serve_static := fun _ _ => None;
     JSON_parse_ok := fun s => String.eqb s "{}";
     over_quota := fun _ _ => false;
     plugin := fun _ _ => Pass;
     inspect_body := fun _ => "{}";
     readyState := 1;
     now_iso := "2024-01-01T00:00:00.000Z";
     uptime := (5 # 2)%Q |}.

(** A host started without [MONGODB_URI]. *)
Definition no_database_uri : Env :=
  {| process_env := <["JWT_SECRET" := "s3cret"]> ∅;
     dirname := "/srv/backend";
     existsSync := fun _ => false;
     isFile := fun _ => false;
     serve_static := fun _ _ => None;
     JSON_parse_ok := fun s => String.eqb s "{}";
     over_quota := fun _ _ => false;
     plugin := fun _ _ => Pass;
     inspect_body := fun _ => "{}";
     readyState := 1;
     now_iso := "2024-01-01T00:00:00.000Z";
     uptime := (5 # 2)%Q |}.

Definition request (m : Method) (url : string) (o : option string)
    (b : option string) : Request :=
  {| method := m; originalUrl := url; origin := o; ip := "10.0.0.1";
     json_typed := true; raw_body := b |}.

End Sample.

End Gateway.

(* ===================================================================== *)
(** * Part III.  Properties of the route guard *)
(* ===================================================================== *)

Module GuardProps.
Import Guard.

Section Facts.

Context {Node Location : Type}.
Implicit Types (children : Node) (location : Location) (auth : AuthContext).

Lemma spinner_is_neutral :
  shows_children (@spinner Node Location) = false /\
  shows_redirect (@spinner Node Location) = false.
Proof. split; reflexivity. Qed.

(** The render is a function of the guard state alone. *)
Lemma ProtectedRoute_by_state children auth location :
  ProtectedRoute children auth location =
  match guard_state auth with
  | Loading => spinner
  | Authorized => Child children
  | Unauthorized => Navigate "/login" [("from", location)] true
  end.
Proof.
  unfold ProtectedRoute, guard_state.
  destruct (ToBoolean (loading auth)); [reflexivity|].
  destruct (ToBoolean (user auth)); reflexivity.
Qed.

(** While [loading] is truthy the user is not even consulted. *)
Lemma ProtectedRoute_loading children auth location :
  ToBoolean (loading auth) = true ->
  ProtectedRoute children auth location = spinner.
Proof. intros H. unfold ProtectedRoute. rewrite H. reflexivity. Qed.

Lemma ProtectedRoute_truthy_user children auth location :
  ToBoolean (loading auth) = false -> ToBoolean (user auth) = true ->
  ProtectedRoute children auth location = Child children.
Proof. intros H1 H2. unfold ProtectedRoute. rewrite H1, H2. reflexivity. Qed.

Lemma ProtectedRoute_falsy_user children auth location :
  ToBoolean (loading auth) = false -> ToBoolean (user auth) = false ->
  ProtectedRoute children auth location =
  Navigate "/login" [("from", location)] true.
Proof. intros H1 H2. unfold ProtectedRoute. rewrite H1, H2. reflexivity. Qed.

(** What decides between content and redirect is the truthiness of [user]:
    a user that is [undefined] (or any other falsy value) is redirected just
    like [null]. *)
Lemma ProtectedRoute_undefined_user children location :
  ProtectedRoute children {| user := JUndefined; loading := JBool false |}
    location
  = Navigate "/login" [("from", location)] true.
Proof. reflexivity. Qed.

(** C1 (amended).  For every auth state and location the guard is a
    three-way branch on the truthiness of [loading] and [user]: while
    [loading] is truthy it renders only the neutral placeholder, which
    contains neither the guarded children nor a redirect, whatever [user]
    is; with [loading] falsy and [user] falsy ([null], but also [undefined],
    [''], [0], [NaN] and [false]) it renders a replacing redirect to
    [/login] whose navigation state records the attempted location under
    [from]; with [loading] falsy and [user] truthy (any object, and any
    other truthy value) it renders exactly the guarded children, and no
    redirect. *)
Theorem ProtectedRoute_three_way children auth location :
  let e := ProtectedRoute children auth location in
  (ToBoolean (loading auth) = true ->
   e = spinner /\ shows_children e = false /\ shows_redirect e = false) /\
  (ToBoolean (loading auth) = false -> ToBoolean (user auth) = false ->
   e = Navigate "/login" [("from", location)] true /\
   shows_children e = false /\ shows_redirect e = true) /\
  (ToBoolean (loading auth) = false -> ToBoolean (user auth) = true ->
   e = Child children /\ shows_children e = true /\ shows_redirect e = false) /\
  (ToBoolean (user auth) = false <->
   user auth = JUndefined \/ user auth = JNull \/ user auth = JNaN \/
   user auth = JBool false \/ user auth = JNumber 0 \/ user auth = JString "").
Proof.
  cbn zeta. split; [|split; [|split]].
  - intros Hl. rewrite (ProtectedRoute_loading _ _ _ Hl). repeat split.
  - intros Hl Hu. rewrite (ProtectedRoute_falsy_user _ _ _ Hl Hu). repeat split.
  - intros Hl Hu. rewrite (ProtectedRoute_truthy_user _ _ _ Hl Hu). repeat split.
  - split.
    + intros H. destruct (user auth) as [| |b|z| |s|ref]; simpl in H.
      * left. reflexivity.
      * right. left. reflexivity.
      * subst b. do 3 right. left. reflexivity.
      * apply negb_false_iff, Z.eqb_eq in H. subst z.
        do 4 right. left. reflexivity.
      * do 2 right. left. reflexivity.
      * apply negb_false_iff, String.eqb_eq in H. subst s.
        do 5 right. reflexivity.
      * discriminate.
    + intros [H|[H|[H|[H|[H|H]]]]]; rewrite H; reflexivity.
Qed.

End Facts.

Lemma ProtectedRoute_three_way_witness :
  (let e := ProtectedRoute "orders page"
              {| user := JNull; loading := JBool true |} "/orders" in
   e = spinner /\ shows_children e = false /\ shows_redirect e = false) /\
  (let e := ProtectedRoute "orders page"
              {| user := JNull; loading := JBool false |} "/orders" in
   e = Navigate "/login" [("from", "/orders")] true /\
   shows_children e = false /\ shows_redirect e = true) /\
  (let e := ProtectedRoute "orders page"
              {| user := JObject 7; loading := JBool false |} "/orders" in
   e = Child "orders page" /\ shows_children e = true /\ shows_redirect e = false).
Proof.
  split; [|split].
  - apply (proj1 (ProtectedRoute_three_way "orders page"
                    {| user := JNull; loading := JBool true |} "/orders")).
    reflexivity.
  - apply (proj1 (proj2 (ProtectedRoute_three_way "orders page"
                           {| user := JNull; loading := JBool false |} "/orders")));
      reflexivity.
  - apply (proj1 (proj2 (proj2 (ProtectedRoute_three_way "orders page"
                                  {| user := JObject 7; loading := JBool false |}
                                  "/orders"))));
      reflexivity.
Defined.

(** C1, as stated, fails: a user that is not [null] but falsy, here the
    empty string, is redirected to the login page instead of being shown the
    guarded children. *)
Lemma ProtectedRoute_redirects_falsy_user :
  let e := ProtectedRoute "orders page"
             {| user := JString ""; loading := JBool false |} "/orders" in
  JString "" <> JNull /\
  e = Navigate "/login" [("from", "/orders")] true /\
  shows_children e = false /\ shows_redirect e = true.
Proof. cbn zeta. repeat split. discriminate. Qed.

End GuardProps.

(* ===================================================================== *)
(** * Part IV.  Properties of the gateway *)
(* ===================================================================== *)

Module GatewayProps.
Import Gateway.
Local Open Scope js_scope.

(** ** Strings *)

Lemma includes_In (l : list string) (s : string) :
  includes l s = true <-> In s l.
Proof.
  unfold includes. rewrite existsb_exists. split.
  - intros (x & Hx & Heq). apply String.eqb_eq in Heq. subst. exact Hx.
  - intros H. exists s. split; [exact H | apply String.eqb_refl].
Qed.

Lemma truthy_false (v : option string) :
  truthy v = false <-> v = None \/ v = Some "".
Proof.
  destruct v as [s|]; simpl.
  - rewrite negb_false_iff, String.eqb_eq. split.
    + intros ->. right. reflexivity.
    + intros [H|H]; [discriminate | congruence].
  - split; [intros _; left; reflexivity | reflexivity].
Qed.

Lemma truthy_true (v : option string) :
  truthy v = true <-> exists s, v = Some s /\ s <> "".
Proof.
  destruct v as [s|]; simpl.
  - rewrite negb_true_iff, String.eqb_neq. split.
    + intros H. exists s. split; [reflexivity | exact H].
    + intros (t & [= ->] & H). exact H.
  - split; [discriminate | intros (t & [=] & _)].
Qed.

Lemma startsWith_app (s p : string) :
  startsWith s p = true <-> exists r, s = p +:+ r.
Proof.
  revert s. induction p as [|c p IH]; intros s; simpl.
  - split; [intros _; exists s; reflexivity | reflexivity].
  - destruct s as [|d s].
    + split; [discriminate | intros (r & [=])].
    + rewrite andb_true_iff, Ascii.eqb_eq, IH. split.
      * intros (-> & r & ->). exists r. reflexivity.
      * intros (r & [= -> ->]). split; [reflexivity | exists r; reflexivity].
Qed.

(** A URL under [/api/] has a path that the pattern ['/api/*'] and the mount
    point ['/api'] both match. *)
Lemma api_url_path (req : Request) :
  startsWith (originalUrl req) "/api/" = true ->
  startsWith (req_path req) "/api/" = true.
Proof.
  intros H. apply startsWith_app in H as (r & Hr).
  unfold req_path. rewrite Hr. reflexivity.
Qed.

Lemma api_url_star (req : Request) :
  startsWith (originalUrl req) "/api/" = true -> api_star_match req = true.
Proof. apply api_url_path. Qed.

Lemma api_url_mount (req : Request) :
  startsWith (originalUrl req) "/api/" = true -> mount_match "/api" req = true.
Proof.
  intros H. unfold mount_match.
  change ("/api" +:+ "/") with "/api/".
  rewrite (api_url_path _ H). apply orb_true_r.
Qed.

Lemma eqb_append_l (d a b : string) :
  String.eqb (d +:+ a) (d +:+ b) = String.eqb a b.
Proof.
  induction d as [|c d IH]; simpl; [reflexivity|].
  rewrite Ascii.eqb_refl. exact IH.
Qed.

(** ** The dispatcher *)

Definition is_normal (l : Layer) : bool :=
  match handler l with
  | Normal _ => true
  | OnError _ => false
  end.

Lemma run_End (st : list Layer) (req : Request) (c : Ctx) :
  run st End req c = {| ctx := c; trace := []; flow := End |}.
Proof. destruct st; reflexivity. Qed.

(** Running a concatenation is running the parts in sequence. *)
Lemma run_app (st1 st2 : list Layer) (f : Flow) (req : Request) (c : Ctx) :
  run (st1 ++ st2) f req c =
  let x1 := run st1 f req c in
  let x2 := run st2 (flow x1) req (ctx x1) in
  {| ctx := ctx x2; trace := trace x1 ++ trace x2; flow := flow x2 |}.
Proof.
  revert f c. induction st1 as [|l st1 IH]; intros f c.
  - simpl. destruct (run st2 f req c); reflexivity.
  - simpl. destruct f as [|e|].
    + destruct (applies l req); [|apply IH].
      destruct (handler l) as [h|h]; [|apply IH].
      destruct (h req c) as [c' r]. rewrite IH. reflexivity.
    + destruct (applies l req); [|apply IH].
      destruct (handler l) as [h|h]; [apply IH|].
      destruct (h e req c) as [c' r]. rewrite IH. reflexivity.
    + simpl. rewrite run_End. reflexivity.
Qed.

(** A pending error skips every ordinary layer. *)
Lemma run_error_skips (st : list Layer) (e : JsError) (req : Request) (c : Ctx) :
  forallb is_normal st = true ->
  run st (NextErr e) req c = {| ctx := c; trace := []; flow := NextErr e |}.
Proof.
  induction st as [|l st IH]; intros H; [reflexivity|].
  simpl in H. apply andb_true_iff in H as [Hl Hst].
  simpl. unfold is_normal in Hl.
  destruct (applies l req); [|apply IH, Hst].
  destruct (handler l); [apply IH, Hst | discriminate].
Qed.

(** One step of the dispatcher, for a layer that applies. *)
Lemma run_enter (l : Layer) (rest : list Layer) (req : Request) (c : Ctx)
    (h : Request -> Js Flow) :
  applies l req = true -> handler l = Normal h ->
  run (l :: rest) Next req c =
  let x := run rest (settle (snd (h req c))) req (fst (h req c)) in
  {| ctx := ctx x; trace := (name l, kind l) :: trace x; flow := flow x |}.
Proof.
  intros Ha Hh. simpl. rewrite Ha, Hh. destruct (h req c). reflexivity.
Qed.

Lemma run_skip (l : Layer) (rest : list Layer) (req : Request) (c : Ctx) :
  applies l req = false -> run (l :: rest) Next req c = run rest Next req c.
Proof. intros Ha. simpl. rewrite Ha. reflexivity. Qed.

(** ** Start-up *)

(** A required variable is missing when it is unset or set to the empty
    string: both make [!process.env[env]] true. *)
Definition missing (E : Env) (env : string) : Prop :=
  process_env E !! env = None \/ process_env E !! env = Some "".

Lemma missing_truthy (E : Env) (env : string) :
  missing E env <-> truthy (process_env E !! env) = false.
Proof. unfold missing. symmetry. apply truthy_false. Qed.

Lemma not_missing_truthy (E : Env) (env : string) :
  ~ missing E env <-> truthy (process_env E !! env) = true.
Proof.
  rewrite missing_truthy. destruct (truthy (process_env E !! env)); split;
    congruence.
Qed.

Lemma check_env_present (E : Env) (env : string) (w : World) :
  truthy (process_env E !! env) = true -> check_env E env w = w.
Proof.
  intros H. unfold check_env, alive. rewrite H. simpl.
  destruct (exit_code w); reflexivity.
Qed.

Lemma check_env_missing (E : Env) (env : string) (w : World) :
  truthy (process_env E !! env) = false -> exit_code w = None ->
  check_env E env w =
  {| stdio := stdio w ++ [" FATAL: Missing required environment variable: " +:+ env];
     exit_code := Some 1%Z; wired := wired w; made_dirs := made_dirs w |}.
Proof.
  intros H Hw. unfold check_env, alive. rewrite H, Hw. reflexivity.
Qed.

Lemma check_env_exited (E : Env) (env : string) (w : World) (code : Z) :
  exit_code w = Some code -> check_env E env w = w.
Proof. intros Hw. unfold check_env, alive. rewrite Hw. reflexivity. Qed.

Lemma startup_check_passes (E : Env) (w : World) :
  ~ missing E "JWT_SECRET" -> ~ missing E "MONGODB_URI" ->
  startup_check E w = w.
Proof.
  intros Hj Hm. apply not_missing_truthy in Hj, Hm.
  unfold startup_check, requiredEnvVars. simpl fold_left.
  rewrite (check_env_present _ _ _ Hj). apply (check_env_present _ _ _ Hm).
Qed.

Lemma startup_check_exits (E : Env) :
  missing E "JWT_SECRET" \/ missing E "MONGODB_URI" ->
  startup_check E world0 =
  {| stdio := [" FATAL: Missing required environment variable: "
               +:+ (if truthy (process_env E !! "JWT_SECRET") then "MONGODB_URI"
                    else "JWT_SECRET")];
     exit_code := Some 1%Z; wired := []; made_dirs := [] |}.
Proof.
  intros H. unfold startup_check, requiredEnvVars. simpl fold_left.
  destruct (truthy (process_env E !! "JWT_SECRET")) eqn:Hj.
  - destruct H as [H|H]; [apply missing_truthy in H; congruence|].
    apply missing_truthy in H.
    rewrite (check_env_present _ _ _ Hj).
    rewrite (check_env_missing E "MONGODB_URI" world0 H eq_refl). reflexivity.
  - rewrite (check_env_missing E "JWT_SECRET" world0 Hj eq_refl).
    erewrite check_env_exited by reflexivity. reflexivity.
Qed.

(** C7 (amended).  If [JWT_SECRET] or [MONGODB_URI] is unset or empty, the
    module exits with status 1 at the first such variable, having printed
    one line and before any layer is wired or directory made; if both are
    set and non-empty, the check changes nothing. *)
Theorem startup_check_spec (E : Env) :
  (missing E "JWT_SECRET" \/ missing E "MONGODB_URI" ->
   exit_code (boot E) = Some 1%Z /\ 1%Z <> 0%Z /\
   wired (boot E) = [] /\ made_dirs (boot E) = [] /\
   stdio (boot E) =
     [" FATAL: Missing required environment variable: "
      +:+ (if truthy (process_env E !! "JWT_SECRET") then "MONGODB_URI"
           else "JWT_SECRET")]) /\
  (~ missing E "JWT_SECRET" -> ~ missing E "MONGODB_URI" ->
   forall w, startup_check E w = w).
Proof.
  split.
  - intros H. unfold boot. rewrite (startup_check_exits E H).
    unfold wire, alive. simpl. repeat split; discriminate.
  - intros Hj Hm w. apply startup_check_passes; assumption.
Qed.

Lemma startup_check_spec_witness :
  (exit_code (boot Sample.no_database_uri) = Some 1%Z /\ 1%Z <> 0%Z /\
   wired (boot Sample.no_database_uri) = [] /\
   made_dirs (boot Sample.no_database_uri) = [] /\
   stdio (boot Sample.no_database_uri) =
     [" FATAL: Missing required environment variable: "
      +:+ (if truthy (process_env Sample.no_database_uri !! "JWT_SECRET")
           then "MONGODB_URI" else "JWT_SECRET")]) /\
  (forall w, startup_check Sample.api_only w = w).
Proof.
  split.
  - apply (proj1 (startup_check_spec Sample.no_database_uri)).
    right. left. vm_compute. reflexivity.
  - apply (proj2 (startup_check_spec Sample.api_only)).
    + intros [H|H]; vm_compute in H; discriminate.
    + intros [H|H]; vm_compute in H; discriminate.
Defined.

(** C7, as stated, fails: with [JWT_SECRET] present but empty both
    variables are present, yet the check prints and exits with status 1. *)
Lemma startup_check_rejects_empty_secret :
  process_env Sample.empty_secret !! "JWT_SECRET" = Some "" /\
  process_env Sample.empty_secret !! "MONGODB_URI" = Some "mongodb://db/app" /\
  exit_code (startup_check Sample.empty_secret world0) = Some 1%Z /\
  startup_check Sample.empty_secret world0 <> world0.
Proof.
  repeat split; try (vm_compute; reflexivity).
  intros H. apply (f_equal exit_code) in H. vm_compute in H. discriminate.
Qed.

(** With both variables usable the whole stack is wired and the process
    stays alive. *)
Lemma boot_wires (E : Env) :
  ~ missing E "JWT_SECRET" -> ~ missing E "MONGODB_URI" ->
  exit_code (boot E) = None /\ wired (boot E) = app E.
Proof.
  intros Hj Hm. unfold boot.
  rewrite (startup_check_passes E world0 Hj Hm). split; reflexivity.
Qed.

(** ** Shutdown *)

Definition abnormal (s : Signal) : bool :=
  match s with
  | unhandledRejection _ _ | uncaughtException _ _ => true
  | SIGTERM => false
  end.

(** Events other than the two fatal ones. *)
Definition benign (ev : Event) : bool :=
  match ev with
  | Sig s => negb (abnormal s)
  | ConnectionOpened | ConnectionEnded => true
  end.

Definition only_logs (cb : CloseCallback) : bool :=
  match cb with
  | LogLine _ => true
  | ExitWith _ => false
  end.

Lemma run_callbacks_listening (l : list CloseCallback) (q : Proc) :
  listening (fold_left (fun q cb => run_callback cb q) l q) = listening q.
Proof.
  revert q. induction l as [|cb l IH]; intros q; simpl; [reflexivity|].
  rewrite IH. unfold run_callback.
  destruct (exited q); [reflexivity|]. destruct cb; reflexivity.
Qed.

Lemma run_callbacks_logs (l : list CloseCallback) (q : Proc) :
  forallb only_logs l = true ->
  exited (fold_left (fun q cb => run_callback cb q) l q) = exited q.
Proof.
  revert q. induction l as [|cb l IH]; intros q H; simpl; [reflexivity|].
  simpl in H. apply andb_true_iff in H as [Hcb Hl].
  rewrite (IH _ Hl). unfold run_callback.
  destruct (exited q) eqn:Hq; [exact Hq|].
  destruct cb; [discriminate | reflexivity].
Qed.

Lemma emit_close_listening (p : Proc) :
  listening (emit_close_if_drained p) = listening p.
Proof.
  unfold emit_close_if_drained.
  destruct (listening p) eqn:Hl; simpl; [exact Hl|].
  destruct (connections p =? 0)%nat; [|exact Hl].
  rewrite run_callbacks_listening. reflexivity.
Qed.

(** Every handler stops the listener at once. *)
Lemma on_signal_stops_listening (s : Signal) (p : Proc) :
  listening (on_signal s p) = false.
Proof.
  destruct s; unfold on_signal, server_close;
    rewrite emit_close_listening; reflexivity.
Qed.

(** After [server.close] no new connection is accepted. *)
Lemma closed_refuses (p : Proc) :
  listening p = false -> step p ConnectionOpened = p.
Proof.
  intros H. unfold step. destruct (exited p); [reflexivity|].
  rewrite H. reflexivity.
Qed.

(** The server after a fatal signal, while [n] connections are still open. *)
Definition draining (n : nat) (out : list string) : Proc :=
  {| listening := false; connections := n; on_closed := [ExitWith 1];
     exited := None; output := out |}.

Lemma draining_exits (n : nat) (out : list string) :
  exited (steps (draining (S n) out) (repeat ConnectionEnded (S n))) = Some 1%Z.
Proof.
  induction n as [|n IH].
  - reflexivity.
  - change (repeat ConnectionEnded (S (S n)))
      with (ConnectionEnded :: repeat ConnectionEnded (S n)).
    unfold steps in *. simpl fold_left at 1. exact IH.
Qed.

Lemma draining_waits (n k : nat) (out : list string) :
  (k < n)%nat ->
  steps (draining n out) (repeat ConnectionEnded k) = draining (n - k) out.
Proof.
  revert n. induction k as [|k IH]; intros n H.
  - simpl. rewrite Nat.sub_0_r. reflexivity.
  - destruct n as [|n]; [lia|].
    change (repeat ConnectionEnded (S k))
      with (ConnectionEnded :: repeat ConnectionEnded k).
    unfold steps in *. simpl fold_left at 1.
    destruct n as [|n]; [lia|].
    change (step (draining (S (S n)) out) ConnectionEnded)
      with (draining (S n) out).
    rewrite IH by lia. reflexivity.
Qed.

(** The two fatal paths: the listener stops at once, nothing exits while a
    connection is still open, and the process exits with status 1 when the
    last one has ended. *)
Lemma fatal_signal_shutdown (s : Signal) (n : nat) :
  abnormal s = true ->
  let p := on_signal s (serving n) in
  listening p = false /\
  (forall k, (k < n)%nat ->
     exited (steps p (repeat ConnectionEnded k)) = None /\
     listening (steps p (repeat ConnectionEnded k)) = false) /\
  exited (steps p (repeat ConnectionEnded n)) = Some 1%Z.
Proof.
  intros Hs p. split; [apply on_signal_stops_listening|].
  destruct n as [|n].
  - split; [intros k Hk; lia|]. destruct s; try discriminate; reflexivity.
  - assert (Hp : exists out, p = draining (S n) out).
    { destruct s; try discriminate; eexists; reflexivity. }
    destruct Hp as [out ->]. split.
    + intros k Hk. rewrite draining_waits by exact Hk. split; reflexivity.
    + apply draining_exits.
Qed.

(** A process in which nothing is waiting to call [process.exit]. *)
Definition calm (p : Proc) : Prop :=
  exited p = None /\ forallb only_logs (on_closed p) = true.

Lemma run_callbacks_on_closed (l : list CloseCallback) (q : Proc) :
  on_closed (fold_left (fun q cb => run_callback cb q) l q) = on_closed q.
Proof.
  revert q. induction l as [|cb l IH]; intros q; simpl; [reflexivity|].
  rewrite IH. unfold run_callback.
  destruct (exited q); [reflexivity|]. destruct cb; reflexivity.
Qed.

Lemma emit_close_calm (p : Proc) : calm p -> calm (emit_close_if_drained p).
Proof.
  intros [He Hl]. unfold emit_close_if_drained.
  destruct (negb (listening p) && (connections p =? 0)%nat); [|split; assumption].
  split.
  - rewrite (run_callbacks_logs _ _ Hl). exact He.
  - rewrite run_callbacks_on_closed. reflexivity.
Qed.

Lemma benign_step_calm (p : Proc) (ev : Event) :
  benign ev = true -> calm p -> calm (step p ev).
Proof.
  intros Hev [He Hl]. unfold step. rewrite He.
  destruct ev as [s| |].
  - destruct s; try discriminate. unfold on_signal, server_close.
    apply emit_close_calm. split; [exact He|]. simpl.
    rewrite forallb_app, Hl. reflexivity.
  - destruct (listening p); split; solve [reflexivity | assumption].
  - apply emit_close_calm. split; [reflexivity | exact Hl].
Qed.

Lemma benign_steps_calm (evs : list Event) (p : Proc) :
  forallb benign evs = true -> calm p -> calm (steps p evs).
Proof.
  revert p. induction evs as [|ev evs IH]; intros p H Hp; [exact Hp|].
  simpl in H. apply andb_true_iff in H as [Hev Hevs].
  unfold steps. simpl. apply IH; [exact Hevs|].
  apply benign_step_calm; assumption.
Qed.

(** On the SIGTERM path nothing ever calls [process.exit]: whatever
    connections open or end afterwards, and however often the signal is
    repeated, the process is still there. *)
Lemma sigterm_never_exits (n : nat) (evs : list Event) :
  forallb benign evs = true ->
  exited (steps (serving n) (Sig SIGTERM :: evs)) = None.
Proof.
  intros H.
  apply (benign_steps_calm (Sig SIGTERM :: evs) (serving n)).
  - simpl. exact H.
  - split; reflexivity.
Qed.

Lemma step_stays_closed (p : Proc) (ev : Event) :
  listening p = false -> listening (step p ev) = false.
Proof.
  intros H. unfold step. destruct (exited p); [exact H|].
  destruct ev as [s| |].
  - apply on_signal_stops_listening.
  - rewrite H. exact H.
  - rewrite emit_close_listening. exact H.
Qed.

Lemma steps_stay_closed (evs : list Event) (p : Proc) :
  listening p = false -> listening (steps p evs) = false.
Proof.
  revert p. induction evs as [|ev evs IH]; intros p H; [exact H|].
  unfold steps. simpl. apply IH. apply step_stays_closed. exact H.
Qed.

(** The run used as the example below: SIGTERM arrives while two
    connections are open and both then end.  The listener stops and the
    close callback runs (its line is printed), but the process has no exit
    status, whereas the same run after an uncaught exception exits with
    status 1. *)
Example sigterm_drain_example :
  let p := steps (serving 2) [Sig SIGTERM; ConnectionEnded; ConnectionEnded] in
  listening p = false /\ connections p = 0%nat /\
  output p = [" SIGTERM RECEIVED. Shutting down gracefully";
              " Process terminated!"] /\
  exited p = None /\
  exited (steps (serving 2)
            [Sig (uncaughtException "TypeError" "x is not a function");
             ConnectionEnded; ConnectionEnded]) = Some 1%Z.
Proof. repeat split. Qed.

(** C9, on the SIGTERM path.  After SIGTERM the server stops accepting
    connections and stays closed, but nothing calls [process.exit]: whatever
    connections open or end afterwards, and however often the signal is
    repeated, the process has no exit status.  (On the two fatal paths the
    exit with status 1 does follow the drain.) *)
Theorem sigterm_closes_without_exit (n : nat) (evs : list Event) :
  forallb benign evs = true ->
  let p := steps (serving n) (Sig SIGTERM :: evs) in
  listening p = false /\ exited p = None.
Proof.
  intros H p. split.
  - unfold p, steps. simpl fold_left.
    apply (steps_stay_closed evs). apply on_signal_stops_listening.
  - apply sigterm_never_exits. exact H.
Qed.

Lemma sigterm_closes_without_exit_witness :
  let p := steps (serving 2) [Sig SIGTERM; ConnectionEnded; ConnectionEnded] in
  listening p = false /\ exited p = None.
Proof.
  apply (sigterm_closes_without_exit 2 [ConnectionEnded; ConnectionEnded]).
  reflexivity.
Defined.

(** ** Shape of the stack *)

Lemma app_segments (E : Env) :
  app E = pre_parser E ++ parsers E ++ dev_logging E ++ routes E
          ++ fallback_routes E ++ [error_layer E].
Proof. unfold app, admission, fallbacks. rewrite <- !app_assoc. reflexivity. Qed.

Lemma pre_parser_normal (E : Env) : forallb is_normal (pre_parser E) = true.
Proof. reflexivity. Qed.

Lemma parsers_normal (E : Env) : forallb is_normal (parsers E) = true.
Proof. reflexivity. Qed.

Lemma dev_logging_normal (E : Env) : forallb is_normal (dev_logging E) = true.
Proof. unfold dev_logging. destruct (development E); reflexivity. Qed.

Lemma routes_normal (E : Env) : forallb is_normal (routes E) = true.
Proof. reflexivity. Qed.

Lemma fallback_routes_normal (E : Env) :
  forallb is_normal (fallback_routes E) = true.
Proof.
  unfold fallback_routes.
  destruct (existsSync E (buildPath E)), (development E); reflexivity.
Qed.

(** Everything between the body parser and the error handler. *)
Definition after_json (E : Env) : list Layer :=
  tl (parsers E) ++ dev_logging E ++ routes E ++ fallback_routes E.

Lemma after_json_normal (E : Env) : forallb is_normal (after_json E) = true.
Proof.
  unfold after_json. rewrite !forallb_app.
  rewrite dev_logging_normal, routes_normal, fallback_routes_normal.
  reflexivity.
Qed.

(** The kinds of the layers that ran are kinds of layers of the stack. *)
Lemma trace_kinds (P : Kind -> bool) (st : list Layer) (f : Flow)
    (req : Request) (c : Ctx) :
  forallb (fun l => P (kind l)) st = true ->
  forallb (fun e => P (snd e)) (trace (run st f req c)) = true.
Proof.
  revert f c. induction st as [|l st IH]; intros f c H; [reflexivity|].
  simpl in H. apply andb_true_iff in H as [Hl Hst]. simpl.
  destruct f as [|e|]; [| |reflexivity].
  - destruct (applies l req); [|apply IH, Hst].
    destruct (handler l) as [h|h]; [|apply IH, Hst].
    destruct (h req c) as [c' r]. simpl. rewrite Hl. apply IH, Hst.
  - destruct (applies l req); [|apply IH, Hst].
    destruct (handler l) as [h|h]; [apply IH, Hst|].
    destruct (h e req c) as [c' r]. simpl. rewrite Hl. apply IH, Hst.
Qed.

Definition not_route (k : Kind) : bool := negb (is_route_kind k).

Lemma no_route_in_trace (tr : list (string * Kind)) :
  forallb (fun e => not_route (snd e)) tr = true ->
  existsb (fun e => is_route_kind (snd e)) tr = false.
Proof.
  induction tr as [|e tr IH]; intros H; [reflexivity|].
  simpl in *. apply andb_true_iff in H as [He Htr].
  unfold not_route in He. apply negb_true_iff in He. rewrite He. apply IH, Htr.
Qed.

(** ** The central error handler *)

Definition is_bad_json (e : JsError) : bool :=
  match err_class e, err_status e with
  | SyntaxErrorClass, Some (SNum 400) => err_has_body e
  | _, _ => false
  end.

Definition error_code (e : JsError) : nat :=
  match err_statusCode e with
  | Some n => if (n =? 0)%nat then 500 else n
  | None => 500
  end.

Definition error_body (E : Env) (e : JsError) : Json :=
  JObj ([("status", status_json (if status_truthy (err_status e)
                                  then default (SStr "error") (err_status e)
                                  else SStr "error"));
         ("message", JStr (message e))]
        ++ (if development E then [("stack", JStr (err_stack e))] else [])).

(** On a fresh response every other error is answered with its status code
    (500 by default) and the status/message envelope. *)
Lemma error_handler_sends (E : Env) (e : JsError) (req : Request) (c : Ctx) :
  is_bad_json e = false -> sent c = None ->
  exists c',
    error_handler E e req c = (c', Ok End) /\
    sent c' = Some {| status := error_code e; body := BJson (error_body E e) |}.
Proof.
  intros Hb Hs. unfold error_handler. fold (is_bad_json e). rewrite Hb.
  fold (error_code e).
  unfold bind, console_write, res_status, res_json, res_write, ret.
  destruct (development E) eqn:Hd; cbn [sent statusCode headers console];
    rewrite Hs; eexists; (split; [reflexivity|]);
    cbn [sent]; unfold error_body; rewrite Hd; reflexivity.
Qed.

(** Once a response is out the handler cannot write another one: it throws
    and the first response stands. *)
Lemma error_handler_after_send (E : Env) (e : JsError) (req : Request)
    (c : Ctx) (r : Response) :
  sent c = Some r ->
  exists c' e', error_handler E e req c = (c', Throw e') /\ sent c' = Some r.
Proof.
  intros Hs. unfold error_handler.
  unfold bind, console_write, res_status, res_json, res_write, ret.
  destruct (match err_class e with
            | PlainError => false
            | SyntaxErrorClass =>
                match err_status e with
                | Some (SNum 400) => err_has_body e
                | _ => false
                end
            end);
    [|destruct (development E)]; cbn [sent statusCode headers console];
    rewrite Hs; do 2 eexists; (split; [reflexivity|]); reflexivity.
Qed.

(** A pending error reaches the error handler, whatever lies between. *)
Lemma run_to_error_handler (E : Env) (mid : list Layer) (e : JsError)
    (req : Request) (c : Ctx) :
  forallb is_normal mid = true ->
  run (mid ++ [error_layer E]) (NextErr e) req c =
  let '(c', r) := error_handler E e req c in
  {| ctx := c'; trace := [("error-handler", ErrorMiddleware)];
     flow := settle r |}.
Proof.
  intros Hmid. rewrite run_app, (run_error_skips _ _ _ _ Hmid).
  cbn [ctx trace flow]. simpl.
  destruct (error_handler E e req c) as [c' r]. reflexivity.
Qed.

(** ** CORS *)

(** The origins the check lets through: no [Origin] header, an empty one
    (both falsy), or one of the five listed. *)
Definition origin_allowed (o : option string) : Prop :=
  o = None \/ o = Some "" \/ exists s, o = Some s /\ In s allowedOrigins.

Definition origin_ok (o : option string) : bool :=
  negb (truthy o)
  || match o with Some s => includes allowedOrigins s | None => false end.

Lemma origin_ok_spec (o : option string) :
  origin_ok o = true <-> origin_allowed o.
Proof.
  unfold origin_ok, origin_allowed. rewrite orb_true_iff, negb_true_iff.
  rewrite truthy_false. destruct o as [s|].
  - rewrite includes_In. split.
    + intros [[H|H]|H]; [discriminate | right; left; exact H |].
      right. right. exists s. split; [reflexivity | exact H].
    + intros [H|[H|(t & [= ->] & H)]]; [discriminate | left; right; exact H |].
      right. exact H.
  - split; [intros _; left; reflexivity | intros _; left; left; reflexivity].
Qed.

Lemma corsOptions_origin_accepts (o : option string) (c : Ctx) :
  origin_ok o = true -> corsOptions_origin o c = (c, Ok (CbOk true)).
Proof.
  intros H. unfold corsOptions_origin. fold (origin_ok o). rewrite H. reflexivity.
Qed.

Lemma corsOptions_origin_rejects (o : option string) (c : Ctx) :
  origin_ok o = false ->
  corsOptions_origin o c =
  ({| statusCode := statusCode c; sent := sent c; headers := headers c;
      console := console c
                 ++ ["CORS blocked request from origin: " +:+ default "" o] |},
   Ok (CbErr (new_Error "Not allowed by CORS"))).
Proof.
  intros H. unfold corsOptions_origin. fold (origin_ok o). rewrite H. reflexivity.
Qed.

Definition cors_error : JsError := new_Error "Not allowed by CORS".

Lemma cors_mw_rejects (req : Request) (c : Ctx) :
  origin_ok (origin req) = false ->
  cors_mw req c =
  ({| statusCode := statusCode c; sent := sent c; headers := headers c;
      console := console c
                 ++ ["CORS blocked request from origin: "
                     +:+ default "" (origin req)] |},
   Ok (NextErr cors_error)).
Proof.
  intros H. unfold cors_mw, bind.
  rewrite (corsOptions_origin_rejects _ _ H). reflexivity.
Qed.

Lemma cors_mw_accepts (req : Request) (c : Ctx) :
  origin_ok (origin req) = true ->
  cors_mw req c =
  match method req with
  | OPTIONS => (res_status optionsSuccessStatus ;; res_end ;; ret End) c
  | _ => (c, Ok Next)
  end.
Proof.
  intros H. unfold cors_mw, bind at 1.
  rewrite (corsOptions_origin_accepts _ _ H).
  destruct (method req); reflexivity.
Qed.

(** A request from another origin: the CORS layer raises, every layer up to
    the error handler is skipped, and the error handler answers. *)
Lemma cors_rejection (E : Env) (req : Request) :
  origin_ok (origin req) = false ->
  trace (handle E req) = [("cors", Middleware); ("error-handler", ErrorMiddleware)]
  /\ response E req =
     Some {| status := 500; body := BJson (error_body E cors_error) |}.
Proof.
  intros H.
  assert (Happ : app E = use_all "cors" cors_mw
                   :: ((tl (pre_parser E) ++ parsers E ++ dev_logging E
                        ++ routes E ++ fallback_routes E) ++ [error_layer E])).
  { rewrite app_segments.
    change (pre_parser E) with (use_all "cors" cors_mw :: tl (pre_parser E)) at 1.
    rewrite <- app_comm_cons. f_equal. rewrite <- !app_assoc. reflexivity. }
  set (mid := tl (pre_parser E) ++ _) in Happ.
  assert (Hmid : forallb is_normal mid = true).
  { unfold mid. rewrite !forallb_app, parsers_normal, dev_logging_normal,
      routes_normal, fallback_routes_normal. reflexivity. }
  assert (Hrun : exists c',
    run (app E) Next req ctx0 =
      {| ctx := c';
         trace := [("cors", Middleware); ("error-handler", ErrorMiddleware)];
         flow := End |} /\
    sent c' = Some {| status := 500; body := BJson (error_body E cors_error) |}).
  { rewrite Happ.
    rewrite (run_enter (use_all "cors" cors_mw) _ req ctx0 cors_mw
               eq_refl eq_refl).
    rewrite (cors_mw_rejects _ _ H). cbn [fst snd settle].
    rewrite (run_to_error_handler E mid _ req _ Hmid).
    edestruct (error_handler_sends E cors_error req) as (c' & Hc' & Hsent);
      [reflexivity | | rewrite Hc'].
    - reflexivity.
    - exists c'. split; [reflexivity | exact Hsent]. }
  destruct Hrun as (c' & Hrun & Hsent).
  unfold response, handle. rewrite Hrun. cbn [ctx trace flow].
  unfold finalhandler. cbn [ctx]. rewrite Hsent. split; [reflexivity | exact Hsent].
Qed.

(** C2 (amended).  The origin check calls back with [(null, true)] exactly
    when the request has no [Origin] header, an empty one, or one that is
    exactly one of the five listed origins; for every other origin it calls
    back with the error [Not allowed by CORS], and then no route handler or
    router runs: the only layers that run are the CORS layer and the error
    handler, which answers with status 500. *)
Theorem cors_origin_policy (E : Env) (req : Request) (c : Ctx) :
  let cb := snd (corsOptions_origin (origin req) c) in
  (cb = Ok (CbOk true) <-> origin_allowed (origin req)) /\
  (cb = Ok (CbErr cors_error) <-> ~ origin_allowed (origin req)) /\
  (~ origin_allowed (origin req) ->
   trace (handle E req) = [("cors", Middleware); ("error-handler", ErrorMiddleware)]
   /\ route_ran (handle E req) = false
   /\ response E req =
      Some {| status := 500; body := BJson (error_body E cors_error) |}).
Proof.
  cbn zeta. rewrite <- origin_ok_spec.
  destruct (origin_ok (origin req)) eqn:H.
  - rewrite (corsOptions_origin_accepts _ _ H). cbn [snd].
    repeat split; try congruence; try discriminate.
  - rewrite (corsOptions_origin_rejects _ _ H). cbn [snd].
    split; [split; [discriminate | congruence]|].
    split; [split; [congruence | reflexivity]|].
    intros _. destruct (cors_rejection E req H) as [Ht Hr].
    split; [exact Ht|]. split; [|exact Hr].
    unfold route_ran. rewrite Ht. reflexivity.
Qed.

Lemma cors_origin_policy_witness :
  let req := Sample.request POST "/api/orders" (Some "https://evil.example")
               (Some "{}") in
  trace (handle Sample.api_only req)
    = [("cors", Middleware); ("error-handler", ErrorMiddleware)]
  /\ route_ran (handle Sample.api_only req) = false
  /\ response Sample.api_only req =
     Some {| status := 500;
             body := BJson (error_body Sample.api_only cors_error) |}.
Proof.
  cbn zeta.
  apply (proj2 (proj2 (cors_origin_policy Sample.api_only
                         (Sample.request POST "/api/orders"
                            (Some "https://evil.example") (Some "{}")) ctx0))).
  intros H. apply origin_ok_spec in H. vm_compute in H. discriminate.
Defined.

(** C2, as stated, fails at an empty [Origin] header: the header is there,
    its value is not one of the five origins, and the check still calls
    back with [(null, true)]. *)
Lemma cors_accepts_empty_origin :
  let o : option string := Some "" in
  snd (corsOptions_origin o ctx0) = Ok (CbOk true) /\
  o <> None /\ ~ (exists s, o = Some s /\ In s allowedOrigins).
Proof.
  cbn zeta. split; [reflexivity|]. split; [discriminate|].
  intros (s & [= <-] & H). simpl in H.
  repeat (destruct H as [H|H]; [discriminate|]). exact H.
Qed.

(** ** Layers that pass a request on leave the response alone *)

(** Two contexts with the same response state (the console may differ). *)
Definition same_res (c c' : Ctx) : Prop :=
  statusCode c' = statusCode c /\ sent c' = sent c /\ headers c' = headers c.

Lemma same_res_refl (c : Ctx) : same_res c c.
Proof. repeat split. Qed.

Lemma same_res_trans (a b c : Ctx) : same_res a b -> same_res b c -> same_res a c.
Proof.
  intros (H1 & H2 & H3) (H4 & H5 & H6). repeat split; congruence.
Qed.

(** A handler is quiet if, whenever it calls [next()], it has not touched
    the response. *)
Definition quiet_handler (h : Request -> Js Flow) : Prop :=
  forall req c c', h req c = (c', Ok Next) -> same_res c c'.

Definition quiet (l : Layer) : Prop :=
  match handler l with
  | Normal h => quiet_handler h
  | OnError _ => False
  end.

(** Unfold the response primitives in a hypothesis about a handler. *)
Ltac crunch H :=
  cbv [bind ret throw try_catch res_status res_write res_json res_send res_end
       res_set console_write] in H;
  cbn [fst snd sent statusCode headers console] in H.

Ltac unchanged H := injection H as <-; apply same_res_refl.

(** The same for the goal. *)
Ltac js_eval :=
  cbv [bind ret throw try_catch res_status res_write res_json res_send res_end
       res_set console_write];
  cbn [fst snd sent statusCode headers console settle ctx trace flow].

Lemma cors_mw_quiet : quiet_handler cors_mw.
Proof.
  intros req c c' H. destruct (origin_ok (origin req)) eqn:Ho.
  - rewrite (cors_mw_accepts _ _ Ho) in H.
    destruct (method req); try unchanged H.
    crunch H. destruct (sent c); discriminate.
  - rewrite (cors_mw_rejects _ _ Ho) in H. discriminate.
Qed.

Lemma third_party_quiet (E : Env) (n : string) : quiet_handler (third_party E n).
Proof.
  intros req c c' H. unfold third_party in H.
  destruct (plugin E n req); [unchanged H | | discriminate].
  crunch H. destruct (sent c); discriminate.
Qed.

Lemma limiter_quiet (E : Env) : quiet_handler (limiter E).
Proof.
  intros req c c' H. unfold limiter in H.
  destruct (over_quota E limiter_options req); [|unchanged H].
  crunch H. destruct (sent c); discriminate.
Qed.

Lemma express_json_quiet (E : Env) : quiet_handler (express_json E).
Proof.
  intros req c c' H. unfold express_json in H.
  destruct (raw_body req) as [buf|]; [|unchanged H].
  destruct (negb (json_typed req)); [unchanged H|].
  destruct (json_limit <? N.of_nat (String.length buf))%N; [discriminate|].
  unfold verify in H. destruct (JSON_parse_ok E buf).
  - crunch H. injection H as <- _. apply same_res_refl.
  - crunch H. destruct (sent c); discriminate.
Qed.

Lemma request_logger_quiet (E : Env) : quiet_handler (request_logger E).
Proof.
  intros req c c' H. unfold request_logger in H.
  destruct (method req); crunch H; injection H as <-; repeat split.
Qed.

Lemma express_static_quiet (E : Env) (root : string) :
  quiet_handler (express_static E root).
Proof.
  intros req c c' H. unfold express_static in H.
  destruct (get_or_head req); [|unchanged H].
  destruct (serve_static E root _); [|unchanged H].
  crunch H. destruct (sent c); discriminate.
Qed.

Lemma health_quiet (E : Env) : quiet_handler (health E).
Proof.
  intros req c c' H. unfold health in H. crunch H. destruct (sent c); discriminate.
Qed.

Lemma api_data_quiet : quiet_handler api_data.
Proof.
  intros req c c' H. unfold api_data in H. crunch H.
  destruct (sent c); discriminate.
Qed.

Ltac quiet_list :=
  repeat first
    [ apply List.Forall_nil
    | apply List.Forall_cons;
      [ unfold quiet; cbn [handler use_all use_at route];
        first [ apply cors_mw_quiet | apply third_party_quiet
              | apply limiter_quiet | apply express_json_quiet
              | apply request_logger_quiet | apply express_static_quiet
              | apply health_quiet | apply api_data_quiet ] | ] ].

Lemma pre_parser_quiet (E : Env) : Forall quiet (pre_parser E).
Proof. unfold pre_parser. quiet_list. Qed.

Lemma parsers_quiet (E : Env) : Forall quiet (parsers E).
Proof. unfold parsers. quiet_list. Qed.

Lemma dev_logging_quiet (E : Env) : Forall quiet (dev_logging E).
Proof. unfold dev_logging. destruct (development E); quiet_list. Qed.

Lemma mounts_quiet (E : Env) : Forall quiet (mounts E).
Proof.
  unfold mounts. constructor; [apply express_static_quiet|].
  apply List.Forall_forall. intros l Hin.
  apply in_map_iff in Hin as (r & <- & _). apply third_party_quiet.
Qed.

Lemma fixed_routes_quiet (E : Env) : Forall quiet (fixed_routes E).
Proof. unfold fixed_routes. quiet_list. Qed.

Lemma quiet_normal (st : list Layer) : Forall quiet st -> forallb is_normal st = true.
Proof.
  induction 1 as [|l st Hl _ IH]; [reflexivity|].
  simpl. rewrite IH. unfold quiet in Hl. unfold is_normal.
  destruct (handler l); [reflexivity | contradiction].
Qed.

(** If a request comes out of a stack of quiet layers with [next()], no
    response has been started on the way. *)
Lemma run_quiet (st : list Layer) (req : Request) (c : Ctx) :
  Forall quiet st ->
  flow (run st Next req c) = Next ->
  same_res c (ctx (run st Next req c)).
Proof.
  intros Hq. revert c. induction Hq as [|l st Hl Hst IH]; intros c Hf.
  - apply same_res_refl.
  - simpl in *. destruct (applies l req); [|apply IH, Hf].
    unfold quiet in Hl. destruct (handler l) as [h|h]; [|contradiction].
    destruct (h req c) as [c' r] eqn:Hh. cbn [ctx flow] in *.
    destruct r as [[|e|]|e]; cbn [settle] in *.
    + apply (same_res_trans _ c'); [apply (Hl _ _ _ Hh) | apply IH, Hf].
    + rewrite (run_error_skips _ _ _ _ (quiet_normal _ Hst)) in Hf. discriminate.
    + rewrite run_End in Hf. discriminate.
    + rewrite (run_error_skips _ _ _ _ (quiet_normal _ Hst)) in Hf. discriminate.
Qed.

(** The request gets through [st]: every layer of [st] that applies to it
    calls [next()]. *)
Definition passes (st : list Layer) (req : Request) : Prop :=
  flow (run st Next req ctx0) = Next.

Lemma passes_fresh (st : list Layer) (req : Request) :
  Forall quiet st -> passes st req ->
  let c := ctx (run st Next req ctx0) in
  statusCode c = 200 /\ sent c = None /\ headers c = [].
Proof. intros Hq Hp. exact (run_quiet st req ctx0 Hq Hp). Qed.

(** What it takes to get as far as the body parser. *)
Lemma pre_parser_admits (E : Env) (req : Request) :
  origin_ok (origin req) = true ->
  method req <> OPTIONS ->
  (forall n, In n ["helmet"; "mongoSanitize"; "xss"; "hpp"] ->
             plugin E n req = Pass) ->
  (mount_match "/api" req = true -> over_quota E limiter_options req = false) ->
  passes (pre_parser E) req.
Proof.
  intros Ho Hm Hp Hl. unfold passes, pre_parser.
  cbn [run use_all use_at applies handler name kind].
  rewrite (cors_mw_accepts _ _ Ho).
  assert (Hopt : method_eqb (method req) OPTIONS = false)
    by (destruct (method req); try reflexivity; contradiction).
  rewrite Hopt.
  assert (Hcors : match method req with
                  | OPTIONS => (res_status optionsSuccessStatus ;; res_end ;; ret End) ctx0
                  | _ => (ctx0, Ok Next)
                  end = (ctx0, Ok Next))
    by (destruct (method req); try reflexivity; contradiction).
  rewrite Hcors. cbn [settle ctx flow trace].
  unfold third_party.
  rewrite (Hp "helmet"), (Hp "mongoSanitize"), (Hp "xss"), (Hp "hpp")
    by (simpl; auto).
  cbn [ret settle ctx flow trace].
  destruct (mount_match "/api" req) eqn:Hmount; [|reflexivity].
  unfold limiter. rewrite (Hl eq_refl). reflexivity.
Qed.

(** ** Body parsing *)

Definition invalid_json : Response :=
  {| status := 400; body := BJson (JObj [("error", JStr "Invalid JSON")]) |}.

(** On a malformed JSON body the [verify] hook writes the 400 response and
    throws; [express.json] turns that into an error for [next]. *)
Lemma express_json_malformed (E : Env) (req : Request) (c : Ctx) (buf : string) :
  raw_body req = Some buf -> json_typed req = true ->
  (N.of_nat (String.length buf) <= json_limit)%N ->
  JSON_parse_ok E buf = false -> sent c = None ->
  express_json E req c =
  ({| statusCode := 400; sent := Some invalid_json; headers := headers c;
      console := console c |},
   Ok (NextErr (http_error 403 (new_Error "Invalid JSON")))).
Proof.
  intros Hb Ht Hlen Hj Hs. unfold express_json. rewrite Hb, Ht. cbn [negb].
  apply N.ltb_ge in Hlen. rewrite Hlen.
  unfold verify. rewrite Hj.
  cbv [bind ret throw try_catch res_status res_write res_json].
  cbn [sent statusCode headers console]. rewrite Hs. reflexivity.
Qed.

(** A request without a body, or with another content type, is not read at
    all. *)
Lemma express_json_ignores (E : Env) (req : Request) (c : Ctx) :
  raw_body req = None \/ json_typed req = false ->
  express_json E req c = (c, Ok Next).
Proof.
  intros [H|H]; unfold express_json; rewrite H; [reflexivity|].
  destruct (raw_body req); reflexivity.
Qed.

(** C4 (amended).  A request that the layers registered before the body
    parser pass on, and that carries a body declared as JSON, within the
    size cap, that [JSON.parse] rejects, is answered with status 400 and the
    fixed body [{ error: 'Invalid JSON' }], and no route handler or router
    runs for it: after the parser only the error handler runs, and it cannot
    replace the response already sent. *)
Theorem malformed_json_rejected (E : Env) (req : Request) (buf : string) :
  passes (pre_parser E) req ->
  raw_body req = Some buf -> json_typed req = true ->
  (N.of_nat (String.length buf) <= json_limit)%N ->
  JSON_parse_ok E buf = false ->
  response E req = Some invalid_json /\
  route_ran (handle E req) = false /\
  (exists before, trace (handle E req) =
     before ++ [("express.json", Middleware); ("error-handler", ErrorMiddleware)]).
Proof.
  intros Hp Hb Ht Hlen Hj.
  destruct (passes_fresh _ _ (pre_parser_quiet E) Hp) as (_ & Hs & _).
  assert (Happ : app E = pre_parser E
                   ++ use_all "express.json" (express_json E)
                   :: (after_json E ++ [error_layer E])).
  { rewrite app_segments. unfold after_json, parsers. cbn [tl].
    rewrite <- !app_assoc. reflexivity. }
  assert (Hrun : exists c',
    run (app E) Next req ctx0 =
      {| ctx := c';
         trace := trace (run (pre_parser E) Next req ctx0)
                  ++ [("express.json", Middleware);
                      ("error-handler", ErrorMiddleware)];
         flow := flow (run (app E) Next req ctx0) |} /\
    sent c' = Some invalid_json).
  { rewrite Happ, run_app. cbn zeta. rewrite Hp.
    cbn [run use_all applies handler name kind].
    rewrite (express_json_malformed E req _ buf Hb Ht Hlen Hj Hs).
    cbn [settle].
    rewrite (run_to_error_handler E (after_json E) _ req _ (after_json_normal E)).
    edestruct (error_handler_after_send E (http_error 403 (new_Error "Invalid JSON")) req)
      as (c' & e' & Hc' & Hsent); [|rewrite Hc'].
    - reflexivity.
    - exists c'. split; [reflexivity | exact Hsent]. }
  destruct Hrun as (c' & Hrun & Hsent).
  unfold response, handle, route_ran. rewrite Hrun. cbn [ctx trace flow].
  unfold finalhandler. cbn [ctx]. rewrite Hsent. split; [exact Hsent|].
  split; [|eexists; reflexivity].
  apply no_route_in_trace. rewrite forallb_app. apply andb_true_iff. split.
  - apply trace_kinds. reflexivity.
  - reflexivity.
Qed.

Lemma malformed_json_rejected_witness :
  let req := Sample.request POST "/api/orders" (Some "http://localhost:5173")
               (Some "{bad") in
  response Sample.api_only req = Some invalid_json /\
  route_ran (handle Sample.api_only req) = false /\
  (exists before, trace (handle Sample.api_only req) =
     before ++ [("express.json", Middleware); ("error-handler", ErrorMiddleware)]).
Proof.
  cbn zeta.
  apply (malformed_json_rejected Sample.api_only
           (Sample.request POST "/api/orders" (Some "http://localhost:5173")
              (Some "{bad")) "{bad").
  - vm_compute. reflexivity.
  - reflexivity.
  - reflexivity.
  - vm_compute. discriminate.
  - reflexivity.
Defined.

(** C4, as stated, fails: a malformed body that is not declared as JSON is
    not looked at by the parser; the request goes on to the router mounted
    on its path, and what it gets here is the 404 of an unmatched API path,
    not a 400. *)
Lemma malformed_text_body_reaches_router :
  let req := {| method := POST; originalUrl := "/api/orders"; origin := None;
                ip := "10.0.0.1"; json_typed := false;
                raw_body := Some "{bad" |} in
  JSON_parse_ok Sample.api_only "{bad" = false /\
  In ("orderRoutes", RouterMount) (trace (handle Sample.api_only req)) /\
  route_ran (handle Sample.api_only req) = true /\
  response Sample.api_only req
  = Some {| status := 404;
            body := BJson (fail_envelope
                             "API endpoint /api/orders not found!") |}.
Proof.
  cbn zeta. split; [reflexivity|]. split; [|split].
  - vm_compute. repeat first [left; reflexivity | right].
  - vm_compute. reflexivity.
  - vm_compute. reflexivity.
Qed.

(** ** The fallbacks *)

(** Everything registered before the first catch-all. *)
Definition front (E : Env) : list Layer :=
  admission E ++ dev_logging E ++ routes E.

Lemma front_quiet (E : Env) : Forall quiet (front E).
Proof.
  unfold front, admission, routes. rewrite !Forall_app.
  repeat split;
    [ apply pre_parser_quiet | apply parsers_quiet | apply dev_logging_quiet
    | apply mounts_quiet | apply fixed_routes_quiet ].
Qed.

Lemma app_front (E : Env) :
  app E = front E ++ fallback_routes E ++ [error_layer E].
Proof. unfold app, front, fallbacks. rewrite <- !app_assoc. reflexivity. Qed.

Definition not_found_message (req : Request) : string :=
  "API endpoint " +:+ originalUrl req
  +:+ (if get_or_head req then " not found" else " not found!").

Definition api_404 (req : Request) : Response :=
  {| status := 404; body := BJson (fail_envelope (not_found_message req)) |}.

(** What the fallbacks do with an API URL that nothing before them
    answered. *)
Lemma fallbacks_api (E : Env) (req : Request) (c : Ctx) :
  startsWith (originalUrl req) "/api/" = true ->
  sent c = None ->
  let x := run (fallback_routes E ++ [error_layer E]) Next req c in
  sent (ctx x) = Some (api_404 req) /\ flow x = End /\ route_ran x = true.
Proof.
  intros Hurl Hs. pose proof (api_url_star req Hurl) as Hstar.
  unfold fallback_routes, api_404, not_found_message, route_ran.
  destruct (get_or_head req) eqn:Hg.
  - cbn [List.app].
    erewrite run_enter by first [exact Hg | reflexivity].
    unfold catch_all. rewrite Hurl. js_eval. rewrite Hs. js_eval.
    rewrite run_End. repeat split.
  - destruct (existsSync E (buildPath E)), (development E); cbn [List.app];
      repeat first
        [ rewrite run_skip by exact Hg
        | erewrite run_enter by first [exact Hstar | reflexivity];
          unfold express_static, no_store, api_not_found;
          rewrite ?Hg; js_eval; rewrite ?Hs; js_eval ];
      rewrite run_End; repeat split.
Qed.

(** C5 (amended).  A request whose URL starts with [/api/] and which no
    middleware, router or fixed route before the fallbacks answers gets
    status 404 and the envelope [{ status: 'fail', message }], where the
    message names the requested URL and reads [API endpoint <url> not found]
    when the first catch-all answers (GET and HEAD) and
    [API endpoint <url> not found!] when the all-methods handler answers
    (every other method). *)
Theorem unmatched_api_404 (E : Env) (req : Request) :
  startsWith (originalUrl req) "/api/" = true ->
  passes (front E) req ->
  response E req =
    Some {| status := 404;
            body := BJson (JObj [("status", JStr "fail");
                                 ("message", JStr (not_found_message req))]) |}
  /\ (exists pre post,
       not_found_message req = pre +:+ originalUrl req +:+ post).
Proof.
  intros Hurl Hp. split; [|eexists _, _; reflexivity].
  destruct (passes_fresh _ _ (front_quiet E) Hp) as (_ & Hs & _).
  destruct (fallbacks_api E req _ Hurl Hs) as (Hsent & Hflow & _).
  unfold response, handle. rewrite app_front, run_app. cbn zeta. rewrite Hp.
  cbn [ctx trace flow]. unfold finalhandler. cbn [ctx]. rewrite Hsent.
  exact Hsent.
Qed.

Lemma unmatched_api_404_witness :
  let req := Sample.request DELETE "/api/nope?x=1" None None in
  response Sample.api_only req =
    Some {| status := 404;
            body := BJson (JObj [("status", JStr "fail");
                                 ("message", JStr (not_found_message req))]) |}
  /\ (exists pre post,
       not_found_message req = pre +:+ originalUrl req +:+ post).
Proof.
  cbn zeta.
  apply (unmatched_api_404 Sample.api_only
           (Sample.request DELETE "/api/nope?x=1" None None)).
  - reflexivity.
  - vm_compute. reflexivity.
Defined.

(** C5, as stated, fails: the same unmatched URL gets two different
    envelopes, one from each handler, depending on the method. *)
Lemma api_404_differs_by_method :
  let get := Sample.request GET "/api/nope" None None in
  let post := Sample.request POST "/api/nope" None None in
  passes (front Sample.api_only) get /\ passes (front Sample.api_only) post /\
  response Sample.api_only get =
    Some {| status := 404;
            body := BJson (fail_envelope "API endpoint /api/nope not found") |} /\
  response Sample.api_only post =
    Some {| status := 404;
            body := BJson (fail_envelope "API endpoint /api/nope not found!") |} /\
  response Sample.api_only get <> response Sample.api_only post.
Proof.
  cbn zeta. repeat split; try (vm_compute; reflexivity).
  vm_compute. discriminate.
Qed.

(** ** The health endpoint *)

(** Everything registered before the health route. *)
Definition before_health (E : Env) : list Layer :=
  admission E ++ dev_logging E ++ mounts E.

Lemma before_health_quiet (E : Env) : Forall quiet (before_health E).
Proof.
  unfold before_health, admission. rewrite !Forall_app.
  repeat split;
    [ apply pre_parser_quiet | apply parsers_quiet | apply dev_logging_quiet
    | apply mounts_quiet ].
Qed.

Lemma app_health (E : Env) :
  app E = before_health E
          ++ route "GET /api/health" is_health (health E)
          :: (tl (fixed_routes E) ++ fallback_routes E ++ [error_layer E]).
Proof.
  unfold app, before_health, routes, fallbacks, fixed_routes. cbn [tl].
  rewrite <- !app_assoc. reflexivity.
Qed.

Definition database_label (rs : Z) : string :=
  or_else (statusMap !! rs) "Unknown".

Definition database_labels : list string :=
  ["Disconnected"; "Connected"; "Connecting"; "Disconnecting"].

Definition health_body (E : Env) : Json :=
  JObj [ ("status", JStr "OK");
         ("database", JStr (database_label (readyState E)));
         ("timestamp", JStr (now_iso E));
         ("uptime", JNum (uptime E)) ].

(** The handler on a fresh response. *)
Lemma health_sends (E : Env) (req : Request) (c : Ctx) :
  sent c = None ->
  health E req c =
  ({| statusCode := 200;
      sent := Some {| status := 200; body := BJson (health_body E) |};
      headers := headers c; console := console c |}, Ok End).
Proof.
  intros Hs. unfold health. js_eval. rewrite Hs. reflexivity.
Qed.

(** A GET or HEAD of [/api/health] that nothing earlier answers is answered
    by the health handler. *)
Lemma health_response (E : Env) (req : Request) :
  is_health req = true -> passes (before_health E) req ->
  response E req = Some {| status := 200; body := BJson (health_body E) |}.
Proof.
  intros Hh Hp.
  destruct (passes_fresh _ _ (before_health_quiet E) Hp) as (_ & Hs & _).
  unfold response, handle. rewrite app_health, run_app. cbn zeta. rewrite Hp.
  erewrite run_enter by first [exact Hh | reflexivity].
  rewrite (health_sends E req _ Hs). cbn [fst snd settle]. rewrite run_End.
  reflexivity.
Qed.

Lemma database_label_cases (rs : Z) :
  (rs = 0%Z /\ database_label rs = "Disconnected") \/
  (rs = 1%Z /\ database_label rs = "Connected") \/
  (rs = 2%Z /\ database_label rs = "Connecting") \/
  (rs = 3%Z /\ database_label rs = "Disconnecting") \/
  (~ (0 <= rs <= 3)%Z /\ database_label rs = "Unknown").
Proof.
  destruct (decide (rs = 0%Z)) as [->|H0]; [left; split; reflexivity|].
  destruct (decide (rs = 1%Z)) as [->|H1]; [right; left; split; reflexivity|].
  destruct (decide (rs = 2%Z)) as [->|H2];
    [right; right; left; split; reflexivity|].
  destruct (decide (rs = 3%Z)) as [->|H3];
    [right; right; right; left; split; reflexivity|].
  right. right. right. right. split; [lia|].
  unfold database_label, statusMap.
  rewrite !lookup_insert_ne, lookup_empty by congruence. reflexivity.
Qed.

(** C6 (amended).  A GET or HEAD of [/api/health] that reaches the health
    route is answered with a body whose [database] field is the label of
    the connection state, one of the four defined labels when [readyState]
    is 0, 1, 2 or 3 and ['Unknown'] for every other value, and whose
    [uptime] field is the number [process.uptime()] returned, so
    non-negative whenever that is. *)
Theorem health_report (E : Env) (req : Request) :
  is_health req = true -> passes (before_health E) req ->
  exists r label u,
    response E req = Some r /\
    body_field "database" r = Some (JStr label) /\
    body_field "uptime" r = Some (JNum u) /\
    ((0 <= readyState E <= 3)%Z -> In label database_labels) /\
    (~ (0 <= readyState E <= 3)%Z -> label = "Unknown") /\
    u = uptime E /\ ((0 <= uptime E)%Q -> (0 <= u)%Q).
Proof.
  intros Hh Hp. eexists _, (database_label (readyState E)), (uptime E).
  split; [apply (health_response E req Hh Hp)|].
  split; [reflexivity|]. split; [reflexivity|].
  split; [|split; [|split; [reflexivity | trivial]]].
  - intros Hr.
    destruct (database_label_cases (readyState E))
      as [[_ ->]|[[_ ->]|[[_ ->]|[[_ ->]|[Hn _]]]]];
      simpl; auto. contradiction.
  - intros Hn.
    destruct (database_label_cases (readyState E))
      as [[H _]|[[H _]|[[H _]|[[H _]|[_ H]]]]]; try lia. exact H.
Qed.

Lemma health_report_witness :
  exists r label u,
    response Sample.uninitialized_db (Sample.request GET "/api/health" None None)
      = Some r /\
    body_field "database" r = Some (JStr label) /\
    body_field "uptime" r = Some (JNum u) /\
    ((0 <= readyState Sample.uninitialized_db <= 3)%Z -> In label database_labels) /\
    (~ (0 <= readyState Sample.uninitialized_db <= 3)%Z -> label = "Unknown") /\
    u = uptime Sample.uninitialized_db /\
    ((0 <= uptime Sample.uninitialized_db)%Q -> (0 <= u)%Q).
Proof.
  apply (health_report Sample.uninitialized_db
           (Sample.request GET "/api/health" None None)).
  - reflexivity.
  - vm_compute. reflexivity.
Defined.

(** C6, as stated, fails: with [readyState = 99] the [database] field is
    ['Unknown'], which is not one of the four labels. *)
Lemma health_reports_unknown :
  exists r,
    response Sample.uninitialized_db (Sample.request GET "/api/health" None None)
      = Some r /\
    body_field "database" r = Some (JStr "Unknown") /\
    ~ In "Unknown" database_labels.
Proof.
  eexists. split; [vm_compute; reflexivity|]. split; [reflexivity|].
  simpl. intros [H|[H|[H|[H|H]]]]; try discriminate. exact H.
Qed.

(** The same deployment with another connection state. *)
Definition with_readyState (E : Env) (rs : Z) : Env :=
  {| process_env := process_env E; dirname := dirname E;
     existsSync := existsSync E; isFile := isFile E;
     serve_static := serve_static E; JSON_parse_ok := JSON_parse_ok E;
     over_quota := over_quota E; plugin := plugin E;
     inspect_body := inspect_body E;
     readyState := rs; now_iso := now_iso E; uptime := uptime E |}.

(** C10 (amended).  The health handler always answers with status 200: on
    every fresh response, and so for every GET or HEAD of [/api/health]
    that reaches the health route, whatever the connection state is
    (disconnected, connecting and disconnecting included); the state shows
    only in the body. *)
Theorem health_always_200 (E : Env) (req : Request) (rs : Z) :
  (forall c, sent c = None ->
     exists b, sent (fst (health (with_readyState E rs) req c))
               = Some {| status := 200; body := b |}) /\
  (is_health req = true -> passes (before_health E) req ->
   exists b, response (with_readyState E rs) req
             = Some {| status := 200; body := b |}).
Proof.
  split.
  - intros c Hs. rewrite (health_sends _ req c Hs). eexists. reflexivity.
  - intros Hh Hp. eexists.
    apply (health_response (with_readyState E rs) req Hh). exact Hp.
Qed.

Lemma health_always_200_witness :
  exists b, response (with_readyState Sample.api_only 0)
              (Sample.request GET "/api/health" None None)
            = Some {| status := 200; body := b |}.
Proof.
  apply (proj2 (health_always_200 Sample.api_only
                  (Sample.request GET "/api/health" None None) 0)).
  - reflexivity.
  - vm_compute. reflexivity.
Defined.

(** ** The client bundle *)

(** Two layers do the same to a given request. *)
Definition handler_agree (req : Request) (h h' : Handler) : Prop :=
  match h, h' with
  | Normal a, Normal b => forall c, a req c = b req c
  | OnError a, OnError b => forall e c, a e req c = b e req c
  | _, _ => False
  end.

Definition layer_agree (req : Request) (l l' : Layer) : Prop :=
  name l = name l' /\ kind l = kind l' /\ applies l req = applies l' req /\
  (applies l req = true -> handler_agree req (handler l) (handler l')).

Lemma layer_agree_refl (req : Request) (l : Layer) : layer_agree req l l.
Proof.
  repeat split. intros _. unfold handler_agree. destruct (handler l); reflexivity.
Qed.

Lemma run_agree (req : Request) (st st' : list Layer) :
  Forall2 (layer_agree req) st st' ->
  forall f c, run st f req c = run st' f req c.
Proof.
  induction 1 as [|l l' st st' (Hn & Hk & Ha & Hh) _ IH]; intros f c;
    [reflexivity|].
  simpl. rewrite <- Ha, <- Hn, <- Hk. unfold handler_agree in Hh.
  destruct f as [|e|]; [| |reflexivity].
  - destruct (applies l req); [|apply IH]. specialize (Hh eq_refl).
    destruct (handler l) as [h|h], (handler l') as [h'|h'];
      try contradiction; [|apply IH].
    rewrite <- Hh. destruct (h req c). rewrite IH. reflexivity.
  - destruct (applies l req); [|apply IH]. specialize (Hh eq_refl).
    destruct (handler l) as [h|h], (handler l') as [h'|h'];
      try contradiction; [apply IH|].
    rewrite <- Hh. destruct (h e req c). rewrite IH. reflexivity.
Qed.

Lemma Forall2_agree_refl (req : Request) (st : list Layer) :
  Forall2 (layer_agree req) st st.
Proof.
  induction st; [apply List.Forall2_nil|].
  apply List.Forall2_cons; [apply layer_agree_refl | assumption].
Qed.

(** The same host where [fs.existsSync], the files [sendFile] can read and
    the contents of the bundle directory are replaced by others. *)
Definition rebundled (E : Env) (ex isf : string -> bool)
    (sf : string -> option string) : Env :=
  {| process_env := process_env E; dirname := dirname E;
     existsSync := ex; isFile := isf;
     serve_static := fun root p =>
       if String.eqb root (buildPath E) then sf p else serve_static E root p;
     JSON_parse_ok := JSON_parse_ok E; over_quota := over_quota E;
     plugin := plugin E; inspect_body := inspect_body E;
     readyState := readyState E; now_iso := now_iso E; uptime := uptime E |}.

Lemma client_build_is_not_bundle (d : string) :
  String.eqb (path_join d "client/build") (path_join d "cdclient/build") = false.
Proof. unfold path_join. rewrite eqb_append_l. reflexivity. Qed.

(** Nothing registered before the fallbacks looks at the bundle. *)
Lemma front_rebundled (E : Env) ex isf sf (req : Request) (f : Flow) (c : Ctx) :
  run (front (rebundled E ex isf sf)) f req c = run (front E) f req c.
Proof.
  change (front (rebundled E ex isf sf))
    with ((admission E ++ dev_logging E)
          ++ use_all "static:client/build"
               (express_static (rebundled E ex isf sf)
                  (path_join (dirname E) "client/build"))
             :: (tl (mounts E) ++ fixed_routes E)).
  assert (Hfront : front E = (admission E ++ dev_logging E)
                     ++ use_all "static:client/build"
                          (express_static E (path_join (dirname E) "client/build"))
                        :: (tl (mounts E) ++ fixed_routes E)).
  { unfold front, routes, mounts. cbn [tl]. rewrite <- !app_assoc. reflexivity. }
  rewrite Hfront. apply run_agree. apply Forall2_app.
  - apply Forall2_agree_refl.
  - apply List.Forall2_cons; [|apply Forall2_agree_refl].
    repeat split. intros _. cbn [handler use_all handler_agree]. intros c0.
    unfold express_static. destruct (get_or_head req); [|reflexivity].
    cbn [serve_static rebundled]. unfold buildPath.
    rewrite client_build_is_not_bundle. reflexivity.
Qed.

(** What is left of an exchange when the trace is forgotten. *)
Definition outcome (x : Exchange) : Ctx * Flow := (ctx x, flow x).

Definition bundle_layers (E : Env) : list Layer :=
  if existsSync E (buildPath E)
  then [ use_all "static:cdclient/build" (express_static E (buildPath E));
         route "GET * (bundle)" get_or_head (bundle_index E) ]
  else [].

Definition tail_routes (E : Env) : list Layer :=
  (if development E then [ use_all "no-store" no_store ] else [])
  ++ [ route "ALL /api/*" api_star_match api_not_found ].

Lemma fallback_routes_split (E : Env) :
  fallback_routes E =
  route "GET *" get_or_head (catch_all E) :: (bundle_layers E ++ tail_routes E).
Proof. reflexivity. Qed.

Lemma bundle_tail_normal (E : Env) :
  forallb is_normal (bundle_layers E ++ tail_routes E) = true.
Proof.
  unfold bundle_layers, tail_routes.
  destruct (existsSync E (buildPath E)), (development E); reflexivity.
Qed.

(** The two layers registered when the build directory exists never see a
    GET or HEAD (the first catch-all has taken it) and pass everything
    else on untouched. *)
Lemma bundle_layers_inert (E : Env) (rest : list Layer) (req : Request) (c : Ctx) :
  get_or_head req = false ->
  outcome (run (bundle_layers E ++ rest) Next req c)
  = outcome (run rest Next req c).
Proof.
  intros Hg. unfold bundle_layers.
  destruct (existsSync E (buildPath E)); [|reflexivity].
  cbn [List.app]. erewrite run_enter by reflexivity.
  unfold express_static. rewrite Hg. cbn [fst snd settle ret].
  rewrite run_skip by exact Hg. reflexivity.
Qed.

Lemma catch_all_api (E : Env) (req : Request) (c : Ctx) :
  startsWith (originalUrl req) "/api/" = true ->
  catch_all E req c =
  (res_status 404 ;;
   res_json (fail_envelope ("API endpoint " +:+ originalUrl req +:+ " not found")) ;;
   ret End) c.
Proof. intros H. unfold catch_all. rewrite H. reflexivity. Qed.

(** For an API URL the fallbacks and the error handler do the same whatever
    the bundle is. *)
Lemma fallbacks_rebundled (E : Env) ex isf sf (req : Request) (f : Flow) (c : Ctx) :
  startsWith (originalUrl req) "/api/" = true ->
  outcome (run (fallback_routes (rebundled E ex isf sf)
                ++ [error_layer (rebundled E ex isf sf)]) f req c)
  = outcome (run (fallback_routes E ++ [error_layer E]) f req c).
Proof.
  intros Hurl. set (E' := rebundled E ex isf sf).
  destruct f as [|e|].
  - rewrite !fallback_routes_split. cbn [List.app].
    destruct (get_or_head req) eqn:Hg.
    + erewrite (run_enter (route "GET *" get_or_head (catch_all E')))
        by first [exact Hg | reflexivity].
      erewrite (run_enter (route "GET *" get_or_head (catch_all E)))
        by first [exact Hg | reflexivity].
      rewrite !(catch_all_api _ _ _ Hurl).
      destruct ((res_status 404 ;;
                 res_json (fail_envelope
                   ("API endpoint " +:+ originalUrl req +:+ " not found")) ;;
                 ret End) c) as [c1 [fl|e1]] eqn:Hc.
      * assert (fl = End) as ->.
        { revert Hc. js_eval. destruct (sent c); intros [= _ <-]. reflexivity. }
        cbn [fst snd settle]. rewrite !run_End. reflexivity.
      * cbn [fst snd settle].
        rewrite (run_to_error_handler E' _ _ req _ (bundle_tail_normal E')).
        rewrite (run_to_error_handler E _ _ req _ (bundle_tail_normal E)).
        reflexivity.
    + rewrite !run_skip by exact Hg. rewrite <- !app_assoc.
      rewrite !bundle_layers_inert by exact Hg. reflexivity.
  - rewrite (run_to_error_handler E' _ _ req _ (fallback_routes_normal E')).
    rewrite (run_to_error_handler E _ _ req _ (fallback_routes_normal E)).
    reflexivity.
  - rewrite !run_End. reflexivity.
Qed.

Lemma response_unfold (E : Env) (req : Request) :
  response E req = sent (finalhandler E req (run (app E) Next req ctx0)).
Proof. reflexivity. Qed.

Lemma outcome_run_app (st1 st2 : list Layer) (f : Flow) (req : Request) (c : Ctx) :
  outcome (run (st1 ++ st2) f req c)
  = outcome (run st2 (flow (run st1 f req c)) req (ctx (run st1 f req c))).
Proof. rewrite run_app. reflexivity. Qed.

(** The final handler looks at the context and the flow only. *)
Lemma finalhandler_outcome (E E' : Env) (req : Request) (x y : Exchange) :
  process_env E = process_env E' -> outcome x = outcome y ->
  finalhandler E req x = finalhandler E' req y.
Proof.
  intros He Ho. unfold finalhandler, error_text.
  assert (Hc : ctx x = ctx y) by exact (f_equal fst Ho).
  assert (Hf : flow x = flow y) by exact (f_equal snd Ho).
  rewrite Hc, Hf, He. reflexivity.
Qed.

Lemma finished_trace (E : Env) (req : Request) (x : Exchange) :
  trace {| ctx := finalhandler E req x; trace := trace x; flow := flow x |}
  = trace x.
Proof. reflexivity. Qed.

Lemma handle_trace (E : Env) (req : Request) :
  trace (handle E req) = trace (run (app E) Next req ctx0).
Proof. exact (finished_trace E req (run (app E) Next req ctx0)). Qed.

Lemma handle_congr (E E' : Env) (req : Request) :
  process_env E = process_env E' ->
  run (app E) Next req ctx0 = run (app E') Next req ctx0 ->
  handle E req = handle E' req.
Proof.
  intros He Hrun. unfold handle. rewrite Hrun.
  rewrite (finalhandler_outcome E E' req _ _ He eq_refl). reflexivity.
Qed.

(** The answer to a request under [/api/] does not depend on the bundle. *)
Lemma api_ignores_bundle (E : Env) ex isf sf (req : Request) :
  startsWith (originalUrl req) "/api/" = true ->
  response (rebundled E ex isf sf) req = response E req.
Proof.
  intros Hurl. rewrite !response_unfold. f_equal.
  apply finalhandler_outcome; [reflexivity|].
  rewrite !app_front.
  rewrite (outcome_run_app (front (rebundled E ex isf sf))).
  rewrite (outcome_run_app (front E)).
  rewrite front_rebundled.
  apply fallbacks_rebundled. exact Hurl.
Qed.

Definition index_html (E : Env) : string :=
  path_join (path_join (dirname E) "cdclient/build") "index.html".

(** A GET or HEAD outside [/api/] that nothing before the fallbacks answers
    gets the index document, if it is there. *)
Lemma index_served (E : Env) (req : Request) :
  get_or_head req = true ->
  startsWith (originalUrl req) "/api/" = false ->
  passes (front E) req ->
  isFile E (index_html E) = true ->
  response E req = Some {| status := 200; body := BFile (index_html E) |}.
Proof.
  intros Hg Hurl Hp Hfile.
  destruct (passes_fresh _ _ (front_quiet E) Hp) as (Hcode & Hs & _).
  unfold response, handle. rewrite app_front, run_app. cbn zeta. rewrite Hp.
  rewrite fallback_routes_split. cbn [List.app].
  erewrite run_enter by first [exact Hg | reflexivity].
  unfold catch_all. rewrite Hurl. unfold res_sendFile. fold (index_html E).
  rewrite Hfile. js_eval. rewrite Hs, Hcode. js_eval. rewrite run_End.
  reflexivity.
Qed.

(** C8 (amended).  A GET or HEAD request for a URL outside [/api/] that
    nothing before the fallbacks answers gets the index document of the
    bundle with status 200 whenever that document is on disk; and the
    answer to a request under [/api/] is the same whether or not the build
    directory exists, whatever it contains and whatever [sendFile] can
    read. *)
Theorem spa_fallback (E : Env) (req : Request) :
  (get_or_head req = true ->
   startsWith (originalUrl req) "/api/" = false ->
   passes (front E) req ->
   isFile E (index_html E) = true ->
   response E req = Some {| status := 200; body := BFile (index_html E) |}) /\
  (startsWith (originalUrl req) "/api/" = true ->
   forall ex isf sf, response (rebundled E ex isf sf) req = response E req).
Proof.
  split.
  - apply index_served.
  - intros Hurl ex isf sf. apply api_ignores_bundle. exact Hurl.
Qed.

Lemma spa_fallback_witness :
  response Sample.with_bundle (Sample.request GET "/dashboard" None None)
    = Some {| status := 200; body := BFile (index_html Sample.with_bundle) |} /\
  (forall ex isf sf,
     response (rebundled Sample.with_bundle ex isf sf)
       (Sample.request POST "/api/orders" None (Some "{}"))
     = response Sample.with_bundle
         (Sample.request POST "/api/orders" None (Some "{}"))).
Proof.
  split.
  - apply (proj1 (spa_fallback Sample.with_bundle
                    (Sample.request GET "/dashboard" None None))).
    + reflexivity.
    + reflexivity.
    + vm_compute. reflexivity.
    + reflexivity.
  - apply (proj2 (spa_fallback Sample.with_bundle
                    (Sample.request POST "/api/orders" None (Some "{}")))).
    reflexivity.
Defined.

(** C8, as stated, fails twice over.  With the bundle built, a POST to an
    unmatched page URL is not given the index document: no fallback is
    registered for it and Express answers with its own 404.  And with the
    build directory present but without [index.html], a GET of the same URL
    ends in the error handler. *)
Lemma spa_fallback_only_get_with_index :
  let post := Sample.request POST "/dashboard" None None in
  let get := Sample.request GET "/dashboard" None None in
  (existsSync Sample.with_bundle (buildPath Sample.with_bundle) = true /\
   isFile Sample.with_bundle (index_html Sample.with_bundle) = true /\
   startsWith (originalUrl post) "/api/" = false /\
   passes (front Sample.with_bundle) post /\
   response Sample.with_bundle post
     = Some {| status := 404;
               body := BPage (CannotText "POST" "/dashboard") |}) /\
  (existsSync Sample.empty_bundle (buildPath Sample.empty_bundle) = true /\
   passes (front Sample.empty_bundle) get /\
   exists b, response Sample.empty_bundle get
             = Some {| status := 404; body := BJson b |}).
Proof.
  cbn zeta. repeat split; try (vm_compute; reflexivity).
  eexists. vm_compute. reflexivity.
Qed.

(** ** The rate limiter *)

(** The three numbers the file gives the rate-limit package. *)
Lemma limiter_configuration :
  windowMs limiter_options = (15 * 60 * 1000)%N /\
  windowMs limiter_options = 900000%N /\
  max limiter_options = 100%nat /\
  limit_message limiter_options
    = "Too many requests from this IP, please try again later".
Proof. repeat split. Qed.

(** When the store says the client is over quota the request ends there,
    with the fixed text; otherwise the request goes on untouched. *)
Lemma limiter_verdict (E : Env) (req : Request) (c : Ctx) :
  sent c = None ->
  limiter E req c =
  if over_quota E limiter_options req
  then ({| statusCode := 429;
           sent := Some {| status := 429;
                           body := BText (limit_message limiter_options) |};
           headers := headers c; console := console c |}, Ok End)
  else (c, Ok Next).
Proof.
  intros Hs. unfold limiter.
  destruct (over_quota E limiter_options req); [|reflexivity].
  js_eval. rewrite Hs. reflexivity.
Qed.

(** A layer runs only if it applies to the request. *)
Lemma trace_applies (st : list Layer) (f : Flow) (req : Request) (c : Ctx)
    (n : string) (k : Kind) :
  In (n, k) (trace (run st f req c)) ->
  exists l, In l st /\ name l = n /\ applies l req = true.
Proof.
  revert f c. induction st as [|l st IH]; intros f c H; [destruct H|].
  assert (Hrest : forall f' c', In (n, k) (trace (run st f' req c')) ->
            exists l0, In l0 (l :: st) /\ name l0 = n /\ applies l0 req = true).
  { intros f' c' H'. destruct (IH _ _ H') as (l0 & Hin & Hn & Ha).
    exists l0. split; [right; exact Hin | split; assumption]. }
  simpl in H. destruct f as [|e|]; [| |destruct H].
  - destruct (applies l req) eqn:Ha; [|eapply Hrest, H].
    destruct (handler l) as [h|h]; [|eapply Hrest, H].
    destruct (h req c) as [c' r]. cbn [trace] in H. destruct H as [[= <- _]|H].
    + exists l. split; [left; reflexivity | split; [reflexivity | exact Ha]].
    + eapply Hrest, H.
  - destruct (applies l req) eqn:Ha; [|eapply Hrest, H].
    destruct (handler l) as [h|h]; [eapply Hrest, H|].
    destruct (h e req c) as [c' r]. cbn [trace] in H. destruct H as [[= <- _]|H].
    + exists l. split; [left; reflexivity | split; [reflexivity | exact Ha]].
    + eapply Hrest, H.
Qed.

(** The same host with another rate-limit store. *)
Definition with_quota (E : Env) (oq : RateLimitOptions -> Request -> bool) : Env :=
  {| process_env := process_env E; dirname := dirname E;
     existsSync := existsSync E; isFile := isFile E;
     serve_static := serve_static E; JSON_parse_ok := JSON_parse_ok E;
     over_quota := oq; plugin := plugin E; inspect_body := inspect_body E;
     readyState := readyState E;
     now_iso := now_iso E; uptime := uptime E |}.

(** The limiter is mounted on [/api]: a request for any other path never
    enters it, so whatever the store holds, the exchange is the same. *)
Lemma limiter_scope (E : Env) oq (req : Request) :
  mount_match "/api" req = false ->
  handle (with_quota E oq) req = handle E req /\
  ~ In ("limiter", Middleware) (trace (handle E req)).
Proof.
  intros Hm. split.
  - assert (Hrun : run (app (with_quota E oq)) Next req ctx0
                   = run (app E) Next req ctx0).
    { change (app (with_quota E oq))
        with (firstn 6 (pre_parser E)
              ++ use_at "/api" "limiter" Middleware (limiter (with_quota E oq))
                 :: (parsers E ++ dev_logging E ++ routes E ++ fallbacks E)).
      assert (Happ : app E = firstn 6 (pre_parser E)
                ++ use_at "/api" "limiter" Middleware (limiter E)
                   :: (parsers E ++ dev_logging E ++ routes E ++ fallbacks E))
        by reflexivity.
      rewrite Happ. apply run_agree. apply Forall2_app.
      - apply Forall2_agree_refl.
      - apply List.Forall2_cons; [|apply Forall2_agree_refl].
        repeat split. cbn [applies use_at]. rewrite Hm. discriminate. }
    apply handle_congr; [reflexivity | exact Hrun].
  - intros Hin. rewrite handle_trace in Hin.
    apply trace_applies in Hin as (l & Hl & Hn & Ha).
    assert (Hall : forallb (fun l => implb (String.eqb (name l) "limiter")
                                       (Bool.eqb (applies l req)
                                          (mount_match "/api" req)))
                     (app E) = true).
    { rewrite app_segments, !forallb_app. unfold dev_logging, fallback_routes.
      destruct (development E), (existsSync E (buildPath E)); cbn;
        rewrite Bool.eqb_reflx; reflexivity. }
    rewrite forallb_forall in Hall. specialize (Hall l Hl).
    rewrite Hn in Hall. cbn [String.eqb implb] in Hall.
    change (String.eqb "limiter" "limiter") with true in Hall. cbn in Hall.
    rewrite Ha, Hm in Hall. discriminate.
Qed.

(** A request under [/api] that the store counts as over quota ends at the
    limiter, with status 429 and the fixed text, before any route. *)
Lemma rate_limited (E : Env) (req : Request) :
  passes (firstn 6 (pre_parser E)) req ->
  mount_match "/api" req = true ->
  over_quota E limiter_options req = true ->
  response E req
    = Some {| status := 429; body := BText (limit_message limiter_options) |}
  /\ route_ran (handle E req) = false.
Proof.
  intros Hp Hm Hq.
  assert (Hquiet : Forall quiet (firstn 6 (pre_parser E)))
    by (unfold pre_parser; cbn [firstn]; quiet_list).
  destruct (passes_fresh _ _ Hquiet Hp) as (_ & Hs & _).
  assert (Happ : app E = firstn 6 (pre_parser E)
            ++ use_at "/api" "limiter" Middleware (limiter E)
               :: (parsers E ++ dev_logging E ++ routes E ++ fallbacks E))
    by reflexivity.
  assert (Hrun : exists c',
    run (app E) Next req ctx0 =
      {| ctx := c';
         trace := trace (run (firstn 6 (pre_parser E)) Next req ctx0)
                  ++ [("limiter", Middleware)];
         flow := End |} /\
    sent c' = Some {| status := 429;
                      body := BText (limit_message limiter_options) |}).
  { rewrite Happ, run_app. cbn zeta. rewrite Hp.
    erewrite run_enter by first [exact Hm | reflexivity].
    rewrite (limiter_verdict E req _ Hs), Hq. cbn [fst snd settle].
    rewrite run_End. eexists. split; reflexivity. }
  destruct Hrun as (c' & Hrun & Hsent).
  rewrite response_unfold. unfold route_ran. rewrite handle_trace, Hrun.
  unfold finalhandler. cbn [ctx trace flow]. rewrite Hsent.
  split; [exact Hsent|].
  apply no_route_in_trace. rewrite forallb_app. apply andb_true_iff. split.
  - apply trace_kinds. reflexivity.
  - reflexivity.
Qed.

(** Two more ways out of [express.json], both short of the routes: a body
    over the cap is refused with a 413 error, and a body [JSON.parse]
    accepts but the strict parser does not (a bare string, number, [true],
    [false] or [null]) is a [SyntaxError] with status 400, which the error
    handler answers with [{ error: 'Invalid JSON body' }]. *)
Lemma express_json_oversized (E : Env) (req : Request) (c : Ctx) (buf : string) :
  raw_body req = Some buf -> json_typed req = true ->
  (json_limit < N.of_nat (String.length buf))%N ->
  express_json E req c =
  (c, Ok (NextErr (http_error 413 (new_Error "request entity too large")))).
Proof.
  intros Hb Ht Hlen. unfold express_json. rewrite Hb, Ht. cbn [negb].
  apply N.ltb_lt in Hlen. rewrite Hlen. reflexivity.
Qed.

Lemma strict_parse_error_answer (E : Env) (req : Request) (c : Ctx) (msg : string) :
  sent c = None ->
  exists c', error_handler E (entity_parse_failed msg) req c = (c', Ok End) /\
             sent c' = Some {| status := 400;
                               body := BJson (JObj [("error", JStr "Invalid JSON body")]) |}.
Proof.
  intros Hs. unfold error_handler, entity_parse_failed, http_error.
  cbn [err_class err_status err_has_body]. js_eval. rewrite Hs.
  eexists. split; reflexivity.
Qed.

(** C10, as stated, fails: not every request to [/api/health] gets as far
    as the health route.  A POST is matched by no route before the API 404,
    and a GET from a client over its quota is stopped by the limiter. *)
Lemma health_request_not_200 :
  response Sample.api_only (Sample.request POST "/api/health" None None)
  = Some {| status := 404;
            body := BJson (fail_envelope
                             "API endpoint /api/health not found!") |} /\
  response (with_quota Sample.api_only (fun _ _ => true))
    (Sample.request GET "/api/health" None None)
  = Some {| status := 429; body := BText (limit_message limiter_options) |}.
Proof. split; vm_compute; reflexivity. Qed.

End GatewayProps.

(* ===================================================================== *)
(** * Part V.  Further properties of the route guard *)
(* ===================================================================== *)

Module GuardMore.
Import Guard.

(** X1.  For every value of [user] and [loading] the guard shows the
    guarded content exactly when [loading] is falsy and [user] is truthy,
    and a redirect exactly when both are falsy; so it never shows both, and
    a user that is [undefined], [''], [0], [NaN] or [false] is sent to the
    login page like [null]. *)
Theorem guard_by_truthiness {Node Location : Type} (children : Node)
    (auth : AuthContext) (location : Location) :
  let e := ProtectedRoute children auth location in
  shows_children e = negb (ToBoolean (loading auth)) && ToBoolean (user auth) /\
  shows_redirect e
    = negb (ToBoolean (loading auth)) && negb (ToBoolean (user auth)) /\
  shows_children e && shows_redirect e = false.
Proof.
  unfold ProtectedRoute.
  destruct (ToBoolean (loading auth)), (ToBoolean (user auth)); repeat split.
Qed.

End GuardMore.

(* ===================================================================== *)
(** * Part VI.  Further properties of the gateway *)
(* ===================================================================== *)

Module GatewayMore.
Import Gateway GatewayProps.
Local Open Scope js_scope.

(** ** Reading the result of a run *)

Lemma response_of_run (E : Env) (req : Request) (x : Exchange) (r : Response) :
  run (app E) Next req ctx0 = x -> sent (ctx x) = Some r ->
  response E req = Some r.
Proof.
  intros Hrun Hs. rewrite response_unfold, Hrun. unfold finalhandler.
  rewrite Hs. exact Hs.
Qed.

Lemma trace_of_run (E : Env) (req : Request) (x : Exchange) :
  run (app E) Next req ctx0 = x -> trace (handle E req) = trace x.
Proof. intros Hrun. rewrite handle_trace, Hrun. reflexivity. Qed.

(** A layer whose name is not in the stack is not in the trace. *)
Lemma not_in_trace (st : list Layer) (f : Flow) (req : Request) (c : Ctx)
    (n : string) (k : Kind) :
  forallb (fun l => negb (String.eqb (name l) n)) st = true ->
  ~ In (n, k) (trace (run st f req c)).
Proof.
  intros Hall Hin. apply trace_applies in Hin as (l & Hl & Hn & _).
  rewrite forallb_forall in Hall. specialize (Hall l Hl).
  rewrite Hn, String.eqb_refl in Hall. discriminate.
Qed.

(** ** Preflight requests (lines 57-64) *)

(** Everything registered after the two CORS layers. *)
Definition after_cors (E : Env) : list Layer :=
  tl (tl (pre_parser E)) ++ parsers E ++ dev_logging E ++ routes E
  ++ fallback_routes E ++ [error_layer E].

Definition preflight_layer : Layer :=
  {| name := "cors-preflight"; kind := Middleware;
     applies := fun req => method_eqb (method req) OPTIONS;
     handler := Normal cors_mw |}.

Lemma app_after_cors (E : Env) :
  app E = use_all "cors" cors_mw :: preflight_layer :: after_cors E.
Proof. rewrite app_segments. reflexivity. Qed.

(** X2.  An OPTIONS request whose origin the check accepts is answered by
    the CORS layer itself, with status 200 and an empty body, whatever its
    path: no other layer runs, so it is never rate-limited, parsed or
    routed. *)
Theorem preflight_answered (E : Env) (req : Request) :
  method req = OPTIONS -> origin_ok (origin req) = true ->
  trace (handle E req) = [("cors", Middleware)] /\
  response E req = Some {| status := 200; body := BEmpty |}.
Proof.
  intros Hm Ho.
  assert (Hrun : run (app E) Next req ctx0 =
            {| ctx := {| statusCode := 200;
                         sent := Some {| status := 200; body := BEmpty |};
                         headers := []; console := [] |};
               trace := [("cors", Middleware)]; flow := End |}).
  { rewrite app_after_cors.
    rewrite (run_enter (use_all "cors" cors_mw) _ req ctx0 cors_mw
               eq_refl eq_refl).
    rewrite (cors_mw_accepts _ _ Ho), Hm. js_eval. rewrite run_End.
    reflexivity. }
  split.
  - rewrite (trace_of_run _ _ _ Hrun). reflexivity.
  - apply (response_of_run _ _ _ _ Hrun). reflexivity.
Qed.

Lemma preflight_answered_witness :
  let req := Sample.request OPTIONS "/api/orders"
               (Some "https://cdclient.vercel.app") None in
  trace (handle Sample.api_only req) = [("cors", Middleware)] /\
  response Sample.api_only req = Some {| status := 200; body := BEmpty |}.
Proof.
  cbn zeta.
  apply (preflight_answered Sample.api_only
           (Sample.request OPTIONS "/api/orders"
              (Some "https://cdclient.vercel.app") None)).
  - reflexivity.
  - reflexivity.
Defined.

Lemma after_cors_names (E : Env) :
  forallb (fun l => negb (String.eqb (name l) "cors-preflight")) (after_cors E)
  = true.
Proof.
  unfold after_cors, dev_logging, fallback_routes. rewrite !forallb_app.
  destruct (development E), (existsSync E (buildPath E)); reflexivity.
Qed.

(** X3.  The route [app.options('*', cors(corsOptions))] never runs: the
    CORS middleware registered one line earlier has already answered every
    OPTIONS request it accepts and raised on every one it rejects. *)
Theorem options_route_never_runs (E : Env) (req : Request) :
  ~ In ("cors-preflight", Middleware) (trace (handle E req)).
Proof.
  rewrite handle_trace, app_after_cors.
  rewrite (run_enter (use_all "cors" cors_mw) _ req ctx0 cors_mw
             eq_refl eq_refl).
  cbn [trace name kind use_all]. intros [H|H]; [discriminate|].
  revert H. destruct (origin_ok (origin req)) eqn:Ho.
  - rewrite (cors_mw_accepts _ _ Ho).
    destruct (method req) eqn:Hm;
      try (cbn [fst snd settle];
           rewrite run_skip by (cbn [applies preflight_layer]; rewrite Hm;
                                reflexivity);
           apply not_in_trace, after_cors_names).
    js_eval. rewrite run_End. intros [].
  - rewrite (cors_mw_rejects _ _ Ho). cbn [fst snd settle].
    change (run (preflight_layer :: after_cors E))
      with (run ([preflight_layer] ++ after_cors E)).
    rewrite run_app, (run_error_skips [preflight_layer]) by reflexivity.
    cbn [ctx trace flow List.app]. apply not_in_trace, after_cors_names.
Qed.

(** ** The routers (lines 124-138) *)

Definition is_router (k : Kind) : bool :=
  match k with
  | RouterMount => true
  | _ => false
  end.

(** The layers of a given kind that ran are among those that apply. *)
Lemma trace_count (P : Kind -> bool) (st : list Layer) (f : Flow)
    (req : Request) (c : Ctx) :
  (length (List.filter (fun e => P (snd e)) (trace (run st f req c)))
   <= length (List.filter (fun l => P (kind l) && applies l req) st))%nat.
Proof.
  revert f c. induction st as [|l st IH]; intros f c; [simpl; lia|].
  assert (Hskip : forall f' c',
            (length (List.filter (fun e => P (snd e)) (trace (run st f' req c')))
             <= length (List.filter (fun l => P (kind l) && applies l req)
                          (l :: st)))%nat).
  { intros f' c'. specialize (IH f' c'). simpl.
    destruct (P (kind l) && applies l req); simpl; lia. }
  simpl run. destruct f as [|e|]; [| |simpl; lia].
  - destruct (applies l req) eqn:Ha; [|apply Hskip].
    destruct (handler l) as [h|h]; [|apply Hskip].
    destruct (h req c) as [c' r]. cbn [trace]. specialize (IH (settle r) c').
    simpl. rewrite Ha, andb_true_r. destruct (P (kind l)); simpl; lia.
  - destruct (applies l req) eqn:Ha; [|apply Hskip].
    destruct (handler l) as [h|h]; [apply Hskip|].
    destruct (h e req c) as [c' r]. cbn [trace]. specialize (IH (settle r) c').
    simpl. rewrite Ha, andb_true_r. destruct (P (kind l)); simpl; lia.
Qed.

Lemma startsWith_refl (s : string) : startsWith s s = true.
Proof. induction s as [|c s IH]; simpl; [reflexivity|]. rewrite Ascii.eqb_refl. exact IH. Qed.

Lemma startsWith_snoc (s p t : string) :
  startsWith s p = true -> startsWith (s +:+ t) p = true.
Proof.
  revert s. induction p as [|c p IH]; intros s H; [reflexivity|].
  destruct s as [|d s]; [discriminate|]. simpl in *.
  apply andb_true_iff in H as [Hc Hp]. rewrite Hc. apply IH, Hp.
Qed.

(** Two prefixes of one string are comparable. *)
Lemma startsWith_comparable (q a b : string) :
  startsWith q a = true -> startsWith q b = true ->
  startsWith a b = true \/ startsWith b a = true.
Proof.
  revert q b. induction a as [|c a IH]; intros q b Ha Hb.
  - right. destruct b; reflexivity.
  - destruct b as [|d b]; [left; reflexivity|].
    destruct q as [|e q]; [discriminate|]. simpl in Ha, Hb.
    apply andb_true_iff in Ha as [Hc Ha]. apply andb_true_iff in Hb as [Hd Hb].
    apply Ascii.eqb_eq in Hc, Hd. subst c d. simpl. rewrite Ascii.eqb_refl.
    exact (IH q b Ha Hb).
Qed.

Fixpoint prefix_free (l : list string) : bool :=
  match l with
  | [] => true
  | a :: r =>
      forallb (fun b => negb (startsWith a b) && negb (startsWith b a)) r
      && prefix_free r
  end.

Lemma prefix_free_one (l : list string) (q : string) :
  prefix_free l = true -> (length (List.filter (startsWith q) l) <= 1)%nat.
Proof.
  induction l as [|a r IH]; intros H; [simpl; lia|].
  simpl in H. apply andb_true_iff in H as [Ha Hr]. simpl.
  destruct (startsWith q a) eqn:Hq; [|apply IH, Hr].
  assert (Hnone : List.filter (startsWith q) r = []).
  { clear IH Hr. induction r as [|b r IHr]; [reflexivity|].
    simpl in Ha. apply andb_true_iff in Ha as [Hb Hrest]. simpl.
    destruct (startsWith q b) eqn:Hqb; [|apply IHr, Hrest].
    apply andb_true_iff in Hb as [H1 H2].
    apply negb_true_iff in H1, H2.
    destruct (startsWith_comparable q a b Hq Hqb); congruence. }
  rewrite Hnone. simpl. lia.
Qed.

Lemma filter_implied {A B : Type} (f : A -> bool) (g : B -> bool) (h : A -> B)
    (l : list A) :
  (forall a, f a = true -> g (h a) = true) ->
  (length (List.filter f l) <= length (List.filter g (map h l)))%nat.
Proof.
  intros Himp. induction l as [|a l IH]; [simpl; lia|]. simpl.
  destruct (f a) eqn:Hf.
  - rewrite (Himp a Hf). simpl. lia.
  - destruct (g (h a)); simpl; lia.
Qed.

(** A path under a mount point, with a slash appended, starts with the
    mount point and a slash. *)
Lemma mount_match_slash (m : string) (req : Request) :
  mount_match m req = true ->
  startsWith (req_path req +:+ "/") (m +:+ "/") = true.
Proof.
  unfold mount_match. intros H. apply orb_true_iff in H as [H|H].
  - apply String.eqb_eq in H. rewrite H. apply startsWith_refl.
  - apply startsWith_snoc, H.
Qed.

(** No mount point of the router table continues another one. *)
Lemma routers_prefix_free :
  prefix_free (map (fun r => fst r +:+ "/") routers) = true.
Proof. reflexivity. Qed.

Lemma one_router_applies (req : Request) :
  (length (List.filter (fun r => mount_match (fst r) req) routers) <= 1)%nat.
Proof.
  etransitivity.
  - apply (filter_implied _ (startsWith (req_path req +:+ "/"))
             (fun r => fst r +:+ "/")).
    intros r. apply mount_match_slash.
  - apply prefix_free_one, routers_prefix_free.
Qed.

Lemma filter_none {A : Type} (g : A -> bool) (l : list A) :
  forallb (fun a => negb (g a)) l = true -> List.filter g l = [].
Proof.
  induction l as [|a l IH]; intros H; [reflexivity|].
  simpl in H. apply andb_true_iff in H as [Ha Hl]. simpl.
  apply negb_true_iff in Ha. rewrite Ha. apply IH, Hl.
Qed.

Lemma routers_among_layers (E : Env) (req : Request) :
  length (List.filter (fun l => is_router (kind l) && applies l req) (app E))
  = length (List.filter (fun r => mount_match (fst r) req) routers).
Proof.
  rewrite app_segments. unfold routes, mounts.
  rewrite !List.filter_app, !length_app.
  assert (Hno : forall st,
            forallb (fun l => negb (is_router (kind l))) st = true ->
            length (List.filter (fun l => is_router (kind l) && applies l req) st)
            = 0%nat).
  { intros st H. rewrite filter_none; [reflexivity|].
    rewrite forallb_forall in *. intros l Hl. specialize (H l Hl).
    apply negb_true_iff in H. rewrite H. reflexivity. }
  rewrite (Hno (pre_parser E)), (Hno (parsers E)), (Hno (dev_logging E)),
    (Hno (fixed_routes E)), (Hno (fallback_routes E)), (Hno [error_layer E]);
    try reflexivity;
    try (unfold dev_logging, fallback_routes;
         destruct (development E), (existsSync E (buildPath E)); reflexivity).
  cbn [List.filter kind use_all is_router andb]. rewrite !Nat.add_0_r.
  cbn [Nat.add]. generalize routers. intros rs.
  induction rs as [|r rs IH]; [reflexivity|]. simpl.
  destruct (mount_match (fst r) req); simpl; rewrite IH; reflexivity.
Qed.

(** X4.  No request is ever handed to two routers: the fourteen mount
    points are such that none continues another at a segment boundary, so
    at most one router layer runs in any exchange. *)
Theorem at_most_one_router (E : Env) (req : Request) :
  (length (List.filter (fun e => is_router (snd e)) (trace (handle E req)))
   <= 1)%nat.
Proof.
  rewrite handle_trace.
  etransitivity; [apply (trace_count is_router)|].
  rewrite routers_among_layers. apply one_router_applies.
Qed.

(** ** More sample hosts *)

(** The same host with other packages behind the router names. *)
Definition with_plugin (E : Env) (pl : string -> Request -> Verdict) : Env :=
  {| process_env := process_env E; dirname := dirname E;
     existsSync := existsSync E; isFile := isFile E;
     serve_static := serve_static E; JSON_parse_ok := JSON_parse_ok E;
     over_quota := over_quota E; plugin := pl; inspect_body := inspect_body E;
     readyState := readyState E;
     now_iso := now_iso E; uptime := uptime E |}.

(** The same host with another [JSON.parse]. *)
Definition with_parser (E : Env) (ok : string -> bool) : Env :=
  {| process_env := process_env E; dirname := dirname E;
     existsSync := existsSync E; isFile := isFile E;
     serve_static := serve_static E; JSON_parse_ok := ok;
     over_quota := over_quota E; plugin := plugin E;
     inspect_body := inspect_body E; readyState := readyState E;
     now_iso := now_iso E; uptime := uptime E |}.

(** The same host started with other environment variables. *)
Definition with_env (E : Env) (vars : gmap string string) : Env :=
  {| process_env := vars; dirname := dirname E;
     existsSync := existsSync E; isFile := isFile E;
     serve_static := serve_static E; JSON_parse_ok := JSON_parse_ok E;
     over_quota := over_quota E; plugin := plugin E;
     inspect_body := inspect_body E; readyState := readyState E;
     now_iso := now_iso E; uptime := uptime E |}.

(** A store that counts every client as over quota. *)
Definition exhausted : Env := with_quota Sample.api_only (fun _ _ => true).

(** An orders router that refuses every request with a 401 error. *)
Definition unauthorized : JsError :=
  {| err_class := PlainError; message := "You are not logged in";
     err_status := Some (SStr "fail"); err_statusCode := Some 401;
     err_has_body := false; err_stack := "Error: You are not logged in" |}.

Definition guarded_orders : Env :=
  with_plugin Sample.api_only
    (fun n _ => if String.eqb n "orderRoutes" then Raises unauthorized else Pass).

Definition in_development (E : Env) : Env :=
  with_env E (<["NODE_ENV" := "development"]> (process_env E)).

(** ** The rate limiter (lines 70-76) *)

(** X5.  The limiter is mounted on [/api] only: a request for any other
    path never enters it, and gets the same response whatever the
    rate-limit store holds. *)
Theorem limiter_only_under_api (E : Env) (req : Request) :
  mount_match "/api" req = false ->
  ~ In ("limiter", Middleware) (trace (handle E req)) /\
  (forall oq, response (with_quota E oq) req = response E req).
Proof.
  intros Hm. split.
  - exact (proj2 (limiter_scope E (over_quota E) req Hm)).
  - intros oq. unfold response.
    rewrite (proj1 (limiter_scope E oq req Hm)). reflexivity.
Qed.

Lemma limiter_only_under_api_witness :
  let req := Sample.request POST "/login" None None in
  ~ In ("limiter", Middleware) (trace (handle Sample.api_only req)) /\
  (forall oq, response (with_quota Sample.api_only oq) req
              = response Sample.api_only req).
Proof.
  cbn zeta.
  apply (limiter_only_under_api Sample.api_only
           (Sample.request POST "/login" None None)).
  reflexivity.
Defined.

(** The six layers in front of the limiter let through a request that is
    not a preflight, has an accepted origin and is passed by the four
    sanitizing packages. *)
Lemma reaches_limiter (E : Env) (req : Request) :
  origin_ok (origin req) = true ->
  method req <> OPTIONS ->
  (forall n, In n ["helmet"; "mongoSanitize"; "xss"; "hpp"] ->
             plugin E n req = Pass) ->
  passes (firstn 6 (pre_parser E)) req.
Proof.
  intros Ho Hm Hp. unfold passes, pre_parser. cbn [firstn].
  rewrite (run_enter (use_all "cors" cors_mw) _ req ctx0 cors_mw
             eq_refl eq_refl).
  rewrite (cors_mw_accepts _ _ Ho).
  assert (Hcors : match method req with
                  | OPTIONS => (res_status optionsSuccessStatus ;; res_end ;; ret End) ctx0
                  | _ => (ctx0, Ok Next)
                  end = (ctx0, Ok Next))
    by (destruct (method req); try reflexivity; contradiction).
  rewrite Hcors. cbn [fst snd settle].
  rewrite run_skip
    by (cbn [applies]; destruct (method req); try reflexivity; contradiction).
  repeat (erewrite run_enter by reflexivity; unfold third_party;
          rewrite Hp by (simpl; auto); cbn [ret fst snd settle]).
  reflexivity.
Qed.

(** X6.  Under [/api], a request that gets as far as the limiter and that
    the store counts as over quota is answered with status 429 and the
    fixed text ['Too many requests from this IP, please try again later'];
    the body is not read and no router or route handler runs. *)
Theorem over_quota_rejected (E : Env) (req : Request) :
  origin_ok (origin req) = true ->
  method req <> OPTIONS ->
  (forall n, In n ["helmet"; "mongoSanitize"; "xss"; "hpp"] ->
             plugin E n req = Pass) ->
  mount_match "/api" req = true ->
  over_quota E limiter_options req = true ->
  response E req
    = Some {| status := 429;
              body := BText "Too many requests from this IP, please try again later" |}
  /\ route_ran (handle E req) = false
  /\ ~ In ("express.json", Middleware) (trace (handle E req)).
Proof.
  intros Ho Hm Hp Hmount Hq.
  pose proof (reaches_limiter E req Ho Hm Hp) as Hpass.
  destruct (rate_limited E req Hpass Hmount Hq) as [Hr Hroute].
  split; [exact Hr|]. split; [exact Hroute|].
  assert (Hquiet : Forall quiet (firstn 6 (pre_parser E)))
    by (unfold pre_parser; cbn [firstn]; quiet_list).
  destruct (passes_fresh _ _ Hquiet Hpass) as (_ & Hs & _).
  assert (Happ : app E = firstn 6 (pre_parser E)
            ++ use_at "/api" "limiter" Middleware (limiter E)
               :: (parsers E ++ dev_logging E ++ routes E ++ fallbacks E))
    by reflexivity.
  rewrite handle_trace, Happ, run_app. cbn zeta. rewrite Hpass.
  erewrite run_enter by first [exact Hmount | reflexivity].
  rewrite (limiter_verdict E req _ Hs), Hq. cbn [fst snd settle].
  rewrite run_End. cbn [trace]. intros Hin.
  apply in_app_or in Hin as [Hin|[Hin|[]]]; [|discriminate].
  revert Hin. apply not_in_trace. reflexivity.
Qed.

Lemma over_quota_rejected_witness :
  let req := Sample.request POST "/api/orders" None (Some "{bad") in
  response exhausted req
    = Some {| status := 429;
              body := BText "Too many requests from this IP, please try again later" |}
  /\ route_ran (handle exhausted req) = false
  /\ ~ In ("express.json", Middleware) (trace (handle exhausted req)).
Proof.
  cbn zeta.
  apply (over_quota_rejected exhausted
           (Sample.request POST "/api/orders" None (Some "{bad"))).
  - reflexivity.
  - discriminate.
  - intros n _. reflexivity.
  - reflexivity.
  - reflexivity.
Defined.

(** ** The quota as the specification words it (lines 70-76)

    The counter is kept by the [express-rate-limit] package, which is not
    part of the repository: the file fixes the window, the quota and the
    message, and where the limiter sits in the stack.  [sliding_window] is
    the counter the specification describes: a log of the hits recorded for
    each client, read over the last [windowMs] milliseconds. *)

Record Hit : Type := { hit_ip : string; hit_time : N }.

Definition in_window (opts : RateLimitOptions) (now : N) (h : Hit) : bool :=
  (hit_time h <=? now)%N && (now <? hit_time h + windowMs opts)%N.

Definition hits_in_window (opts : RateLimitOptions) (now : N) (client : string)
    (log : list Hit) : nat :=
  length (List.filter (fun h => String.eqb (hit_ip h) client
                                && in_window opts now h) log).

(** The client is over quota once [max] of its hits lie in the window. *)
Definition sliding_window (log : list Hit) (now : N) (opts : RateLimitOptions)
    (req : Request) : bool :=
  (max opts <=? hits_in_window opts now (ip req) log)%nat.

(** The exchange depends on the store only through its verdict on this
    request, and only under [/api]. *)
Lemma quota_agree (E : Env) (oq oq' : RateLimitOptions -> Request -> bool)
    (req : Request) :
  (mount_match "/api" req = true ->
   oq limiter_options req = oq' limiter_options req) ->
  handle (with_quota E oq) req = handle (with_quota E oq') req.
Proof.
  intros Hv.
  assert (Hrun : run (app (with_quota E oq)) Next req ctx0
                 = run (app (with_quota E oq')) Next req ctx0).
  { change (app (with_quota E oq))
      with (firstn 6 (pre_parser E)
            ++ use_at "/api" "limiter" Middleware (limiter (with_quota E oq))
               :: (parsers E ++ dev_logging E ++ routes E ++ fallbacks E)).
    change (app (with_quota E oq'))
      with (firstn 6 (pre_parser E)
            ++ use_at "/api" "limiter" Middleware (limiter (with_quota E oq'))
               :: (parsers E ++ dev_logging E ++ routes E ++ fallbacks E)).
    apply run_agree. apply Forall2_app.
    - apply Forall2_agree_refl.
    - apply List.Forall2_cons; [|apply Forall2_agree_refl].
      repeat split. cbn [applies use_at handler handler_agree].
      intros Hm c. unfold limiter. cbn [over_quota with_quota].
      rewrite (Hv Hm). reflexivity. }
  apply handle_congr; [reflexivity | exact Hrun].
Qed.

(** C3 (amended).  With the counter the specification describes in place
    of the package's store: once the log holds 100 hits of a client within
    the last 15 minutes, a request of that client under [/api] that gets as
    far as the limiter (its origin is accepted, it is not an OPTIONS
    preflight, and the four packages registered before the limiter pass it
    on) is answered with status 429 and the fixed text, and no router or
    route handler runs; with fewer hits in the window the limiter changes
    nothing; and a request for a path outside [/api] never enters the
    limiter, so it is neither counted nor blocked, whatever the log
    holds. *)
Theorem quota_enforced (E : Env) (log : list Hit) (now : N) (req : Request) :
  let E' := with_quota E (sliding_window log now) in
  (origin_ok (origin req) = true ->
   method req <> OPTIONS ->
   (forall n, In n ["helmet"; "mongoSanitize"; "xss"; "hpp"] ->
              plugin E n req = Pass) ->
   mount_match "/api" req = true ->
   (100 <= hits_in_window limiter_options now (ip req) log)%nat ->
   response E' req
   = Some {| status := 429;
             body := BText "Too many requests from this IP, please try again later" |}
   /\ route_ran (handle E' req) = false) /\
  ((hits_in_window limiter_options now (ip req) log < 100)%nat ->
   handle E' req = handle (with_quota E (fun _ _ => false)) req) /\
  (mount_match "/api" req = false ->
   ~ In ("limiter", Middleware) (trace (handle E' req)) /\
   forall oq, handle E' req = handle (with_quota E oq) req).
Proof.
  cbn zeta. split; [|split].
  - intros Ho Hm Hp Hmount Hhits.
    apply rate_limited.
    + apply reaches_limiter; assumption.
    + exact Hmount.
    + cbn [over_quota with_quota]. unfold sliding_window.
      apply Nat.leb_le. exact Hhits.
  - intros Hhits. apply quota_agree. intros _. unfold sliding_window.
    apply Nat.leb_gt. exact Hhits.
  - intros Hmount. split.
    + exact (proj2 (limiter_scope _ (fun _ _ => false) req Hmount)).
    + intros oq. apply quota_agree. intros Hm. congruence.
Qed.

(** A log of [n] hits of one client at one time. *)
Definition burst (client : string) (t : N) (n : nat) : list Hit :=
  repeat {| hit_ip := client; hit_time := t |} n.

Lemma quota_enforced_witness :
  let full := with_quota Sample.api_only
                (sliding_window (burst "10.0.0.1" 1000 100) 2000) in
  let short := with_quota Sample.api_only
                 (sliding_window (burst "10.0.0.1" 1000 99) 2000) in
  let req := Sample.request GET "/api/orders" None None in
  let page := Sample.request GET "/dashboard" None None in
  (response full req
   = Some {| status := 429;
             body := BText "Too many requests from this IP, please try again later" |}
   /\ route_ran (handle full req) = false) /\
  handle short req
  = handle (with_quota Sample.api_only (fun _ _ => false)) req /\
  (~ In ("limiter", Middleware) (trace (handle full page)) /\
   forall oq, handle full page = handle (with_quota Sample.api_only oq) page).
Proof.
  cbn zeta. split; [|split].
  - apply (proj1 (quota_enforced Sample.api_only (burst "10.0.0.1" 1000 100)
                    2000 (Sample.request GET "/api/orders" None None))).
    + reflexivity.
    + discriminate.
    + intros n _. reflexivity.
    + reflexivity.
    + vm_compute. lia.
  - apply (proj1 (proj2 (quota_enforced Sample.api_only
                           (burst "10.0.0.1" 1000 99) 2000
                           (Sample.request GET "/api/orders" None None)))).
    vm_compute. lia.
  - apply (proj2 (proj2 (quota_enforced Sample.api_only
                           (burst "10.0.0.1" 1000 100) 2000
                           (Sample.request GET "/dashboard" None None)))).
    reflexivity.
Defined.

(** C3, as stated, fails: not every request of a client over its quota
    gets the rate-limit message.  With 100 hits of the client in the window,
    its OPTIONS request under [/api] is answered by the CORS layer with an
    empty 200, and its request from an origin outside the allow-list ends in
    the error handler with a 500; neither reaches the limiter. *)
Lemma quota_not_uniform :
  let full := with_quota Sample.api_only
                (sliding_window (burst "10.0.0.1" 1000 100) 2000) in
  let preflight := Sample.request OPTIONS "/api/orders" None None in
  let foreign := Sample.request GET "/api/orders" (Some "https://evil.example")
                   None in
  (100 <= hits_in_window limiter_options 2000 (ip preflight)
            (burst "10.0.0.1" 1000 100))%nat /\
  mount_match "/api" preflight = true /\
  response full preflight = Some {| status := 200; body := BEmpty |} /\
  ~ In ("limiter", Middleware) (trace (handle full preflight)) /\
  mount_match "/api" foreign = true /\
  ip foreign = ip preflight /\
  (exists b, response full foreign = Some {| status := 500; body := BJson b |}) /\
  ~ In ("limiter", Middleware) (trace (handle full foreign)).
Proof.
  cbn zeta.
  split; [vm_compute; lia|]. split; [reflexivity|].
  split; [vm_compute; reflexivity|].
  split; [vm_compute; intros [H|[]]; discriminate H|].
  split; [reflexivity|]. split; [reflexivity|].
  split; [eexists; vm_compute; reflexivity|].
  vm_compute. intros [H|[H|[]]]; discriminate H.
Qed.

(** ** Bodies the strict parser refuses (lines 78-89 and 213-216) *)

Definition strict_error : JsError :=
  entity_parse_failed "Unexpected token in JSON".

Lemma parse_body_strict (E : Env) (buf : string) (ch : ascii) :
  first_char buf = Some ch -> ch <> "{"%char -> ch <> "["%char ->
  parse_body E buf = NextErr strict_error.
Proof.
  intros Hf H1 H2. unfold parse_body. rewrite Hf.
  destruct buf as [|c0 buf]; [discriminate|]. cbn [String.length Nat.eqb].
  destruct ch as [b0 b1 b2 b3 b4 b5 b6 b7].
  destruct b0, b1, b2, b3, b4, b5, b6, b7; try reflexivity;
    exfalso; first [apply H1; reflexivity | apply H2; reflexivity].
Qed.

Lemma express_json_strict (E : Env) (req : Request) (c : Ctx) (buf : string)
    (ch : ascii) :
  raw_body req = Some buf -> json_typed req = true ->
  (N.of_nat (String.length buf) <= json_limit)%N ->
  JSON_parse_ok E buf = true ->
  first_char buf = Some ch -> ch <> "{"%char -> ch <> "["%char ->
  express_json E req c = (c, Ok (NextErr strict_error)).
Proof.
  intros Hb Ht Hlen Hj Hf H1 H2.
  unfold express_json. rewrite Hb, Ht. cbn [negb].
  apply N.ltb_ge in Hlen. rewrite Hlen.
  unfold verify. rewrite Hj. js_eval.
  rewrite (parse_body_strict E buf ch Hf H1 H2). reflexivity.
Qed.

Definition invalid_json_body : Response :=
  {| status := 400; body := BJson (JObj [("error", JStr "Invalid JSON body")]) |}.

(** X7.  A JSON body that [JSON.parse] accepts but that is not an object or
    an array (its first non-blank character is neither a brace nor a
    bracket: a bare string, number, [true], [false], [null]) gets past the
    [verify] hook and is refused by the strict parser; the error handler
    answers with status 400 and [{ error: 'Invalid JSON body' }], and no
    router or route handler runs. *)
Theorem primitive_json_rejected (E : Env) (req : Request) (buf : string)
    (ch : ascii) :
  passes (pre_parser E) req ->
  raw_body req = Some buf -> json_typed req = true ->
  (N.of_nat (String.length buf) <= json_limit)%N ->
  JSON_parse_ok E buf = true ->
  first_char buf = Some ch -> ch <> "{"%char -> ch <> "["%char ->
  response E req = Some invalid_json_body /\
  route_ran (handle E req) = false.
Proof.
  intros Hp Hb Ht Hlen Hj Hf H1 H2.
  destruct (passes_fresh _ _ (pre_parser_quiet E) Hp) as (_ & Hs & _).
  assert (Happ : app E = pre_parser E
                   ++ use_all "express.json" (express_json E)
                   :: (after_json E ++ [error_layer E])).
  { rewrite app_segments. unfold after_json, parsers. cbn [tl].
    rewrite <- !app_assoc. reflexivity. }
  assert (Hrun : exists c',
    run (app E) Next req ctx0 =
      {| ctx := c';
         trace := trace (run (pre_parser E) Next req ctx0)
                  ++ [("express.json", Middleware);
                      ("error-handler", ErrorMiddleware)];
         flow := End |} /\
    sent c' = Some invalid_json_body).
  { rewrite Happ, run_app. cbn zeta. rewrite Hp.
    erewrite run_enter by reflexivity.
    rewrite (express_json_strict E req _ buf ch Hb Ht Hlen Hj Hf H1 H2).
    cbn [fst snd settle].
    rewrite (run_to_error_handler E (after_json E) _ req _ (after_json_normal E)).
    destruct (strict_parse_error_answer E req _ "Unexpected token in JSON" Hs)
      as (c' & Hc' & Hsent).
    fold strict_error in Hc'. rewrite Hc'.
    exists c'. split; [reflexivity | exact Hsent]. }
  destruct Hrun as (c' & Hrun & Hsent). split.
  - apply (response_of_run _ _ _ _ Hrun). exact Hsent.
  - unfold route_ran. rewrite (trace_of_run _ _ _ Hrun). cbn [trace].
    apply no_route_in_trace. rewrite forallb_app. apply andb_true_iff. split.
    + apply trace_kinds. reflexivity.
    + reflexivity.
Qed.

Lemma primitive_json_rejected_witness :
  let E := with_parser Sample.api_only (fun _ => true) in
  let req := Sample.request POST "/api/orders" None (Some " 42") in
  response E req = Some invalid_json_body /\
  route_ran (handle E req) = false.
Proof.
  cbn zeta.
  apply (primitive_json_rejected (with_parser Sample.api_only (fun _ => true))
           (Sample.request POST "/api/orders" None (Some " 42")) " 42" "4"%char).
  - vm_compute. reflexivity.
  - reflexivity.
  - reflexivity.
  - vm_compute. discriminate.
  - reflexivity.
  - reflexivity.
  - discriminate.
  - discriminate.
Defined.

(** ** The central error handler (lines 212-231) *)

(** Everything between the front of the stack and the error handler is an
    ordinary layer, so an error pending after the front goes straight to the
    error handler. *)
Lemma error_after_front (E : Env) (req : Request) (e : JsError) :
  flow (run (front E) Next req ctx0) = NextErr e ->
  run (app E) Next req ctx0 =
  let x := run (front E) Next req ctx0 in
  let '(c', r) := error_handler E e req (ctx x) in
  {| ctx := c'; trace := trace x ++ [("error-handler", ErrorMiddleware)];
     flow := settle r |}.
Proof.
  intros Hf. rewrite app_front, run_app. cbn zeta. rewrite Hf.
  rewrite (run_to_error_handler E (fallback_routes E) _ req _
             (fallback_routes_normal E)).
  destruct (error_handler E e req (ctx (run (front E) Next req ctx0))).
  reflexivity.
Qed.

(** X8.  An error raised before the fallbacks (by a router, a sanitizer or
    the body-size check) while no response has been started is answered by
    the error handler: the status is [err.statusCode], or 500 when that is
    missing or zero, and the body carries [err.status] (or ['error'] when
    that is missing, zero or empty) and [err.message].  None of the
    fallback handlers runs. *)
Theorem errors_answered_centrally (E : Env) (req : Request) (e : JsError) :
  flow (run (front E) Next req ctx0) = NextErr e ->
  sent (ctx (run (front E) Next req ctx0)) = None ->
  is_bad_json e = false ->
  exists r,
    response E req = Some r /\
    status r = match err_statusCode e with
               | Some (S n) => S n
               | _ => 500%nat
               end /\
    body_field "status" r
      = Some (match err_status e with
              | Some (SNum (S n)) => JNum (inject_Z (Z.of_nat (S n)))
              | Some (SStr (String a t)) => JStr (String a t)
              | _ => JStr "error"
              end) /\
    body_field "message" r = Some (JStr (message e)) /\
    trace (handle E req)
      = trace (run (front E) Next req ctx0)
        ++ [("error-handler", ErrorMiddleware)].
Proof.
  intros Hf Hs Hb.
  pose proof (error_after_front E req e Hf) as Hrun. cbn zeta in Hrun.
  destruct (error_handler_sends E e req _ Hb Hs) as (c' & Hc' & Hsent).
  rewrite Hc' in Hrun.
  eexists. split; [apply (response_of_run _ _ _ _ Hrun); exact Hsent|].
  split; [|split; [|split]].
  - cbn [status]. unfold error_code.
    destruct (err_statusCode e) as [[|n]|]; reflexivity.
  - unfold body_field, error_body. cbn [body assoc List.app].
    cbn. f_equal.
    destruct (err_status e) as [[[|n]|[|a t]]|]; reflexivity.
  - unfold body_field, error_body. cbn [body]. cbn. reflexivity.
  - rewrite (trace_of_run _ _ _ Hrun). reflexivity.
Qed.

Lemma errors_answered_centrally_witness :
  exists r,
    response guarded_orders (Sample.request GET "/api/orders/7" None None)
      = Some r /\
    status r = 401%nat /\
    body_field "status" r = Some (JStr "fail") /\
    body_field "message" r = Some (JStr "You are not logged in") /\
    trace (handle guarded_orders (Sample.request GET "/api/orders/7" None None))
      = trace (run (front guarded_orders) Next
                 (Sample.request GET "/api/orders/7" None None) ctx0)
        ++ [("error-handler", ErrorMiddleware)].
Proof.
  apply (errors_answered_centrally guarded_orders
           (Sample.request GET "/api/orders/7" None None) unauthorized).
  - vm_compute. reflexivity.
  - vm_compute. reflexivity.
  - reflexivity.
Defined.

(** X9.  The error handler's response carries the stack trace exactly when
    [NODE_ENV] is ['development']: in every other mode (unset included) the
    body has no [stack] field. *)
Theorem stack_only_in_development (E : Env) (req : Request) (e : JsError) :
  flow (run (front E) Next req ctx0) = NextErr e ->
  sent (ctx (run (front E) Next req ctx0)) = None ->
  is_bad_json e = false ->
  exists r,
    response E req = Some r /\
    body_field "stack" r
      = if bool_decide (process_env E !! "NODE_ENV" = Some "development")
        then Some (JStr (err_stack e)) else None.
Proof.
  intros Hf Hs Hb.
  pose proof (error_after_front E req e Hf) as Hrun. cbn zeta in Hrun.
  destruct (error_handler_sends E e req _ Hb Hs) as (c' & Hc' & Hsent).
  rewrite Hc' in Hrun.
  eexists. split; [apply (response_of_run _ _ _ _ Hrun); exact Hsent|].
  unfold body_field, error_body. cbn [body]. fold (development E).
  destruct (development E); reflexivity.
Qed.

Lemma stack_only_in_development_witness :
  (exists r,
     response guarded_orders (Sample.request GET "/api/orders/7" None None)
       = Some r /\
     body_field "stack" r
       = if bool_decide (process_env guarded_orders !! "NODE_ENV"
                         = Some "development")
         then Some (JStr (err_stack unauthorized)) else None) /\
  (exists r,
     response (in_development guarded_orders)
       (Sample.request GET "/api/orders/7" None None) = Some r /\
     body_field "stack" r
       = if bool_decide (process_env (in_development guarded_orders) !! "NODE_ENV"
                         = Some "development")
         then Some (JStr (err_stack unauthorized)) else None).
Proof.
  split.
  - apply (stack_only_in_development guarded_orders
             (Sample.request GET "/api/orders/7" None None) unauthorized).
    + vm_compute. reflexivity.
    + vm_compute. reflexivity.
    + reflexivity.
  - apply (stack_only_in_development (in_development guarded_orders)
             (Sample.request GET "/api/orders/7" None None) unauthorized).
    + vm_compute. reflexivity.
    + vm_compute. reflexivity.
    + reflexivity.
Defined.

(** ** The catch-all without a bundle (lines 163-173) *)

(** X10.  In API-only mode a page request is not ignored: a GET or HEAD
    outside [/api/] that nothing before the fallbacks answers makes
    [sendFile] fail, and the error handler answers with status 404 and a
    message that quotes the path of the missing [index.html] on the
    server's disk. *)
Theorem page_without_index (E : Env) (req : Request) :
  get_or_head req = true ->
  startsWith (originalUrl req) "/api/" = false ->
  passes (front E) req ->
  isFile E (index_html E) = false ->
  exists r,
    response E req = Some r /\
    status r = 404%nat /\
    body_field "status" r = Some (JNum (inject_Z 404)) /\
    body_field "message" r
      = Some (JStr ("ENOENT: no such file or directory, stat '"
                    +:+ index_html E +:+ "'")).
Proof.
  intros Hg Hurl Hp Hfile.
  destruct (passes_fresh _ _ (front_quiet E) Hp) as (_ & Hs & _).
  assert (Hrun : exists c',
    run (app E) Next req ctx0 =
      {| ctx := c';
         trace := trace (run (front E) Next req ctx0)
                  ++ [("GET *", RouteHandler); ("error-handler", ErrorMiddleware)];
         flow := End |} /\
    sent c' = Some {| status := 404;
                      body := BJson (error_body E (ENOENT (index_html E))) |}).
  { rewrite app_front, run_app. cbn zeta. rewrite Hp.
    rewrite fallback_routes_split. cbn [List.app].
    erewrite run_enter by first [exact Hg | reflexivity].
    unfold catch_all. rewrite Hurl. unfold res_sendFile. fold (index_html E).
    rewrite Hfile. cbn [ret fst snd settle].
    rewrite (run_to_error_handler E _ _ req _ (bundle_tail_normal E)).
    destruct (error_handler_sends E (ENOENT (index_html E)) req _ eq_refl Hs)
      as (c' & Hc' & Hsent).
    rewrite Hc'. exists c'. split; [reflexivity | exact Hsent]. }
  destruct Hrun as (c' & Hrun & Hsent).
  eexists. split; [apply (response_of_run _ _ _ _ Hrun); exact Hsent|].
  repeat split.
Qed.

Lemma page_without_index_witness :
  exists r,
    response Sample.api_only (Sample.request GET "/dashboard" None None)
      = Some r /\
    status r = 404%nat /\
    body_field "status" r = Some (JNum (inject_Z 404)) /\
    body_field "message" r
      = Some (JStr ("ENOENT: no such file or directory, stat '"
                    +:+ index_html Sample.api_only +:+ "'")).
Proof.
  apply (page_without_index Sample.api_only
           (Sample.request GET "/dashboard" None None)).
  - reflexivity.
  - reflexivity.
  - vm_compute. reflexivity.
  - reflexivity.
Defined.

(** ** Layers behind the first catch-all (lines 177-196) *)

Lemma trace_run_app (st1 st2 : list Layer) (f : Flow) (req : Request) (c : Ctx) :
  trace (run (st1 ++ st2) f req c)
  = trace (run st1 f req c)
    ++ trace (run st2 (flow (run st1 f req c)) req (ctx (run st1 f req c))).
Proof. rewrite run_app. reflexivity. Qed.

Lemma error_handler_trace (E : Env) (mid : list Layer) (e : JsError)
    (req : Request) (c : Ctx) :
  forallb is_normal mid = true ->
  trace (run (mid ++ [error_layer E]) (NextErr e) req c)
  = [("error-handler", ErrorMiddleware)].
Proof.
  intros Hmid. rewrite (run_to_error_handler E mid e req c Hmid).
  destruct (error_handler E e req c). reflexivity.
Qed.

(** The first catch-all never calls [next()]. *)
Lemma catch_all_never_next (E : Env) (req : Request) (c : Ctx) :
  settle (snd (catch_all E req c)) <> Next.
Proof.
  unfold catch_all, res_sendFile.
  destruct (startsWith (originalUrl req) "/api/");
    [|destruct (isFile E _)]; js_eval; try discriminate;
    destruct (sent c); discriminate.
Qed.

(** For a GET or HEAD the fallbacks are the first catch-all and, if it
    failed, the error handler. *)
Lemma fallbacks_trace_get (E : Env) (req : Request) (c : Ctx) :
  get_or_head req = true ->
  trace (run (fallback_routes E ++ [error_layer E]) Next req c)
    = [("GET *", RouteHandler)] \/
  trace (run (fallback_routes E ++ [error_layer E]) Next req c)
    = [("GET *", RouteHandler); ("error-handler", ErrorMiddleware)].
Proof.
  intros Hg. rewrite fallback_routes_split. cbn [List.app].
  erewrite run_enter by first [exact Hg | reflexivity].
  pose proof (catch_all_never_next E req c) as Hn.
  destruct (catch_all E req c) as [c' r]. cbn [fst snd] in *.
  destruct (settle r) as [|e|]; [contradiction| |].
  - right. cbn [trace name kind route].
    rewrite (error_handler_trace E _ e req c' (bundle_tail_normal E)).
    reflexivity.
  - left. rewrite run_End. reflexivity.
Qed.

Lemma front_names (E : Env) (n : string) :
  n = "GET * (bundle)" \/ n = "no-store" \/ n = "static:cdclient/build" ->
  forallb (fun l => negb (String.eqb (name l) n)) (front E) = true.
Proof.
  intros Hn. unfold front, admission, routes, dev_logging.
  rewrite !forallb_app.
  destruct Hn as [->|[->| ->]]; destruct (development E); reflexivity.
Qed.

(** Where a layer behind the first catch-all can show up in the trace: only
    after the front has passed a request that is neither GET nor HEAD. *)
Lemma behind_catch_all (E : Env) (req : Request) (n : string) (k : Kind) :
  n = "GET * (bundle)" \/ n = "no-store" \/ n = "static:cdclient/build" ->
  In (n, k) (trace (handle E req)) ->
  passes (front E) req /\ get_or_head req = false.
Proof.
  intros Hn Hin. rewrite handle_trace, app_front, trace_run_app in Hin.
  apply in_app_or in Hin as [Hin|Hin].
  { exfalso. revert Hin. apply not_in_trace, front_names, Hn. }
  unfold passes.
  destruct (flow (run (front E) Next req ctx0)) as [|e|] eqn:Hf.
  - split; [reflexivity|].
    destruct (get_or_head req) eqn:Hg; [|reflexivity]. exfalso.
    destruct (fallbacks_trace_get E req (ctx (run (front E) Next req ctx0)) Hg)
      as [Ht|Ht]; rewrite Ht in Hin;
      destruct Hn as [->|[->| ->]];
      repeat (destruct Hin as [Hin|Hin]; [discriminate|]); exact Hin.
  - exfalso.
    rewrite (error_handler_trace E _ e req _ (fallback_routes_normal E)) in Hin.
    destruct Hn as [->|[->| ->]]; destruct Hin as [Hin|[]]; discriminate.
  - exfalso. rewrite run_End in Hin. destruct Hin.
Qed.

(** X11.  The second [app.get('*')], registered when the build directory
    exists, never runs: it only matches GET and HEAD, and the first
    catch-all has already ended every one of those. *)
Theorem second_catch_all_never_runs (E : Env) (req : Request) :
  ~ In ("GET * (bundle)", RouteHandler) (trace (handle E req)).
Proof.
  intros Hin.
  destruct (behind_catch_all E req _ _ (or_introl eq_refl) Hin) as [Hp Hg].
  rewrite handle_trace in Hin. apply trace_applies in Hin as (l & Hl & Hn & Ha).
  assert (Hall : forallb (fun l => implb (String.eqb (name l) "GET * (bundle)")
                                     (Bool.eqb (applies l req) (get_or_head req)))
                   (app E) = true).
  { rewrite app_segments, !forallb_app. unfold dev_logging, fallback_routes.
    destruct (development E), (existsSync E (buildPath E)); cbn;
      rewrite ?Bool.eqb_reflx; reflexivity. }
  rewrite forallb_forall in Hall. specialize (Hall l Hl).
  rewrite Hn, String.eqb_refl, Ha, Hg in Hall. discriminate.
Qed.

(** X12.  [express.static(buildPath)] never serves a file: it runs only
    for requests that are neither GET nor HEAD, and those it passes on
    without looking at the disk or touching the response. *)
Theorem bundle_static_never_serves (E : Env) (req : Request) :
  In ("static:cdclient/build", Middleware) (trace (handle E req)) ->
  get_or_head req = false /\
  forall c, express_static E (buildPath E) req c = (c, Ok Next).
Proof.
  intros Hin.
  destruct (behind_catch_all E req _ _ (or_intror (or_intror eq_refl)) Hin)
    as [_ Hg].
  split; [exact Hg|]. intros c. unfold express_static. rewrite Hg. reflexivity.
Qed.

Lemma bundle_static_never_serves_witness :
  let req := Sample.request POST "/dashboard" None None in
  get_or_head req = false /\
  forall c, express_static Sample.with_bundle (buildPath Sample.with_bundle) req c
            = (c, Ok Next).
Proof.
  cbn zeta.
  apply (bundle_static_never_serves Sample.with_bundle
           (Sample.request POST "/dashboard" None None)).
  vm_compute. repeat first [left; reflexivity | right].
Defined.

(** The response is read off the context and the flow at the end of the
    stack. *)
Lemma response_by_outcome (E : Env) (req : Request) (y : Exchange) :
  outcome (run (app E) Next req ctx0) = outcome y ->
  response E req = sent (finalhandler E req y).
Proof.
  intros Ho. rewrite response_unfold.
  rewrite (finalhandler_outcome E E req _ y eq_refl Ho). reflexivity.
Qed.

(** What is left of the fallbacks for a request that is neither GET nor
    HEAD: the development header and the API 404. *)
Lemma fallbacks_other_methods (E : Env) (req : Request) (c : Ctx) :
  get_or_head req = false ->
  outcome (run (fallback_routes E ++ [error_layer E]) Next req c)
  = outcome (run (tail_routes E ++ [error_layer E]) Next req c).
Proof.
  intros Hg. rewrite fallback_routes_split. cbn [List.app].
  rewrite run_skip by exact Hg. rewrite <- app_assoc.
  apply bundle_layers_inert. exact Hg.
Qed.

(** A request that is neither GET nor HEAD and that nothing before the
    fallbacks answers gets a 404: the API envelope under [/api/], Express's
    own page elsewhere. *)
Lemma other_methods_404 (E : Env) (req : Request) :
  passes (front E) req -> get_or_head req = false ->
  exists b, response E req = Some {| status := 404; body := b |}.
Proof.
  intros Hp Hg.
  destruct (passes_fresh _ _ (front_quiet E) Hp) as (_ & Hs & _).
  assert (Ho : outcome (run (app E) Next req ctx0)
               = outcome (run (tail_routes E ++ [error_layer E]) Next req
                            (ctx (run (front E) Next req ctx0)))).
  { rewrite app_front, outcome_run_app, Hp. apply fallbacks_other_methods, Hg. }
  rewrite (response_by_outcome _ _ _ Ho).
  generalize dependent (ctx (run (front E) Next req ctx0)). intros c Hs _.
  unfold tail_routes.
  destruct (development E), (api_star_match req) eqn:Hstar; cbn [List.app];
    repeat first
      [ rewrite run_skip by exact Hstar
      | erewrite run_enter by first [exact Hstar | reflexivity];
        unfold no_store, api_not_found; js_eval; rewrite ?Hs; js_eval ];
    rewrite ?run_End;
    unfold finalhandler; cbn [run error_layer applies handler ctx flow sent];
    js_eval; rewrite ?Hs; js_eval; eexists; reflexivity.
Qed.

(** X13.  The development-only [Cache-Control: no-store] middleware sits
    behind the first catch-all, so it never runs for a GET or HEAD, and
    every exchange in which it does run ends in a 404. *)
Theorem no_store_only_on_404 (E : Env) (req : Request) :
  In ("no-store", Middleware) (trace (handle E req)) ->
  get_or_head req = false /\
  exists b, response E req = Some {| status := 404; body := b |}.
Proof.
  intros Hin.
  destruct (behind_catch_all E req _ _ (or_intror (or_introl eq_refl)) Hin)
    as [Hp Hg].
  split; [exact Hg|]. apply other_methods_404; assumption.
Qed.

Lemma no_store_only_on_404_witness :
  let E := in_development Sample.api_only in
  let req := Sample.request PUT "/api/orders/7" None None in
  get_or_head req = false /\
  exists b, response E req = Some {| status := 404; body := b |}.
Proof.
  cbn zeta.
  apply (no_store_only_on_404 (in_development Sample.api_only)
           (Sample.request PUT "/api/orders/7" None None)).
  vm_compute. repeat first [left; reflexivity | right].
Defined.

(** ** Fatal signals, whatever else happens (lines 250-265) *)

(** How many connections end in a run of events. *)
Definition ended (evs : list Event) : nat :=
  length (List.filter (fun ev => match ev with
                                 | ConnectionEnded => true
                                 | _ => false
                                 end) evs).

(** The server is closed, [k + 1] connections are open, and the first
    callback waiting for the ['close'] event exits with status 1. *)
Definition draining_state (p : Proc) (k : nat) : Prop :=
  listening p = false /\ exited p = None /\ connections p = S k /\
  exists rest, on_closed p = ExitWith 1 :: rest.

Lemma exited_frozen (evs : list Event) (p : Proc) (code : Z) :
  exited p = Some code -> steps p evs = p.
Proof.
  intros H. induction evs as [|ev evs IH]; [reflexivity|].
  unfold steps in *. simpl. unfold step at 2. rewrite H. exact IH.
Qed.

Lemma run_callbacks_exited (l : list CloseCallback) (q : Proc) (code : Z) :
  exited q = Some code ->
  exited (fold_left (fun q cb => run_callback cb q) l q) = Some code.
Proof.
  revert q. induction l as [|cb l IH]; intros q H; [exact H|].
  simpl. apply IH. unfold run_callback. rewrite H. exact H.
Qed.

Lemma draining_signal (p : Proc) (k : nat) (s : Signal) :
  draining_state p k -> draining_state (step p (Sig s)) k.
Proof.
  destruct p as [l cn oc ex out]. intros (Hl & He & Hc & rest & Ho).
  cbn in Hl, He, Hc, Ho. subst.
  destruct s; cbn; repeat split; eexists; reflexivity.
Qed.

Lemma draining_open (p : Proc) (k : nat) :
  draining_state p k -> step p ConnectionOpened = p.
Proof. intros (Hl & _). apply closed_refuses, Hl. Qed.

Lemma draining_end (p : Proc) (k : nat) :
  draining_state p (S k) -> draining_state (step p ConnectionEnded) k.
Proof.
  destruct p as [l cn oc ex out]. intros (Hl & He & Hc & rest & Ho).
  cbn in Hl, He, Hc, Ho. subst. cbn. repeat split. eexists. reflexivity.
Qed.

Lemma draining_last (p : Proc) :
  draining_state p 0 -> exited (step p ConnectionEnded) = Some 1%Z.
Proof.
  destruct p as [l cn oc ex out]. intros (Hl & He & Hc & rest & Ho).
  cbn in Hl, He, Hc, Ho. subst.
  unfold step, emit_close_if_drained.
  cbn [exited listening connections on_closed output pred negb Nat.eqb andb
       fold_left].
  apply run_callbacks_exited. reflexivity.
Qed.

Lemma draining_exit (evs : list Event) (p : Proc) (k : nat) :
  draining_state p k ->
  exited (steps p evs) = if (S k <=? ended evs)%nat then Some 1%Z else None.
Proof.
  revert p k. induction evs as [|ev evs IH]; intros p k H.
  - destruct H as (_ & He & _). exact He.
  - change (steps p (ev :: evs)) with (steps (step p ev) evs).
    destruct ev as [s| |].
    + change (ended (Sig s :: evs)) with (ended evs).
      apply IH, draining_signal, H.
    + change (ended (ConnectionOpened :: evs)) with (ended evs).
      rewrite (draining_open p k H). apply IH, H.
    + change (ended (ConnectionEnded :: evs)) with (S (ended evs)).
      destruct k as [|k].
      * rewrite (exited_frozen evs _ 1%Z (draining_last p H)).
        apply draining_last, H.
      * rewrite (IH _ k (draining_end p k H)). reflexivity.
Qed.

(** X14.  After an unhandled rejection or an uncaught exception on a server
    with [n] open connections, the process exits with status 1 exactly when
    the [n]th of them has ended, whatever happens in between: connection
    attempts are refused, and further signals, fatal or not, neither hasten
    nor prevent the exit nor change its status. *)
Theorem fatal_exit_after_drain (s : Signal) (n : nat) (evs : list Event) :
  abnormal s = true ->
  exited (steps (on_signal s (serving n)) evs)
  = if (n <=? ended evs)%nat then Some 1%Z else None.
Proof.
  intros Hs. destruct n as [|k].
  - assert (He : exited (on_signal s (serving 0)) = Some 1%Z)
      by (destruct s; try discriminate; reflexivity).
    rewrite (exited_frozen evs _ 1%Z He). exact He.
  - apply draining_exit.
    destruct s; try discriminate; cbn; repeat split; eexists; reflexivity.
Qed.

Lemma fatal_exit_after_drain_witness :
  exited (steps (on_signal (unhandledRejection "MongoError" "timeout") (serving 2))
            [ConnectionOpened; ConnectionEnded; Sig SIGTERM;
             Sig (uncaughtException "TypeError" "x"); ConnectionEnded;
             ConnectionEnded])
  = if (2 <=? ended [ConnectionOpened; ConnectionEnded; Sig SIGTERM;
                     Sig (uncaughtException "TypeError" "x"); ConnectionEnded;
                     ConnectionEnded])%nat
    then Some 1%Z else None.
Proof.
  apply (fatal_exit_after_drain (unhandledRejection "MongoError" "timeout") 2).
  reflexivity.
Defined.

(** ** The fixed API routes and the routers (lines 124-161) *)

Lemma exact_match_path (pat : string) (req : Request) :
  exact_match pat req = true ->
  req_path req = pat \/ req_path req = pat +:+ "/".
Proof.
  unfold exact_match. intros H. apply orb_true_iff in H as [H|H];
    apply String.eqb_eq in H; [left | right]; exact H.
Qed.

(** Neither fixed route lies under a mount point of the router table. *)
Lemma fixed_paths_unmounted (req : Request) :
  exact_match "/api/health" req = true \/ exact_match "/api/data" req = true ->
  forallb (fun r => negb (mount_match (fst r) req)) routers = true.
Proof.
  intros [H|H]; apply exact_match_path in H as [H|H];
    unfold mount_match; rewrite H; reflexivity.
Qed.

(** X15.  The two fixed routes are registered after the fourteen routers,
    yet no router ever sees a request for [/api/health] or [/api/data],
    whatever its method: neither path lies under a mount point of the
    table. *)
Theorem fixed_routes_bypass_routers (E : Env) (req : Request) :
  exact_match "/api/health" req = true \/ exact_match "/api/data" req = true ->
  List.filter (fun e => is_router (snd e)) (trace (handle E req)) = [].
Proof.
  intros Hpath.
  assert (Hlen : (length (List.filter (fun e => is_router (snd e))
                            (trace (handle E req))) <= 0)%nat).
  { rewrite handle_trace.
    etransitivity; [apply (trace_count is_router)|].
    rewrite routers_among_layers.
    rewrite (filter_none (fun r => mount_match (fst r) req) routers
               (fixed_paths_unmounted req Hpath)).
    reflexivity. }
  destruct (List.filter _ _); [reflexivity | simpl in Hlen; lia].
Qed.

Lemma fixed_routes_bypass_routers_witness :
  List.filter (fun e => is_router (snd e))
    (trace (handle guarded_orders
              (Sample.request DELETE "/API/Data/?x=1" None None))) = [].
Proof.
  apply (fixed_routes_bypass_routers guarded_orders
           (Sample.request DELETE "/API/Data/?x=1" None None)).
  right. reflexivity.
Defined.

(** Everything registered before the routers. *)
Definition before_routers (E : Env) : list Layer :=
  admission E ++ dev_logging E
  ++ [use_all "static:client/build"
        (express_static E (path_join (dirname E) "client/build"))].

Lemma before_health_routers (E : Env) :
  before_health E = before_routers E ++ tl (mounts E).
Proof.
  unfold before_health, before_routers, mounts. cbn [tl].
  rewrite <- !app_assoc. reflexivity.
Qed.

Lemma run_none (st : list Layer) (req : Request) (c : Ctx) :
  forallb (fun l => negb (applies l req)) st = true ->
  run st Next req c = {| ctx := c; trace := []; flow := Next |}.
Proof.
  induction st as [|l st IH]; intros H; [reflexivity|].
  simpl in H. apply andb_true_iff in H as [Hl Hst].
  apply negb_true_iff in Hl. rewrite (run_skip _ _ _ _ Hl). apply IH, Hst.
Qed.

Lemma router_layers_skipped (E : Env) (req : Request) :
  forallb (fun r => negb (mount_match (fst r) req)) routers = true ->
  forallb (fun l => negb (applies l req)) (tl (mounts E)) = true.
Proof.
  unfold mounts. cbn [tl]. generalize routers. intros rs.
  induction rs as [|r rs IH]; intros H; [reflexivity|].
  simpl in H. apply andb_true_iff in H as [Hr Hrs].
  simpl. rewrite Hr. apply IH, Hrs.
Qed.

Lemma passes_routers (E : Env) (req : Request) :
  exact_match "/api/health" req = true \/ exact_match "/api/data" req = true ->
  passes (before_routers E) req -> passes (before_health E) req.
Proof.
  intros Hpath Hp. unfold passes in *.
  rewrite before_health_routers, run_app. cbn zeta. rewrite Hp.
  rewrite (run_none _ _ _
             (router_layers_skipped E req (fixed_paths_unmounted req Hpath))).
  reflexivity.
Qed.

Lemma api_data_sends (req : Request) (c : Ctx) :
  sent c = None ->
  api_data req c =
  ({| statusCode := statusCode c;
      sent := Some {| status := statusCode c;
                      body := BJson (JObj [("message", JStr "API response")]) |};
      headers := headers c; console := console c |}, Ok End).
Proof.
  intros Hs. unfold api_data. js_eval. rewrite Hs. reflexivity.
Qed.

Lemma data_is_not_health (req : Request) :
  exact_match "/api/data" req = true -> is_health req = false.
Proof.
  intros H. unfold is_health, exact_match.
  apply exact_match_path in H as [H|H]; rewrite H; apply andb_false_r.
Qed.

(** X16.  A GET or HEAD of [/api/data] that the middleware registered before
    the routers lets through is answered with [{message: 'API response'}] and
    status 200, whatever the routers are: the handler sets no status, and
    nothing that ran before it changed the default. *)
Theorem data_endpoint (E : Env) (req : Request) :
  get_or_head req = true -> exact_match "/api/data" req = true ->
  passes (before_routers E) req ->
  response E req
  = Some {| status := 200;
            body := BJson (JObj [("message", JStr "API response")]) |}.
Proof.
  intros Hg Hd Hp.
  pose proof (passes_routers E req (or_intror Hd) Hp) as Hp'.
  destruct (passes_fresh _ _ (before_health_quiet E) Hp') as (Hc & Hs & _).
  unfold response, handle. rewrite app_health, run_app. cbn zeta. rewrite Hp'.
  rewrite (run_skip (route "GET /api/health" is_health (health E)) _ _ _
             (data_is_not_health req Hd)).
  cbn [tl fixed_routes List.app].
  erewrite run_enter;
    [| cbn [applies route]; rewrite Hg, Hd; reflexivity | reflexivity].
  rewrite (api_data_sends req _ Hs). cbn [fst snd settle]. rewrite run_End.
  cbn [ctx finalhandler sent]. rewrite Hc. reflexivity.
Qed.

Lemma data_endpoint_witness :
  response guarded_orders (Sample.request HEAD "/api/data/" None None)
  = Some {| status := 200;
            body := BJson (JObj [("message", JStr "API response")]) |}.
Proof.
  apply (data_endpoint guarded_orders
           (Sample.request HEAD "/api/data/" None None)).
  - reflexivity.
  - reflexivity.
  - vm_compute. reflexivity.
Defined.

(** ** The start-up banner (lines 241-244) *)

(** [process.env.PORT || 3001], as a template literal prints it. *)
Definition PORT (E : Env) : string := or_else (process_env E !! "PORT") "3001".

(** The first line the [listen] callback logs. *)
Definition listening_banner (E : Env) : string :=
  " Server running in "
  +:+ or_else (process_env E !! "NODE_ENV") "development"
  +:+ " mode on port " +:+ PORT E.

(** The layers registered under [NODE_ENV === 'development']. *)
Definition development_only : list string :=
  ["morgan"; "request-logger"; "no-store"].

Lemma falsy_not_development (E : Env) :
  truthy (process_env E !! "NODE_ENV") = false -> development E = false.
Proof.
  intros H. unfold development. apply bool_decide_eq_false. intros Heq.
  rewrite Heq in H. discriminate.
Qed.

Lemma production_names (E : Env) (n : string) :
  development E = false -> In n development_only ->
  forallb (fun l => negb (String.eqb (name l) n)) (app E) = true.
Proof.
  intros Hdev Hn.
  unfold app, admission, routes, fallbacks, fallback_routes, dev_logging.
  rewrite Hdev, !forallb_app.
  destruct Hn as [<-|[<-|[<-|[]]]];
    destruct (existsSync E (buildPath E)); reflexivity.
Qed.

(** X17.  Started without [NODE_ENV] (unset or empty), the server announces
    itself as running in development mode, while none of what the file
    registers for development is in place: no request is ever logged by
    morgan or the request logger, and none gets the no-store header. *)
Theorem banner_overstates_development (E : Env) :
  truthy (process_env E !! "NODE_ENV") = false ->
  listening_banner E
  = " Server running in development mode on port " +:+ PORT E /\
  (forall req n, In n development_only ->
                 ~ In (n, Middleware) (trace (handle E req))).
Proof.
  intros H. split.
  - unfold listening_banner, or_else at 1. rewrite H. reflexivity.
  - intros req n Hn. rewrite handle_trace.
    apply not_in_trace, production_names; [apply falsy_not_development, H | exact Hn].
Qed.

Lemma banner_overstates_development_witness :
  listening_banner Sample.api_only
  = " Server running in development mode on port " +:+ PORT Sample.api_only /\
  (forall req n, In n development_only ->
                 ~ In (n, Middleware) (trace (handle Sample.api_only req))).
Proof.
  apply (banner_overstates_development Sample.api_only). reflexivity.
Defined.

(** ** Every exchange ends with a response *)

(** A handler that ends the exchange has written a response. *)
Definition finishing_handler (h : Request -> Js Flow) : Prop :=
  forall req c c', h req c = (c', Ok End) -> sent c' <> None.

Definition finishing (l : Layer) : Prop :=
  match handler l with
  | Normal h => finishing_handler h
  | OnError h => forall e, finishing_handler (h e)
  end.

Ltac answered H :=
  crunch H;
  repeat match type of H with
         | context [match sent ?c with _ => _ end] => destruct (sent c)
         end;
  first [ discriminate H | injection H as <-; cbn [sent]; discriminate ].

Lemma cors_mw_finishing : finishing_handler cors_mw.
Proof.
  intros req c c' H. destruct (origin_ok (origin req)) eqn:Ho.
  - rewrite (cors_mw_accepts _ _ Ho) in H.
    destruct (method req); try discriminate H. answered H.
  - rewrite (cors_mw_rejects _ _ Ho) in H. discriminate.
Qed.

Lemma third_party_finishing (E : Env) (n : string) :
  finishing_handler (third_party E n).
Proof.
  intros req c c' H. unfold third_party in H.
  destruct (plugin E n req); answered H.
Qed.

Lemma limiter_finishing (E : Env) : finishing_handler (limiter E).
Proof.
  intros req c c' H. unfold limiter in H.
  destruct (over_quota E limiter_options req); answered H.
Qed.

Lemma parse_body_continues (E : Env) (buf : string) : parse_body E buf <> End.
Proof.
  unfold parse_body. destruct (String.length buf =? 0)%nat; [discriminate|].
  destruct (first_char buf) as [a|]; [|discriminate].
  destruct a as [[] [] [] [] [] [] [] []]; try discriminate;
    destruct (JSON_parse_ok E buf); discriminate.
Qed.

Lemma express_json_finishing (E : Env) : finishing_handler (express_json E).
Proof.
  intros req c c' H. unfold express_json in H.
  destruct (raw_body req) as [buf|]; [|discriminate].
  destruct (negb (json_typed req)); [discriminate|].
  destruct (json_limit <? N.of_nat (String.length buf))%N; [discriminate|].
  unfold verify in H. destruct (JSON_parse_ok E buf).
  - crunch H. injection H as _ Hf. destruct (parse_body_continues E buf Hf).
  - crunch H. destruct (sent c); discriminate.
Qed.

Lemma request_logger_finishing (E : Env) : finishing_handler (request_logger E).
Proof.
  intros req c c' H. unfold request_logger in H.
  destruct (method req); crunch H; discriminate.
Qed.

Lemma express_static_finishing (E : Env) (root : string) :
  finishing_handler (express_static E root).
Proof.
  intros req c c' H. unfold express_static in H.
  destruct (get_or_head req); [|discriminate].
  destruct (serve_static E root _); answered H.
Qed.

Lemma res_sendFile_finishing (E : Env) (p : string) (c c' : Ctx) :
  res_sendFile E p c = (c', Ok End) -> sent c' <> None.
Proof.
  intros H. unfold res_sendFile in H. destruct (isFile E p); answered H.
Qed.

Lemma catch_all_finishing (E : Env) : finishing_handler (catch_all E).
Proof.
  intros req c c' H. unfold catch_all in H.
  destruct (startsWith (originalUrl req) "/api/");
    [answered H | exact (res_sendFile_finishing _ _ _ _ H)].
Qed.

Lemma error_handler_finishing (E : Env) (e : JsError) :
  finishing_handler (error_handler E e).
Proof.
  intros req c c' H. unfold error_handler in H.
  destruct (match err_class e, err_status e with
            | SyntaxErrorClass, Some (SNum 400) => err_has_body e
            | _, _ => false
            end); [answered H|].
  cbn zeta in H. destruct (development E); answered H.
Qed.

Ltac finishing_list :=
  repeat first
    [ apply List.Forall_nil
    | apply List.Forall_cons;
      [ unfold finishing; cbn [handler use_all use_at route error_layer];
        first [ apply cors_mw_finishing | apply third_party_finishing
              | apply limiter_finishing | apply express_json_finishing
              | apply request_logger_finishing | apply express_static_finishing
              | apply catch_all_finishing | apply error_handler_finishing
              | intros req c c' H;
                first [ exact (res_sendFile_finishing _ _ _ _ H)
                      | unfold health, api_data, no_store, api_not_found in H;
                        answered H ] ] | ] ].

Lemma app_finishing (E : Env) : Forall finishing (app E).
Proof.
  rewrite app_segments. unfold routes, mounts. rewrite !Forall_app.
  repeat split.
  - unfold pre_parser. finishing_list.
  - unfold parsers. finishing_list.
  - unfold dev_logging. destruct (development E); finishing_list.
  - constructor; [apply express_static_finishing|].
    apply List.Forall_forall. intros l Hin.
    apply in_map_iff in Hin as (r & <- & _). apply third_party_finishing.
  - unfold fixed_routes. finishing_list.
  - unfold fallback_routes, bundle_index.
    destruct (existsSync E (buildPath E)), (development E);
      cbn [List.app]; finishing_list.
  - unfold error_layer. finishing_list.
Qed.

(** Whatever ends an exchange has written the response. *)
Lemma run_finishing (st : list Layer) (f : Flow) (req : Request) (c : Ctx) :
  Forall finishing st ->
  (f = End -> sent c <> None) ->
  flow (run st f req c) = End -> sent (ctx (run st f req c)) <> None.
Proof.
  intros Hst. revert f c. induction Hst as [|l st Hl _ IH]; intros f c Hc Hf.
  - apply Hc, Hf.
  - unfold finishing in Hl. simpl in *. destruct f as [|e|].
    + destruct (applies l req); [|apply IH; [discriminate | exact Hf]].
      destruct (handler l) as [h|h]; [|apply IH; [discriminate | exact Hf]].
      destruct (h req c) as [c' r] eqn:Hh. cbn [ctx flow] in *.
      apply IH; [|exact Hf].
      intros Hr. destruct r as [[|e|]|e]; try discriminate Hr.
      exact (Hl _ _ _ Hh).
    + destruct (applies l req); [|apply IH; [discriminate | exact Hf]].
      destruct (handler l) as [h|h]; [apply IH; [discriminate | exact Hf]|].
      destruct (h e req c) as [c' r] eqn:Hh. cbn [ctx flow] in *.
      apply IH; [|exact Hf].
      intros Hr. destruct r as [[|e'|]|e']; try discriminate Hr.
      exact (Hl _ _ _ _ Hh).
    + apply Hc. reflexivity.
Qed.

Lemma finalhandler_answers (E : Env) (req : Request) (x : Exchange) :
  (flow x = End -> sent (ctx x) <> None) ->
  sent (finalhandler E req x) <> None.
Proof.
  intros Hx. unfold finalhandler.
  destruct (sent (ctx x)) eqn:Hs; [rewrite Hs; discriminate|].
  destruct (flow x) as [|e|]; [| |destruct (Hx eq_refl eq_refl)];
    js_eval; rewrite Hs; discriminate.
Qed.

(** X18.  No request is left without a response: every handler of the file
    that ends an exchange has written one, and what falls off the end of the
    stack, with or without an error, gets Express's default reply. *)
Theorem always_answered (E : Env) (req : Request) :
  exists r, response E req = Some r.
Proof.
  rewrite response_unfold.
  assert (Hrun : flow (run (app E) Next req ctx0) = End ->
                 sent (ctx (run (app E) Next req ctx0)) <> None)
    by (apply run_finishing; [apply app_finishing | discriminate]).
  pose proof (finalhandler_answers E req _ Hrun) as H. clear Hrun.
  destruct (sent (finalhandler E req (run (app E) Next req ctx0))) as [r|];
    [exists r; reflexivity | contradiction].
Qed.

End GatewayMore.
